(** * Customer-support message pipeline: escalation policy, intent
      classifier, channel formatter and the two agent runners.

    A shallow embedding of
      - src/skills/escalation_decision.py
      - src/skills/quick_answer.py
      - src/skills/sentiment_analysis.py
      - src/agent/formatters.py
      - src/agent/runner.py               (AgentRunner)
      - src/agent/whatsapp_agent_runner.py (WhatsAppAgentRunner)
      - src/workers/message_processor.py  (MessageProcessor)
      - src/channels/whatsapp_mcp_client.py, src/channels/whatsapp_handler.py
      - src/kafka/topics.py, src/kafka/client.py (the producer)
      - src/database/queries.py           (as far as the handler uses it)

    Text.  A Python [str] is a [string] whose characters are the code
    points below 256; [lower], [isalnum], [isspace] and the regular
    expression class \w are the Python ones on that range.  The canned
    reply texts are payloads that the code only passes around; the few
    characters of them that lie outside that range are kept as their
    UTF-8 bytes.

    Floats.  A sentiment score is a [pyfloat]: a rational (every finite
    double is one), an infinity, or NaN; the only operation the code
    applies to it is [<].

    Effects.  The ticket store, the sentiment model, the text generator
    and the delivery bridge are capabilities of an environment [env];
    a computation is a function on a [world] that returns a value or a
    raised exception together with the new world.  The WhatsApp handler
    and the Kafka worker run on a [plant], the world together with what
    was posted to the bridge and published to Kafka. *)

From Stdlib Require Import String Ascii List ZArith QArith Bool Lia.
From stdpp Require Import base option gmap strings.

Local Open Scope Z_scope.

(* ------------------------------------------------------------------ *)
(** ** Characters *)

Module Char.

Definition code (c : ascii) : N := N_of_ascii c.

Definition between (lo hi : N) (c : ascii) : bool :=
  ((lo <=? code c) && (code c <=? hi))%N.

Definition is_code (n : N) (c : ascii) : bool := (code c =? n)%N.

(** [str.lower] on one character: A-Z, and the Latin-1 capitals
    192..222 except the multiplication sign 215. *)
Definition lower (c : ascii) : ascii :=
  if between 65 90 c || (between 192 222 c && negb (is_code 215 c))
  then ascii_of_N (code c + 32)
  else c.

(** [str.isalnum] on one character. *)
Definition isalnum (c : ascii) : bool :=
  between 48 57 c || between 65 90 c || between 97 122 c
  || is_code 170 c || is_code 178 c || is_code 179 c || is_code 181 c
  || is_code 185 c || is_code 186 c || between 188 190 c
  || between 192 214 c || between 216 246 c || between 248 255 c.

(** The class \w of [re] on [str] patterns: alphanumeric or underscore. *)
Definition is_word (c : ascii) : bool := isalnum c || is_code 95 c.

(** [str.isspace] on one character; the separators of [str.split()]. *)
Definition isspace (c : ascii) : bool :=
  between 9 13 c || between 28 32 c || is_code 133 c || is_code 160 c.

End Char.

(* ------------------------------------------------------------------ *)
(** ** Python string operations *)

Module Str.

Definition len (s : string) : Z := Z.of_nat (String.length s).

(** [s.lower()] *)
Fixpoint lower (s : string) : string :=
  match s with
  | EmptyString => EmptyString
  | String c r => String (Char.lower c) (lower r)
  end.

(** [s.startswith(p)] *)
Fixpoint startswith (p s : string) : bool :=
  match p, s with
  | EmptyString, _ => true
  | String _ _, EmptyString => false
  | String a p', String b s' => Ascii.eqb a b && startswith p' s'
  end.

(** [p in s] *)
Fixpoint contains (p s : string) : bool :=
  startswith p s ||
  match s with
  | EmptyString => false
  | String _ r => contains p r
  end.

(** [s.find(p)]: the lowest index of an occurrence, or -1. *)
Fixpoint find (p s : string) : Z :=
  if startswith p s then 0
  else match s with
       | EmptyString => -1
       | String _ r => let i := find p r in if i <? 0 then -1 else i + 1
       end.

(** [s[i]] for [0 <= i]; [None] stands for IndexError. *)
Definition at_index (s : string) (i : Z) : option ascii :=
  if i <? 0 then None else String.get (Z.to_nat i) s.

(** [s[:n]] for a non-negative [n]. *)
Fixpoint take (n : nat) (s : string) : string :=
  match n, s with
  | O, _ => EmptyString
  | S _, EmptyString => EmptyString
  | S n', String c r => String c (take n' r)
  end.

(** [sep.join(l)] *)
Fixpoint join (sep : string) (l : list string) : string :=
  match l with
  | [] => EmptyString
  | [w] => w
  | w :: rest => w +:+ sep +:+ join sep rest
  end.

(** [s.split()]: maximal runs of non-space characters.  [cur] is the
    run being read, [None] between runs. *)
Fixpoint split_go (cur : option string) (s : string) : list string :=
  match s with
  | EmptyString => match cur with Some w => [String.rev w] | None => [] end
  | String c r =>
      if Char.isspace c
      then match cur with
           | Some w => String.rev w :: split_go None r
           | None => split_go None r
           end
      else split_go (Some (String c (default EmptyString cur))) r
  end.

Definition split (s : string) : list string := split_go None s.

(** [s.rsplit(' ', 1)[0]]: what precedes the last space, or [s] itself
    when it has none. *)
Fixpoint rsplit1_head (s : string) : option string :=
  match s with
  | EmptyString => None
  | String c r =>
      match rsplit1_head r with
      | Some h => Some (String c h)
      | None => if Ascii.eqb c " " then Some EmptyString else None
      end
  end.

Definition rsplit_space_first (s : string) : string :=
  default s (rsplit1_head s).

(** [s.lstrip(...)], [s.rstrip(...)], [s.strip(...)]: drop from the
    ends the characters that satisfy [drop]. *)
Fixpoint lstrip_by (drop : ascii -> bool) (s : string) : string :=
  match s with
  | EmptyString => EmptyString
  | String c r => if drop c then lstrip_by drop r else s
  end.

Definition rstrip_by (drop : ascii -> bool) (s : string) : string :=
  String.rev (lstrip_by drop (String.rev s)).

Definition strip_by (drop : ascii -> bool) (s : string) : string :=
  rstrip_by drop (lstrip_by drop s).

(** [s.strip()] *)
Definition strip (s : string) : string := strip_by Char.isspace s.

(** [s.strip(chars)] *)
Definition strip_chars (chars s : string) : string :=
  strip_by (fun c => contains (String c EmptyString) chars) s.

End Str.

(* ------------------------------------------------------------------ *)
(** ** Python floats, as far as the pipeline uses them *)

Inductive pyfloat : Type :=
| Finite (q : Q)
| PosInf
| NegInf
| NaN.

Module Float.

Definition Qltb (x y : Q) : bool := negb (Qle_bool y x).

(** [x < y]; every comparison with NaN is false. *)
Definition ltb (x y : pyfloat) : bool :=
  match x, y with
  | NaN, _ | _, NaN => false
  | Finite a, Finite b => Qltb a b
  | NegInf, (Finite _ | PosInf) => true
  | Finite _, PosInf => true
  | _, _ => false
  end.

(** [x <= y] *)
Definition leb (x y : pyfloat) : bool :=
  match x, y with
  | NaN, _ | _, NaN => false
  | Finite a, Finite b => Qle_bool a b
  | NegInf, _ => true
  | _, PosInf => true
  | _, _ => false
  end.

(** The doubles that the literals 0.2, 0.3, 0.5 and 0.0 denote. *)
Definition lit_0_2 : pyfloat :=
  Finite (3602879701896397 # 18014398509481984).
Definition lit_0_3 : pyfloat :=
  Finite (5404319552844595 # 18014398509481984).
Definition lit_0_5 : pyfloat := Finite (1 # 2).
Definition lit_0_0 : pyfloat := Finite 0.

End Float.

(* ------------------------------------------------------------------ *)
(** ** src/skills/escalation_decision.py *)

Module Escalation.

Definition HARD_ESCALATION_KEYWORDS : list string :=
  ["lawyer"; "legal"; "sue"; "attorney"; "lawsuit";
   "refund"; "cancellation"; "cancel"; "chargeback";
   "gdpr"; "data breach"; "compliance"].

Definition HUMAN_REQUEST_KEYWORDS : list string :=
  ["human"; "agent"; "real person"; "manager"; "representative"].

Record EscalationDecision : Type := mkDecision {
  should_escalate : bool;
  reason : string;
  urgency : string   (* "immediate" | "high" | "normal" *)
}.

(** [\b] on the left of a word character: the string starts here or
    the previous character is not a word character. *)
Definition boundary_left (prev : option ascii) : bool :=
  match prev with
  | None => true
  | Some c => negb (Char.is_word c)
  end.

(** [\b] on the right of a word character: the string ends here or
    the next character is not a word character. *)
Definition boundary_right (rest : string) : bool :=
  match rest with
  | EmptyString => true
  | String c _ => negb (Char.is_word c)
  end.

(** What is left of [s] after the prefix [p], when [p] is one. *)
Fixpoint strip_prefix (p s : string) : option string :=
  match p, s with
  | EmptyString, _ => Some s
  | String _ _, EmptyString => None
  | String a p', String b s' =>
      if Ascii.eqb a b then strip_prefix p' s' else None
  end.

(** Does the pattern [\bkw\b] match at the head of [s], [prev] being
    the character before it?  [kw] is a literal that begins and ends
    with a word character, as every listed keyword does. *)
Definition word_match_here (prev : option ascii) (kw s : string) : bool :=
  match strip_prefix kw s with
  | Some rest => boundary_left prev && boundary_right rest
  | None => false
  end.

(** [re.search(rf"\b{kw}\b", s)]: try every position from the left. *)
Fixpoint word_search_from (prev : option ascii) (kw s : string) : bool :=
  word_match_here prev kw s ||
  match s with
  | EmptyString => false
  | String c r => word_search_from (Some c) kw r
  end.

Definition word_search (kw s : string) : bool := word_search_from None kw s.

(** The first loop: [for kw in HARD_ESCALATION_KEYWORDS]. *)
Fixpoint hard_keyword_loop (kws : list string) (message_lower : string)
  : option EscalationDecision :=
  match kws with
  | [] => None
  | kw :: rest =>
      if Str.contains kw message_lower
      then Some (mkDecision true ("keyword_detected:" +:+ kw) "immediate")
      else hard_keyword_loop rest message_lower
  end.

(** The second loop: [for kw in HUMAN_REQUEST_KEYWORDS]. *)
Fixpoint human_request_loop (kws : list string) (message_lower : string)
  : option EscalationDecision :=
  match kws with
  | [] => None
  | kw :: rest =>
      if word_search kw message_lower
      then Some (mkDecision true "customer_requested_human" "high")
      else human_request_loop rest message_lower
  end.

Definition decide_escalation (message : string) (sentiment_score : pyfloat)
  : EscalationDecision :=
  let message_lower := Str.lower message in
  match hard_keyword_loop HARD_ESCALATION_KEYWORDS message_lower with
  | Some d => d
  | None =>
      match human_request_loop HUMAN_REQUEST_KEYWORDS message_lower with
      | Some d => d
      | None =>
          if Float.ltb sentiment_score Float.lit_0_2
          then mkDecision true "hostile_sentiment" "immediate"
          else if Float.ltb sentiment_score Float.lit_0_3
          then mkDecision true "negative_sentiment" "high"
          else mkDecision false EmptyString "normal"
      end
  end.

End Escalation.

(* ------------------------------------------------------------------ *)
(** ** src/skills/quick_answer.py *)

Module QuickAnswer.

Definition nl : string := String "010" EmptyString.
Definition dq : string := String "034" EmptyString.

(** A text given line by line. *)
Definition text (lines : list string) : string := Str.join nl lines.

Record intent_data : Type := mkIntent {
  keywords : list string;
  response : string;
  category : string;
  escalate : option bool   (* [None]: the entry has no such key *)
}.

Definition response_reset_password : string :=
  text
    ["Hi! To reset your password:";
     EmptyString;
     "1. Go to the login page";
     "2. Click " +:+ dq +:+ "Forgot Password" +:+ dq;
     "3. Enter your email";
     "4. Check your inbox for reset link";
     "5. Click the link and create a new password";
     EmptyString;
     "The reset link expires in 24 hours. Need more help?"].

Definition response_account_setup : string :=
  text
    ["Welcome! Here's how to get started:";
     EmptyString;
     "1. Visit our signup page";
     "2. Create account with work email";
     "3. Set up your workspace";
     "4. Invite team members";
     "5. Create your first project";
     EmptyString;
     "Need a walkthrough of features?"].

Definition response_pricing : string :=
  text
    ["We offer 3 plans:";
     EmptyString;
     "- Free: Up to 5 team members";
     "- Pro: Up to 50 members, advanced features";
     "- Enterprise: Unlimited members, priority support";
     EmptyString;
     "14-day free trial. No credit card needed.";
     EmptyString;
     "Want me to connect you with sales for custom pricing?"].

Definition response_refund : string :=
  text
    ["I understand you have a billing concern.";
     EmptyString;
     "Let me connect you with our billing specialist who can review your account and assist with refunds.";
     EmptyString;
     "A billing agent will contact you within 2 hours. Is there a specific issue I should note?"].

Definition response_api_key : string :=
  text
    ["To find your API key:";
     EmptyString;
     "1. Log in to dashboard";
     "2. Go to Settings → API";
     "3. Click " +:+ dq +:+ "Generate New Key" +:+ dq;
     "4. Store it securely (can't view again!)";
     EmptyString;
     "API docs available at our developer portal.";
     EmptyString;
     "Need help with specific integration?"].

Definition response_downtime : string :=
  text
    ["Sorry you're experiencing issues!";
     EmptyString;
     "Current system status: All systems operational";
     EmptyString;
     "Try these:";
     "1. Clear browser cache";
     "2. Try incognito mode";
     "3. Check internet connection";
     "4. Try different browser";
     EmptyString;
     "Still not working? I'll escalate to tech support."].

Definition response_feature_request : string :=
  text
    ["Great idea! I'd love to pass this to our product team.";
     EmptyString;
     "Can you share:";
     "- What problem this solves?";
     "- How you'd use it?";
     "- Any examples?";
     EmptyString;
     "Your feedback helps us improve!"].

Definition response_contact_support : string :=
  text
    ["I'll connect you with a human specialist right away.";
     EmptyString;
     "They'll review your conversation and contact you shortly.";
     EmptyString;
     "Is there a specific issue I should note for them?"].

Definition response_shipping : string :=
  text
    ["To check your order status:";
     EmptyString;
     "1. Log in to your account";
     "2. Go to Orders";
     "3. Click on order number";
     "4. View tracking info";
     EmptyString;
     "Standard: 3-5 business days";
     "Express: 1-2 business days";
     EmptyString;
     "Need help tracking?"].

Definition response_integration : string :=
  text
    ["We support these integrations:";
     EmptyString;
     "- Slack/Teams: Notifications";
     "- Zapier: 1000+ apps";
     "- GitHub/GitLab: Dev workflows";
     "- API: Custom integrations";
     EmptyString;
     "Which integration? I can guide you."].

Definition response_export_data : string :=
  text
    ["To export your data:";
     EmptyString;
     "1. Go to Settings";
     "2. Click " +:+ dq +:+ "Data & Privacy" +:+ dq;
     "3. Select " +:+ dq +:+ "Export Data" +:+ dq;
     "4. Choose format (CSV/JSON)";
     "5. Download will start";
     EmptyString;
     "Large exports may take a few minutes.";
     EmptyString;
     "Need help with specific data?"].

Definition response_team_invite : string :=
  text
    ["To invite team members:";
     EmptyString;
     "1. Go to Settings → Team";
     "2. Click " +:+ dq +:+ "Invite Members" +:+ dq;
     "3. Enter email addresses";
     "4. Assign roles (Admin/Member/Viewer)";
     "5. Send invitations";
     EmptyString;
     "They'll receive an email with signup link.";
     EmptyString;
     "Need help with permissions?"].

Definition response_two_factor : string :=
  text
    ["To enable 2FA:";
     EmptyString;
     "1. Go to Settings → Security";
     "2. Click " +:+ dq +:+ "Enable Two-Factor Auth" +:+ dq;
     "3. Scan QR code with authenticator app";
     "4. Enter the 6-digit code";
     "5. Save backup codes";
     EmptyString;
     "Supported apps: Google Authenticator, Authy, Microsoft Authenticator.";
     EmptyString;
     "Need help setting up?"].

Definition response_trial : string :=
  text
    ["We offer a 14-day free trial of our Pro plan:";
     EmptyString;
     "- No credit card required";
     "- All Pro features included";
     "- Up to 50 team members";
     "- Cancel anytime";
     EmptyString;
     "Want me to help you start a trial?"].

Definition response_demo : string :=
  text
    ["We offer live demos:";
     EmptyString;
     "- Group onboarding (Pro plans)";
     "- Dedicated training (Enterprise)";
     "- Self-service docs (all plans)";
     EmptyString;
     "What would you like to see? I can guide you to the right resources."].

(** The table, in the order the source lists it. *)
Definition QUICK_ANSWERS : list (string * intent_data) :=
  [ ("reset_password",
    {| keywords :=
         ["reset password"; "forgot password"; "can't login";
          "cannot login"; "locked out"; "password reset";
          "forgot my password"; "forget password"];
       response := response_reset_password;
       category := "account";
       escalate := None |});
    ("account_setup",
    {| keywords :=
         ["get started"; "setup account"; "create account"; "new user";
          "how to start"; "sign up"; "register"; "new account"];
       response := response_account_setup;
       category := "onboarding";
       escalate := None |});
    ("pricing",
    {| keywords :=
         ["price"; "cost"; "pricing"; "how much"; "upgrade"; "plan";
          "subscription"; "billing"; "prices"; "costs"; "pricing plan"];
       response := response_pricing;
       category := "sales";
       escalate := Some true |});
    ("refund",
    {| keywords :=
         ["refund"; "money back"; "cancel subscription";
          "billing issue"; "chargeback"; "unsubscrib"; "cancel";
          "subscription cancel"; "unsubscribe";
          "cancel my subscription"];
       response := response_refund;
       category := "billing";
       escalate := Some true |});
    ("api_key",
    {| keywords :=
         ["api key"; "api token"; "api access"; "integration";
          "webhook"; "api docs"; "rest api"; "api documentation";
          "developer api"];
       response := response_api_key;
       category := "technical";
       escalate := None |});
    ("downtime",
    {| keywords :=
         ["down"; "not working"; "error"; "server down";
          "can't access"; "outage"; "broken"; "bug"; "service down";
          "service is down"; "errors"; "getting errors"; "bug in"];
       response := response_downtime;
       category := "technical";
       escalate := None |});
    ("feature_request",
    {| keywords :=
         ["feature"; "suggestion"; "would be nice"; "can you add";
          "request"; "idea"; "improve"];
       response := response_feature_request;
       category := "feedback";
       escalate := None |});
    ("contact_support",
    {| keywords :=
         ["talk to human"; "speak to agent"; "real person";
          "customer service"; "support team"; "help"; "human support";
          "talk to a human"; "human agent"];
       response := response_contact_support;
       category := "support";
       escalate := Some true |});
    ("shipping",
    {| keywords :=
         ["shipping"; "delivery"; "when will"; "track order";
          "shipment"; "where is my order"];
       response := response_shipping;
       category := "orders";
       escalate := None |});
    ("integration",
    {| keywords :=
         ["integrate"; "integration"; "connect"; "slack"; "zapier";
          "webhook"; "teams"; "github"; "webhook configuration";
          "slack integration"];
       response := response_integration;
       category := "technical";
       escalate := None |});
    ("export_data",
    {| keywords :=
         ["export"; "download data"; "backup"; "csv"; "json";
          "data export"; "download csv"; "csv export"];
       response := response_export_data;
       category := "account";
       escalate := None |});
    ("team_invite",
    {| keywords :=
         ["invite"; "add member"; "add user"; "team member";
          "collaborator"; "invite team"];
       response := response_team_invite;
       category := "account";
       escalate := None |});
    ("two_factor",
    {| keywords :=
         ["2fa"; "two factor"; "authentication"; "security";
          "enable 2fa"];
       response := response_two_factor;
       category := "security";
       escalate := None |});
    ("trial",
    {| keywords :=
         ["trial"; "free trial"; "trial period"; "test"; "try before"];
       response := response_trial;
       category := "sales";
       escalate := None |});
    ("demo",
    {| keywords :=
         ["demo"; "demo request"; "show me"; "walkthrough"; "tutorial"];
       response := response_demo;
       category := "sales";
       escalate := None |}) ].

(** The patterns of [INTENT_PATTERNS]: alternations of literals,
    anchored or not.  All are compiled with [re.IGNORECASE]. *)
Inductive regex : Type :=
| StartsWith (alts : list string)   (* ^(a|b|...)  *)
| Somewhere (alts : list string)    (* (a|b|...)   *)
| Whole (alts : list string).       (* ^(a|b|...)$ *)

(** [^(a|b)$]: [$] also matches just before a final newline. *)
Definition whole_match (s alt : string) : bool :=
  String.eqb s alt || String.eqb s (alt +:+ nl).

(** [pattern.search(s)] without flags. *)
Definition re_search (r : regex) (s : string) : bool :=
  match r with
  | StartsWith alts => existsb (fun a => Str.startswith a s) alts
  | Somewhere alts => existsb (fun a => Str.contains a s) alts
  | Whole alts => existsb (whole_match s) alts
  end.

(** [pattern.search(s)] under [re.IGNORECASE]: the alternatives are
    lower-case literals, so the text is compared in lower case.  This
    is what [re] does on the code points below 256, the texts of this
    development.  Beyond them it is not: U+0130 matches "i" in the raw
    text, while [str.lower] turns it into "i" and a combining dot, so
    there a search of the raw text ([handle_greeting], [handle_thanks])
    and one of [message.lower()] ([classify_intent]) can differ; no
    statement below compares the two. *)
Definition re_search_ignorecase (r : regex) (s : string) : bool :=
  re_search r (Str.lower s).

Definition greeting_pattern : regex :=
  StartsWith ["hi"; "hello"; "hey"; "good morning"; "good afternoon";
              "good evening"; "yo"; "sup"].
Definition thanks_pattern : regex :=
  Somewhere ["thank"; "thanks"; "thx"; "appreciate"].
Definition yes_pattern : regex :=
  Whole ["yes"; "yeah"; "yep"; "sure"; "ok"; "okay"; "yup"].
Definition no_pattern : regex :=
  Whole ["no"; "nope"; "nah"; "don't"; "doesn't"; "not"].

Definition INTENT_PATTERNS : list (string * regex) :=
  [("greeting", greeting_pattern); ("thanks", thanks_pattern);
   ("yes", yes_pattern); ("no", no_pattern)].

(** [QUICK_ANSWERS[name]], [None] when [name not in QUICK_ANSWERS]. *)
Fixpoint lookup (name : string) (table : list (string * intent_data))
  : option intent_data :=
  match table with
  | [] => None
  | (k, v) :: rest => if String.eqb k name then Some v else lookup name rest
  end.

Definition priority_order : list string :=
  ["reset_password"; "account_setup"; "refund"; "pricing";
   "integration"; "api_key";
   "downtime"; "feature_request"; "contact_support"; "shipping";
   "export_data"; "team_invite"; "two_factor"; "trial"; "demo"].

(** [for intent, pattern in INTENT_PATTERNS.items()] *)
Fixpoint pattern_loop (ps : list (string * regex)) (message_lower : string)
  : option string :=
  match ps with
  | [] => None
  | (intent, pattern) :: rest =>
      if re_search_ignorecase pattern message_lower then Some intent
      else pattern_loop rest message_lower
  end.

(** [s[i].isalnum()]; [None] (IndexError) does not arise under the
    guards of [keyword_accepted], see [keyword_indices_defined]. *)
Definition isalnum_at (s : string) (i : Z) : bool :=
  match Str.at_index s i with
  | Some c => Char.isalnum c
  | None => false
  end.

(** The body of the keyword loop: does this keyword make the intent
    match? *)
Definition keyword_accepted (keyword message_lower : string) : bool :=
  let keyword_lower := Str.lower keyword in
  if Str.contains keyword_lower message_lower then
    if (3 <? Str.len keyword)
       || existsb (String.eqb keyword) ["down"; "csv"; "2fa"]
    then
      let idx := Str.find keyword_lower message_lower in
      if 0 <=? idx then
        let before_ok :=
          (idx =? 0) || negb (isalnum_at message_lower (idx - 1)) in
        let after_ok :=
          (Str.len message_lower <=? idx + Str.len keyword)
          || negb (isalnum_at message_lower (idx + Str.len keyword)) in
        before_ok && after_ok
      else false
    else false
  else false.

(** [for keyword in intent_data["keywords"]]: the keyword that matched. *)
Fixpoint keyword_loop (kws : list string) (message_lower : string)
  : option string :=
  match kws with
  | [] => None
  | keyword :: rest =>
      if keyword_accepted keyword message_lower then Some keyword
      else keyword_loop rest message_lower
  end.

(** [for intent_name in priority_order]: the intent and the keyword
    that the code logs as "Intent matched: ... (keyword: ...)". *)
Fixpoint priority_loop (names : list string) (message_lower : string)
  : option (string * string) :=
  match names with
  | [] => None
  | intent_name :: rest =>
      match lookup intent_name QUICK_ANSWERS with
      | None => priority_loop rest message_lower
      | Some intent_data =>
          match keyword_loop (keywords intent_data) message_lower with
          | Some keyword => Some (intent_name, keyword)
          | None => priority_loop rest message_lower
          end
      end
  end.

(** The keyword scan of [classify_intent], reached when no pattern
    matches. *)
Definition keyword_scan (message : string) : option (string * string) :=
  let message_lower := Str.lower message in
  match pattern_loop INTENT_PATTERNS message_lower with
  | Some _ => None
  | None => priority_loop priority_order message_lower
  end.

Definition classify_intent (message : string) : option string :=
  let message_lower := Str.lower message in
  match pattern_loop INTENT_PATTERNS message_lower with
  | Some intent => Some intent
  | None => option_map fst (priority_loop priority_order message_lower)
  end.

(** The dict that [get_quick_answer] returns. *)
Record quick_answer : Type := mkQuick {
  qa_intent : string;
  qa_response : string;
  qa_category : string;
  qa_escalate : bool;
  qa_source : string
}.

Definition get_quick_answer (message : string) : option quick_answer :=
  match classify_intent message with
  | None => None
  | Some intent =>
      if String.eqb intent EmptyString then None
      else
        match lookup intent QUICK_ANSWERS with
        | None => None
        | Some intent_data =>
            if existsb (String.eqb intent) ["greeting"; "thanks"; "yes"; "no"]
            then None
            else Some (mkQuick intent (response intent_data)
                         (category intent_data)
                         (default false (escalate intent_data))
                         "quick_answer")
        end
  end.

Definition greeting_text : string :=
  text ["Hello! 👋 I'm your AI support assistant.";
        EmptyString;
        "What can I help you with today?"].

Definition thanks_text : string :=
  text ["You're welcome! 😊";
        EmptyString;
        "Is there anything else I can help you with?"].

Definition handle_greeting (message : string) : option string :=
  if re_search_ignorecase greeting_pattern message
  then Some greeting_text else None.

Definition handle_thanks (message : string) : option string :=
  if re_search_ignorecase thanks_pattern message
  then Some thanks_text else None.

End QuickAnswer.

(* ------------------------------------------------------------------ *)
(** ** src/agent/formatters.py *)

Module Formatters.

Inductive Channel : Type := EMAIL | WEB_FORM | WHATSAPP.

(** [Channel(value)]; [None] stands for the ValueError of an unknown
    value. *)
Definition Channel_of_value (v : string) : option Channel :=
  if String.eqb v "email" then Some EMAIL
  else if String.eqb v "web_form" then Some WEB_FORM
  else if String.eqb v "whatsapp" then Some WHATSAPP
  else None.

Definition nl : string := QuickAnswer.nl.

Definition format_for_channel (content : string) (channel : Channel)
  (ticket_id : string) : string :=
  match channel with
  | EMAIL =>
      "Dear Customer," +:+ nl +:+ nl
      +:+ "Thank you for reaching out to Qirat Saeed AI Support."
      +:+ nl +:+ nl
      +:+ content +:+ nl +:+ nl
      +:+ "Best regards," +:+ nl +:+ "Qirat Saeed AI Support Team" +:+ nl
      +:+ "---" +:+ nl +:+ "Ticket: " +:+ ticket_id
  | WHATSAPP =>
      let truncated := Str.take 300 content in
      if 300 <? Str.len content
      then Str.rsplit_space_first truncated +:+ "..."
      else truncated
  | WEB_FORM =>
      content +:+ nl +:+ nl +:+ "---" +:+ nl
      +:+ "Need more help? Reply or contact support."
  end.

Definition count_words (text : string) : Z :=
  Z.of_nat (length (Str.split text)).

(** [words[:n]], also for a negative [n]. *)
Definition slice_to {A : Type} (n : Z) (l : list A) : list A :=
  if n <? 0
  then firstn (Z.to_nat (Z.of_nat (length l) + n)) l
  else firstn (Z.to_nat n) l.

Definition truncate_to_words (text : string) (max_words : Z) : string :=
  let words := Str.split text in
  if Z.of_nat (length words) <=? max_words then text
  else Str.join " " (slice_to max_words words) +:+ "...".

End Formatters.

(* ------------------------------------------------------------------ *)
(** ** The world the runners act on *)

(** The values that reach [_send_response] and the caller of the
    WhatsApp runner: a [str], or the coroutine object that calling an
    [async def] without [await] yields ([pending] is what awaiting it
    would give). *)
Inductive pyval : Type :=
| PStr (s : string)
| PCoroutine (pending : option string).

(** [bool(v)]: a coroutine object is always true. *)
Definition truthy (v : pyval) : bool :=
  match v with
  | PStr s => negb (String.eqb s EmptyString)
  | PCoroutine _ => true
  end.

(** [bool(x)] for a nullable text column. *)
Definition truthy_opt (x : option string) : bool :=
  match x with
  | Some s => negb (String.eqb s EmptyString)
  | None => false
  end.

(** [x or y] *)
Definition py_or (x : option string) (y : string) : string :=
  match x with
  | Some s => if String.eqb s EmptyString then y else s
  | None => y
  end.

Inductive exn : Type :=
| StoreFault                        (* the pool or the driver raised *)
| ModelFault                        (* the model client raised or timed out *)
| ParseFault                        (* json.loads, a key or float() raised *)
| DeliveryFault                     (* a channel handler raised *)
| ValueError (what : string)
| TypeError (what : string)
| UnboundLocalError (what : string).

Inductive outcome (A : Type) : Type :=
| Ok (a : A)
| Raise (e : exn).
Arguments Ok {A} a.
Arguments Raise {A} e.

(** A row of [tickets]; a row of [customers]; an outgoing row of
    [messages] (direction 'outgoing', role 'agent', status 'sent'). *)
Record ticket : Type := mkTicket {
  t_status : string;
  t_resolution_notes : option string;
  t_source_channel : string;
  t_customer_id : string;
  t_conversation_id : string
}.

Record customer : Type := mkCustomer {
  c_email : option string;
  c_phone : option string;
  c_name : option string
}.

Record message_row : Type := mkMessage {
  m_conversation_id : string;
  m_channel : string;
  m_content : pyval
}.

(** Calls made to the capabilities outside the store. *)
Inductive event : Type :=
| SentimentCall (prompt : string)
| GenerateCall (prompt : string)
| WhatsAppSend (ticket_id : string) (content : pyval) (phone : string)
| GmailReply (to_email : string) (content : string)
| EmailSend (to_email : string) (content : string).

Record world : Type := mkWorld {
  tickets : gmap string ticket;
  customers : gmap string customer;
  messages : list message_row;    (* inserted rows, latest first *)
  calls : list event;             (* latest first *)
  store_ops : nat                 (* store operations attempted so far *)
}.

(** How the capabilities behave.  [None] is a raised exception. *)
Record env : Type := mkEnv {
  store_ok : nat -> bool;         (* does the n-th store operation succeed *)
  sentiment_model : string -> option string;     (* prompt to response.text *)
  sentiment_json : string -> option (pyfloat * string * pyfloat);
                                  (* json.loads and the three field reads *)
  history : string -> string;     (* the rendered history rows of a customer *)
  kb_search : string -> string;   (* _search_knowledge_base: never raises *)
  generator : string -> option string;           (* prompt to response.text *)
  whatsapp_mcp_enabled : bool;
  whatsapp_initialize : option bool;
  whatsapp_send : pyval -> string -> option bool;
  gmail_send_reply : string -> string -> option bool;
  email_send : string -> string -> option bool
}.

Definition M (A : Type) : Type := world -> outcome A * world.

Definition ret {A : Type} (a : A) : M A := fun w => (Ok a, w).

Definition raise {A : Type} (e : exn) : M A := fun w => (Raise e, w).

Definition bind {A B : Type} (m : M A) (k : A -> M B) : M B :=
  fun w =>
    match m w with
    | (Ok a, w') => k a w'
    | (Raise e, w') => (Raise e, w')
    end.

(** [try: m  except Exception as e: h e] *)
Definition try_except {A : Type} (m : M A) (h : exn -> M A) : M A :=
  fun w =>
    match m w with
    | (Ok a, w') => (Ok a, w')
    | (Raise e, w') => h e w'
    end.

Notation "'do' x <- m ; k" := (bind m (fun x => k))
  (at level 10, x name, m at level 100, k at level 200).
Notation "'do' '_' <- m ; k" := (bind m (fun _ => k))
  (at level 10, m at level 100, k at level 200).

Definition of_option {A : Type} (e : exn) (x : option A) : M A :=
  match x with
  | Some a => ret a
  | None => raise e
  end.

(** The four ways a step changes the world. *)
Definition tick (w : world) : world :=
  mkWorld (tickets w) (customers w) (messages w) (calls w) (S (store_ops w)).

Definition with_call (ev : event) (w : world) : world :=
  mkWorld (tickets w) (customers w) (messages w) (ev :: calls w) (store_ops w).

Definition with_message (row : message_row) (w : world) : world :=
  mkWorld (tickets w) (customers w) (row :: messages w) (calls w) (store_ops w).

Definition with_ticket (ticket_id : string) (f : ticket -> ticket) (w : world)
  : world :=
  mkWorld (alter f ticket_id (tickets w)) (customers w) (messages w)
    (calls w) (store_ops w).

(** A step that changes the world and cannot fail; a step that reads it. *)
Definition modify (f : world -> world) : M unit := fun w => (Ok tt, f w).

Definition read {A : Type} (f : world -> A) : M A := fun w => (Ok (f w), w).

Definition record_call (ev : event) : M unit := modify (with_call ev).

Definition set_escalated (notes : string) (t : ticket) : ticket :=
  mkTicket "escalated" (Some notes)
    (t_source_channel t) (t_customer_id t) (t_conversation_id t).

Definition set_resolved (t : ticket) : ticket :=
  mkTicket "resolved" (t_resolution_notes t)
    (t_source_channel t) (t_customer_id t) (t_conversation_id t).

Section Capabilities.

Variable E : env.

(** One operation on the store ([get_pool] with [pool.acquire], or one
    statement on the connection): it succeeds or raises as [E] says. *)
Definition store_op : M unit :=
  fun w =>
    if store_ok E (store_ops w) then (Ok tt, tick w)
    else (Raise StoreFault, tick w).

(** [UPDATE tickets SET ... WHERE id = ticket_id] *)
Definition update_ticket (ticket_id : string) (f : ticket -> ticket) : M unit :=
  do _ <- store_op;
  modify (with_ticket ticket_id f).

(** [INSERT INTO messages ...] *)
Definition insert_message (row : message_row) : M unit :=
  do _ <- store_op;
  modify (with_message row).

(** The ticket joined with its customer, as [_send_response] selects it. *)
Definition fetch_ticket_row (ticket_id : string)
  : M (option (ticket * customer)) :=
  do _ <- store_op;
  read (fun w =>
          match tickets w !! ticket_id with
          | Some t =>
              match customers w !! t_customer_id t with
              | Some c => Some (t, c)
              | None => None
              end
          | None => None
          end).

(** [SELECT email, phone, name FROM customers WHERE id = customer_id] *)
Definition fetch_customer (customer_id : string) : M (option customer) :=
  do _ <- store_op;
  read (fun w => customers w !! customer_id).

(** [_escalate_ticket], the same in both runners. *)
Definition _escalate_ticket (ticket_id reason : string) : M unit :=
  do _ <- store_op;
  update_ticket ticket_id (set_escalated ("Escalation reason: " +:+ reason)).

(** The WhatsApp hand-off inside its [try] block. *)
Definition whatsapp_deliver (ticket_id : string) (content : pyval)
  (phone : string) : M unit :=
  do initialized <- of_option DeliveryFault (whatsapp_initialize E);
  if initialized : bool
  then
    do _ <- record_call (WhatsAppSend ticket_id content phone);
    do _ <- of_option DeliveryFault (whatsapp_send E content phone);
    ret tt
  else ret tt.

End Capabilities.

(* ------------------------------------------------------------------ *)
(** ** src/skills/sentiment_analysis.py *)

Module Sentiment.

Record SentimentResult : Type := mkSentiment {
  score : pyfloat;
  label : string;
  confidence : pyfloat;
  should_escalate : bool
}.

Definition nl : string := QuickAnswer.nl.
Definition dq : string := QuickAnswer.dq.

Definition prompt_of (message : string) : string :=
  nl +:+ "Analyze the sentiment of this customer support message and respond with JSON only:"
  +:+ nl +:+ "{"
  +:+ nl +:+ "  " +:+ dq +:+ "score" +:+ dq +:+ ": <float 0.0-1.0>,"
  +:+ nl +:+ "  " +:+ dq +:+ "label" +:+ dq +:+ ": <"
      +:+ dq +:+ "positive" +:+ dq +:+ "|" +:+ dq +:+ "neutral" +:+ dq +:+ "|"
      +:+ dq +:+ "negative" +:+ dq +:+ "|" +:+ dq +:+ "hostile" +:+ dq +:+ ">,"
  +:+ nl +:+ "  " +:+ dq +:+ "confidence" +:+ dq +:+ ": <float 0.0-1.0>"
  +:+ nl +:+ "}"
  +:+ nl
  +:+ nl +:+ "Message: " +:+ dq +:+ message +:+ dq
  +:+ nl.

Definition neutral_default : SentimentResult :=
  mkSentiment Float.lit_0_5 "neutral" Float.lit_0_0 false.

Section WithEnv.

Variable E : env.

(** The body of the [try] block. *)
Definition analyze_body (prompt : string) : M SentimentResult :=
  do _ <- record_call (SentimentCall prompt);
  do raw <- of_option ModelFault (sentiment_model E prompt);
  let text :=
    Str.strip_chars "```" (Str.strip_chars "```json" (Str.strip raw)) in
  do data <- of_option ParseFault (sentiment_json E text);
  let '(score, label, confidence) := data in
  ret (mkSentiment score label confidence (Float.ltb score Float.lit_0_3)).

(** [analyze_sentiment].  Building the model object before the [try]
    is a plain constructor call. *)
Definition analyze_sentiment (message : string) : M SentimentResult :=
  let prompt := prompt_of message in
  try_except (analyze_body prompt) (fun _ => ret neutral_default).

End WithEnv.

End Sentiment.

(* ------------------------------------------------------------------ *)
(** ** src/agent/runner.py *)

Module AgentRunner.

Definition nl : string := QuickAnswer.nl.

Definition error_text : string :=
  "An error occurred. Escalating to human support.".

Definition generation_apology : string :=
  "I apologize, but I'm having trouble generating a response. Let me connect you to a human agent.".

Definition _get_escalation_response (channel : string) : string :=
  if String.eqb channel "email"
  then "Your inquiry requires specialized assistance. A human agent will respond to your email within 2 hours."
  else "I'm connecting you to a human specialist. They'll review your case and respond promptly.".

(** [channel_instructions.get(channel, "Be concise and helpful.")] *)
Definition channel_instructions (channel : string) : string :=
  if String.eqb channel "email"
  then "Include a greeting (Dear/Hello) and professional signature. Keep under 500 words."
  else if String.eqb channel "web_form"
  then "Keep response under 300 words. Be clear and helpful."
  else "Be concise and helpful.".

Definition context_of (customer_name customer_email channel message
                       history_text kb_results : string) : string :=
  nl +:+ "Customer: " +:+ customer_name +:+ " (" +:+ customer_email +:+ ")"
  +:+ nl +:+ "Channel: " +:+ channel
  +:+ nl +:+ "Current Message: " +:+ message
  +:+ nl
  +:+ nl +:+ "Recent History:"
  +:+ nl +:+ history_text
  +:+ nl
  +:+ nl +:+ "Knowledge Base Results:"
  +:+ nl +:+ kb_results
  +:+ nl
  +:+ nl +:+ "You are a helpful Qirat Saeed AI Support agent. Provide accurate, friendly responses."
  +:+ nl.

Definition prompt_of (context channel : string) : string :=
  nl +:+ context
  +:+ nl
  +:+ nl +:+ "Please provide a helpful response to the customer's message."
  +:+ nl
  +:+ nl +:+ "Channel-specific requirements:"
  +:+ nl +:+ channel_instructions channel
  +:+ nl
  +:+ nl +:+ "If the question is about product features, use the knowledge base results above."
  +:+ nl +:+ "If you cannot help or the customer is upset, suggest escalation to human support."
  +:+ nl
  +:+ nl +:+ "Response:"
  +:+ nl.

Section WithEnv.

Variable E : env.

(** [_build_context]: the customer row, the history rows (rendered by
    the environment) and the knowledge-base search. *)
Definition _build_context (customer_id message channel : string) : M string :=
  do _ <- store_op E;
  do customer <- fetch_customer E customer_id;
  do _ <- store_op E;
  let history_text := history E customer_id in
  let kb_results := kb_search E message in
  match customer with
  | None => raise (TypeError "'NoneType' object is not subscriptable")
  | Some c =>
      let customer_name := py_or (c_name c) "Customer" in
      let customer_email :=
        py_or (c_email c) (py_or (c_phone c) "Unknown") in
      ret (context_of customer_name customer_email channel message
             history_text kb_results)
  end.

(** [_generate_response]: a fault of the generator is answered with an
    apology text, not raised. *)
Definition _generate_response (context message channel : string) : M string :=
  let prompt := prompt_of context channel in
  try_except
    (do _ <- record_call (GenerateCall prompt);
     do raw <- of_option ModelFault (generator E prompt);
     let text := Str.strip raw in
     let text :=
       if String.eqb channel "web_form"
       then Formatters.truncate_to_words text 300
       else if String.eqb channel "email"
       then Formatters.truncate_to_words text 500
       else text in
     ret text)
    (fun _ => ret generation_apology).

(** The e-mail branch of [_send_response], inside its [try] block. *)
Definition email_deliver (ticket_channel customer_email content : string)
  : M unit :=
  if String.eqb ticket_channel "email"
  then
    do _ <- store_op E;
    do _ <- record_call (GmailReply customer_email content);
    do email_sent <- of_option DeliveryFault
                       (gmail_send_reply E customer_email content);
    ret tt
  else if negb (String.eqb ticket_channel "web_form")
  then
    do _ <- record_call (EmailSend customer_email content);
    do email_sent <- of_option DeliveryFault
                       (email_send E customer_email content);
    ret tt
  else raise (UnboundLocalError "email_sent").

Definition _send_response (ticket_id content channel : string) : M unit :=
  do _ <- store_op E;
  do row <- fetch_ticket_row E ticket_id;
  match row with
  | None => raise (ValueError ("Ticket " +:+ ticket_id +:+ " not found"))
  | Some (t, c) =>
      let conversation_id := t_conversation_id t in
      let customer_email := c_email c in
      let customer_phone := c_phone c in
      let ticket_channel := t_source_channel t in
      do ch <- of_option (ValueError "not a valid Channel")
                 (Formatters.Channel_of_value ticket_channel);
      let formatted := Formatters.format_for_channel content ch ticket_id in
      do _ <- insert_message E
                (mkMessage conversation_id ticket_channel (PStr formatted));
      do _ <- update_ticket E ticket_id set_resolved;
      if String.eqb ticket_channel "whatsapp" && truthy_opt customer_phone
      then
        if whatsapp_mcp_enabled E
        then try_except
               (whatsapp_deliver E ticket_id (PStr content)
                  (default EmptyString customer_phone))
               (fun _ => ret tt)
        else ret tt
      else if truthy_opt customer_email
      then
        do _ <- store_op E;
        try_except
          (email_deliver ticket_channel
             (default EmptyString customer_email) content)
          (fun _ => ret tt)
      else ret tt
  end.

(** Steps 2 to 5 of the [try] block. *)
Definition after_sentiment (sentiment : Sentiment.SentimentResult)
  (ticket_id customer_id message channel : string) : M string :=
  let escalation :=
    Escalation.decide_escalation message (Sentiment.score sentiment) in
  if Escalation.should_escalate escalation
  then
    do _ <- _escalate_ticket E ticket_id (Escalation.reason escalation);
    ret (_get_escalation_response channel)
  else
    do context <- _build_context customer_id message channel;
    do response <- _generate_response context message channel;
    do _ <- _send_response ticket_id response channel;
    ret response.

(** The [try] block of [process_message]. *)
Definition process_body (ticket_id customer_id message channel : string)
  : M string :=
  do sentiment <- Sentiment.analyze_sentiment E message;
  after_sentiment sentiment ticket_id customer_id message channel.

Definition process_message (ticket_id customer_id message channel : string)
  : M string :=
  try_except (process_body ticket_id customer_id message channel)
    (fun _ =>
       do _ <- _escalate_ticket E ticket_id "agent_error";
       ret error_text).

End WithEnv.

End AgentRunner.

(* ------------------------------------------------------------------ *)
(** ** src/agent/whatsapp_agent_runner.py *)

Module WhatsAppAgentRunner.

Definition nl : string := QuickAnswer.nl.

Definition error_text : string :=
  "I apologize, but I'm having trouble. Let me connect you to a human agent.".

Definition generation_apology : string :=
  "I apologize, but I'm having trouble. Let me connect you to a human agent.".

Definition _get_escalation_response (channel : string) : string :=
  "I'm connecting you to a human specialist. They'll review your case and respond promptly.".

Definition context_of (customer_name customer_email channel message
                       history_text kb_results : string) : string :=
  nl +:+ "Customer: " +:+ customer_name +:+ " (" +:+ customer_email +:+ ")"
  +:+ nl +:+ "Channel: " +:+ channel
  +:+ nl +:+ "Message: " +:+ message
  +:+ nl
  +:+ nl +:+ "Recent History:"
  +:+ nl +:+ history_text
  +:+ nl
  +:+ nl +:+ "Knowledge Base:"
  +:+ nl +:+ kb_results
  +:+ nl
  +:+ nl +:+ "You are a helpful Qirat Saeed AI Support agent. Be concise and accurate."
  +:+ nl.

Definition prompt_of (context message : string) : string :=
  nl +:+ context
  +:+ nl
  +:+ nl +:+ "Generate a WhatsApp response:"
  +:+ nl +:+ "- MAX 300 characters (WhatsApp limit)"
  +:+ nl +:+ "- Be direct and helpful"
  +:+ nl +:+ "- No greeting/signature needed"
  +:+ nl +:+ "- If unsure, suggest escalation"
  +:+ nl
  +:+ nl +:+ "Customer message: " +:+ message
  +:+ nl
  +:+ nl +:+ "Response:".

(** Calling an [async def] without [await]: the call only builds the
    coroutine object. *)
Definition call_without_await (f : string -> option string) (arg : string)
  : pyval :=
  PCoroutine (f arg).

Section WithEnv.

Variable E : env.

Definition _build_context (customer_id message channel : string) : M string :=
  do _ <- store_op E;
  do customer <- fetch_customer E customer_id;
  do _ <- store_op E;
  let history_text := history E customer_id in
  let kb_results := kb_search E message in
  match customer with
  | None => raise (TypeError "'NoneType' object is not subscriptable")
  | Some c =>
      let customer_name := py_or (c_name c) "Customer" in
      let customer_email :=
        py_or (c_email c) (py_or (c_phone c) "Unknown") in
      ret (context_of customer_name customer_email channel message
             history_text kb_results)
  end.

Definition _generate_response (context message channel : string) : M string :=
  let prompt := prompt_of context message in
  try_except
    (do _ <- record_call (GenerateCall prompt);
     do raw <- of_option ModelFault (generator E prompt);
     let text := Str.strip raw in
     let text := Formatters.truncate_to_words text 50 in
     ret text)
    (fun _ => ret generation_apology).

Definition _send_response (ticket_id : string) (content : pyval)
  (channel : string) : M unit :=
  do _ <- store_op E;
  do row <- fetch_ticket_row E ticket_id;
  match row with
  | None => raise (ValueError ("Ticket " +:+ ticket_id +:+ " not found"))
  | Some (t, c) =>
      let conversation_id := t_conversation_id t in
      let customer_phone := c_phone c in
      do _ <- insert_message E (mkMessage conversation_id channel content);
      do _ <- update_ticket E ticket_id set_resolved;
      if String.eqb channel "whatsapp" && truthy_opt customer_phone
      then
        if whatsapp_mcp_enabled E
        then try_except
               (whatsapp_deliver E ticket_id content
                  (default EmptyString customer_phone))
               (fun _ => ret tt)
        else ret tt
      else ret tt
  end.

(** Steps 5 to 8 of the [try] block. *)
Definition after_sentiment (sentiment : Sentiment.SentimentResult)
  (ticket_id customer_id message channel : string) : M pyval :=
  let escalation :=
    Escalation.decide_escalation message (Sentiment.score sentiment) in
  if Escalation.should_escalate escalation
  then
    do _ <- _escalate_ticket E ticket_id (Escalation.reason escalation);
    ret (PStr (_get_escalation_response channel))
  else
    do context <- _build_context customer_id message channel;
    do response <- _generate_response context message channel;
    do _ <- _send_response ticket_id (PStr response) channel;
    ret (PStr response).

(** Steps 4 to 8 of the [try] block. *)
Definition full_path (ticket_id customer_id message channel : string)
  : M pyval :=
  do sentiment <- Sentiment.analyze_sentiment E message;
  after_sentiment sentiment ticket_id customer_id message channel.

(** The [try] block of [process_message]. *)
Definition process_body (ticket_id customer_id message channel : string)
  : M pyval :=
  match QuickAnswer.get_quick_answer message with
  | Some quick_answer =>
      do _ <- (if QuickAnswer.qa_escalate quick_answer
               then _escalate_ticket E ticket_id
                      ("quick_answer_" +:+ QuickAnswer.qa_intent quick_answer)
               else ret tt);
      do _ <- _send_response ticket_id
                (PStr (QuickAnswer.qa_response quick_answer)) channel;
      ret (PStr (QuickAnswer.qa_response quick_answer))
  | None =>
      let greeting :=
        call_without_await QuickAnswer.handle_greeting message in
      if truthy greeting
      then
        do _ <- _send_response ticket_id greeting channel;
        ret greeting
      else
        let thanks :=
          call_without_await QuickAnswer.handle_thanks message in
        if truthy thanks
        then
          do _ <- _send_response ticket_id thanks channel;
          ret thanks
        else full_path ticket_id customer_id message channel
  end.

Definition process_message (ticket_id customer_id message channel : string)
  : M pyval :=
  try_except (process_body ticket_id customer_id message channel)
    (fun _ =>
       do _ <- _escalate_ticket E ticket_id "agent_error";
       ret (PStr error_text)).

End WithEnv.

End WhatsAppAgentRunner.

(* ------------------------------------------------------------------ *)
(** ** src/workers/message_processor.py: the dispatch on the channel *)

Definition process (E : env) (ticket_id customer_id message channel : string)
  : M pyval :=
  if String.eqb channel "whatsapp"
  then WhatsAppAgentRunner.process_message E ticket_id customer_id
         message channel
  else
    do response <- AgentRunner.process_message E ticket_id customer_id
                     message channel;
    ret (PStr response).

(* ------------------------------------------------------------------ *)
(** ** The escalation policy as the specification words it *)

Module EscalationSpec.

Import Escalation.

(** [kw] occurs in [s] as a substring. *)
Definition occurs (kw s : string) : Prop :=
  exists pre post, s = pre +:+ kw +:+ post.

(** Nothing of a word touches the occurrence on the left: what precedes
    does not end with a word character. *)
Definition ends_clear (pre : string) : Prop :=
  forall p c, pre = p +:+ String c EmptyString -> Char.is_word c = false.

(** Nor on the right: what follows does not start with one. *)
Definition starts_clear (post : string) : Prop :=
  forall c r, post = String c r -> Char.is_word c = false.

(** [kw] occurs in [s] as a whole word. *)
Definition occurs_as_word (kw s : string) : Prop :=
  exists pre post,
    s = pre +:+ kw +:+ post /\ ends_clear pre /\ starts_clear post.

Definition no_hard_keyword (s : string) : Prop :=
  forall k, In k HARD_ESCALATION_KEYWORDS -> ~ occurs k s.

Definition no_human_request (s : string) : Prop :=
  forall k, In k HUMAN_REQUEST_KEYWORDS -> ~ occurs_as_word k s.

Definition below (x y : pyfloat) : Prop := Float.ltb x y = true.
Definition at_least (x y : pyfloat) : Prop := Float.leb y x = true.

(** The four ordered rules and the default, on the lower-cased text. *)
Inductive decides (text : string) (sc : pyfloat) : EscalationDecision -> Prop :=
| rule_hard_keyword before kw after :
    HARD_ESCALATION_KEYWORDS = before ++ kw :: after ->
    (forall k, In k before -> ~ occurs k (Str.lower text)) ->
    occurs kw (Str.lower text) ->
    decides text sc (mkDecision true ("keyword_detected:" +:+ kw) "immediate")
| rule_human_request :
    no_hard_keyword (Str.lower text) ->
    (exists k, In k HUMAN_REQUEST_KEYWORDS
               /\ occurs_as_word k (Str.lower text)) ->
    decides text sc (mkDecision true "customer_requested_human" "high")
| rule_hostile :
    no_hard_keyword (Str.lower text) ->
    no_human_request (Str.lower text) ->
    below sc Float.lit_0_2 ->
    decides text sc (mkDecision true "hostile_sentiment" "immediate")
| rule_negative :
    no_hard_keyword (Str.lower text) ->
    no_human_request (Str.lower text) ->
    at_least sc Float.lit_0_2 -> below sc Float.lit_0_3 ->
    decides text sc (mkDecision true "negative_sentiment" "high")
| rule_default :
    no_hard_keyword (Str.lower text) ->
    no_human_request (Str.lower text) ->
    ~ below sc Float.lit_0_2 ->
    ~ (at_least sc Float.lit_0_2 /\ below sc Float.lit_0_3) ->
    decides text sc (mkDecision false EmptyString "normal").

(** The character a position is preceded by: the last of [pre], else
    the one handed in. *)
Fixpoint preceding (prev : option ascii) (pre : string) : option ascii :=
  match pre with
  | EmptyString => prev
  | String c r => preceding (Some c) r
  end.

End EscalationSpec.

(* ------------------------------------------------------------------ *)
(** ** Words of a text, as [split] returns them *)
Module Tokens.

(** No character of [w] is a separator of [split]. *)
Fixpoint no_space (w : string) : bool :=
  match w with
  | EmptyString => true
  | String c r => negb (Char.isspace c) && no_space r
  end.

(** What [split] can return as one word: non-empty, separator-free. *)
Definition is_token (w : string) : Prop :=
  w <> EmptyString /\ no_space w = true.

(** [l] with [x] appended to its last element; [x] alone for no element. *)
Fixpoint mark_last (x : string) (l : list string) : list string :=
  match l with
  | [] => [x]
  | [w] => [w +:+ x]
  | w :: rest => w :: mark_last x rest
  end.

End Tokens.

(* ------------------------------------------------------------------ *)
(** ** The classifier's notions of a keyword in a text *)

Module ClassifierSpec.

Import QuickAnswer.

(** The keywords the table lists for an intent. *)
Definition intent_keywords (name : string) : list string :=
  match lookup name QUICK_ANSWERS with
  | Some d => keywords d
  | None => []
  end.

(** Some keyword of the intent occurs in the text, as a substring and
    without regard to case. *)
Definition mentions (name message : string) : bool :=
  existsb (fun kw => Str.contains (Str.lower kw) (Str.lower message))
    (intent_keywords name).

(** Some keyword of the intent passes the classifier's test on the
    text: long enough or exempt, and its first occurrence is delimited
    by non-alphanumeric characters or the ends of the text. *)
Definition matches (name message : string) : bool :=
  existsb (fun kw => keyword_accepted kw (Str.lower message))
    (intent_keywords name).

(** The structural pattern (greeting, thanks, yes, no) that the text
    matches, if any. *)
Definition structural (message : string) : option string :=
  pattern_loop INTENT_PATTERNS (Str.lower message).

(** The intents that precede "integration" in the priority order. *)
Definition before_integration : list string :=
  ["reset_password"; "account_setup"; "refund"; "pricing"].

Definition priority_example : string :=
  "reintegrate, then integrate the api key".

End ClassifierSpec.

(* ------------------------------------------------------------------ *)
(** ** Concrete capabilities and worlds *)

Module Scenario.

(** [n] copies of [s]. *)
Fixpoint copies (n : nat) (s : string) : string :=
  match n with
  | O => EmptyString
  | S n' => s +:+ copies n' s
  end.

(** A reply of 400 characters in 40 words. *)
Definition reply_400 : string := copies 39 "delivered " +:+ "deliveries".

(** Every capability answers; the scorer reports 0.65. *)
Definition calm : env :=
  mkEnv (fun _ => true)
    (fun _ => Some "{}")
    (fun _ => Some (Finite (65 # 100), "neutral", Finite (9 # 10)))
    (fun _ => "First contact.")
    (fun _ => "No KB results.")
    (fun _ => Some "Open Settings, then Team, and invite them there.")
    true (Some true)
    (fun _ _ => Some true) (fun _ _ => Some true) (fun _ _ => Some true).

Definition with_store (ok : nat -> bool) (E : env) : env :=
  mkEnv ok (sentiment_model E) (sentiment_json E) (history E) (kb_search E)
    (generator E) (whatsapp_mcp_enabled E) (whatsapp_initialize E)
    (whatsapp_send E) (gmail_send_reply E) (email_send E).

Definition with_generator (g : string -> option string) (E : env) : env :=
  mkEnv (store_ok E) (sentiment_model E) (sentiment_json E) (history E)
    (kb_search E) g (whatsapp_mcp_enabled E) (whatsapp_initialize E)
    (whatsapp_send E) (gmail_send_reply E) (email_send E).

(** The store refuses every operation. *)
Definition store_down : env := with_store (fun _ => false) calm.

(** The generator raises. *)
Definition mute : env := with_generator (fun _ => None) calm.

(** The generator answers with [reply_400]. *)
Definition wordy : env := with_generator (fun _ => Some reply_400) calm.

(** One open ticket T-1 of customer C-1, who has a phone and an
    address, raised on [channel]. *)
Definition desk (channel : string) : world :=
  mkWorld {[ "T-1" := mkTicket "open" None channel "C-1" "K-1" ]}
    {[ "C-1" := mkCustomer (Some "ann@example.com") (Some "+100") (Some "Ann") ]}
    [] [] 0.

End Scenario.

(** ** Observations on a run *)

Definition is_sentiment_call (ev : event) : bool :=
  match ev with
  | SentimentCall _ => true
  | _ => false
  end.

(** How often the sentiment model has been called. *)
Definition sentiment_calls (w : world) : nat :=
  length (filter (fun ev => is_sentiment_call ev = true) (calls w)).

(** The [try] block of the runner that [process] picks. *)
Definition try_block (E : env) (ticket_id customer_id message channel : string)
  : M pyval :=
  if String.eqb channel "whatsapp"
  then WhatsAppAgentRunner.process_body E ticket_id customer_id
         message channel
  else
    do response <- AgentRunner.process_body E ticket_id customer_id
                     message channel;
    ret (PStr response).

(** The text the boundary handler of that runner returns. *)
Definition boundary_text (channel : string) : string :=
  if String.eqb channel "whatsapp"
  then WhatsAppAgentRunner.error_text
  else AgentRunner.error_text.

(** The faults that come from the store or from a missing row. *)
Definition store_or_row_fault (e : exn) : Prop :=
  match e with
  | StoreFault | ValueError _ | TypeError _ => True
  | _ => False
  end.

(** The text the model reply is parsed from. *)
Definition cleaned (raw : string) : string :=
  Str.strip_chars "```" (Str.strip_chars "```json" (Str.strip raw)).

(* ------------------------------------------------------------------ *)
(** ** Properties of computations *)

(** Every exception that [m] raises satisfies [P]. *)
Definition raises_only {A : Type} (P : exn -> Prop) (m : M A) : Prop :=
  forall w e w', m w = (Raise e, w') -> P e.

(** [m] leaves the observation [f] of the world as it found it. *)
Definition keeps {A B : Type} (f : world -> B) (m : M A) : Prop :=
  forall w, f (snd (m w)) = f w.

(* ------------------------------------------------------------------ *)
(** ** The deployment around the runners

    The handler of the WhatsApp bridge and the Kafka worker act on more
    than the runners' [world]: on the rows that go through
    [queries.store_message], on the requests posted to the bridge and
    on the events handed to Kafka. *)

(** A row inserted by [queries.store_message]. *)
Record stored_message : Type := mkStored {
  s_conversation_id : string;
  s_channel : string;
  s_direction : string;
  s_role : string;
  s_content : string
}.

(** The payload of an inbound Kafka message, as far as the worker reads
    it: a field is [None] when the key is missing or null. *)
Record inbound : Type := mkInbound {
  i_ticket_id : option string;
  i_customer_id : option string;
  i_message : option string
}.

(** The dicts given to [publish]. *)
Inductive kafka_event : Type :=
| WhatsAppInbound (ticket_id customer_id from message : string)
| MessageProcessed (ticket_id channel : string) (response_length : Z)
| TicketEscalated (ticket_id customer_id : string) (reason : option string)
    (channel : string)
| DeadLetter (original_topic : string) (error : exn) (message : inbound).

Record plant : Type := mkPlant {
  base : world;
  handler_rows : list stored_message;       (* latest first *)
  posted : list (string * string);          (* recipient and message, latest first *)
  published : list (string * kafka_event)   (* topic and event, latest first *)
}.

(** What lies outside the program. *)
Record site : Type := mkSite {
  kafka_connected : bool;         (* FTEKafkaProducer._connected *)
  http_post : string -> string -> option (Z * option bool);
    (* POST /api/send with a recipient and a message: [None] when the
       request raises; else the status code and the truth of
       response.json().get("success"), [None] when reading it raises *)
  new_id : nat -> string          (* the id the store gives the row of an INSERT *)
}.

Definition W (A : Type) : Type := plant -> outcome A * plant.

Definition wret {A : Type} (a : A) : W A := fun p => (Ok a, p).

Definition wraise {A : Type} (e : exn) : W A := fun p => (Raise e, p).

Definition wbind {A B : Type} (m : W A) (k : A -> W B) : W B :=
  fun p =>
    match m p with
    | (Ok a, p') => k a p'
    | (Raise e, p') => (Raise e, p')
    end.

(** [try: m  except Exception as e: h e] *)
Definition wtry {A : Type} (m : W A) (h : exn -> W A) : W A :=
  fun p =>
    match m p with
    | (Ok a, p') => (Ok a, p')
    | (Raise e, p') => h e p'
    end.

Notation "'run' x <- m ; k" := (wbind m (fun x => k))
  (at level 10, x name, m at level 100, k at level 200).
Notation "'run' '_' <- m ; k" := (wbind m (fun _ => k))
  (at level 10, m at level 100, k at level 200).

Definition wof_option {A : Type} (e : exn) (x : option A) : W A :=
  match x with
  | Some a => wret a
  | None => wraise e
  end.

Definition with_base (w : world) (p : plant) : plant :=
  mkPlant w (handler_rows p) (posted p) (published p).

(** A computation of the runners, run in the deployment. *)
Definition lift {A : Type} (m : M A) : W A :=
  fun p => let (r, w') := m (base p) in (r, with_base w' p).

(* ------------------------------------------------------------------ *)
(** ** src/kafka/topics.py, src/kafka/client.py *)

Module Kafka.

Definition TOPICS : list (string * string) :=
  [("tickets_incoming", "fte.tickets.incoming");
   ("email_inbound", "fte.channels.email.inbound");
   ("webform_inbound", "fte.channels.webform.inbound");
   ("whatsapp_inbound", "fte.channels.whatsapp.inbound");
   ("whatsapp_outbound", "fte.channels.whatsapp.outbound");
   ("email_outbound", "fte.channels.email.outbound");
   ("escalations", "fte.escalations");
   ("metrics", "fte.metrics");
   ("dlq", "fte.dlq")].

(** [TOPICS[key]]; every key the code uses is one of the dict. *)
Fixpoint item (key : string) (d : list (string * string)) : string :=
  match d with
  | [] => EmptyString
  | (k, v) :: rest => if String.eqb k key then v else item key rest
  end.

(** [FTEKafkaProducer.publish]: skipped when the producer is not
    connected; a failure of [send_and_wait] is logged, not raised.
    [published] keeps what was handed to [send_and_wait]. *)
Definition publish (D : site) (topic : string) (event : kafka_event) : W unit :=
  if negb (kafka_connected D) then wret tt
  else fun p =>
         (Ok tt, mkPlant (base p) (handler_rows p) (posted p)
                   ((topic, event) :: published p)).

End Kafka.

(* ------------------------------------------------------------------ *)
(** ** src/channels/whatsapp_mcp_client.py *)

Module WhatsAppMCPClient.

(** [str.isdigit] on one character: 0-9 and the superscript digits. *)
Definition isdigit (c : ascii) : bool :=
  Char.between 48 57 c
  || Char.is_code 178 c || Char.is_code 179 c || Char.is_code 185 c.

(** The characters [c] of [phone] with [c.isdigit()], joined. *)
Fixpoint digits_of (phone : string) : string :=
  match phone with
  | EmptyString => EmptyString
  | String c r => if isdigit c then String c (digits_of r) else digits_of r
  end.

(** [s[1:]] *)
Definition from_1 (s : string) : string :=
  match s with
  | EmptyString => EmptyString
  | String _ r => r
  end.

Definition _phone_to_jid (phone : string) : string :=
  let cleaned := digits_of phone in
  cleaned +:+ "@s.whatsapp.net".

Definition _normalize_phone_number (phone : string) : string :=
  let cleaned := digits_of phone in
  let cleaned :=
    if Str.startswith "0" cleaned && (Str.len cleaned =? 11)
    then "92" +:+ from_1 cleaned
    else cleaned in
  let cleaned :=
    if (Str.len cleaned =? 10) && Str.startswith "3" cleaned
    then "92" +:+ cleaned
    else cleaned in
  cleaned.

Definition record_post (recipient message : string) : W unit :=
  fun p =>
    (Ok tt, mkPlant (base p) (handler_rows p)
              ((recipient, message) :: posted p) (published p)).

(** [send_message]: every exception of the request is answered with
    False. *)
Definition send_message (D : site) (to_phone message : string) : W bool :=
  wtry
    (let normalized_phone := _normalize_phone_number to_phone in
     run _ <- record_post normalized_phone message;
     run response <- wof_option DeliveryFault
                       (http_post D normalized_phone message);
     let '(status_code, success) := response in
     if status_code =? 200
     then
       run result <- wof_option ParseFault success;
       if result : bool then wret true else wret false
     else wret false)
    (fun _ => wret false).

End WhatsAppMCPClient.

(* ------------------------------------------------------------------ *)
(** ** src/database/queries.py, as far as the WhatsApp handler uses it *)

Module Queries.

(** The first row of [customers] that satisfies [cond]. *)
Definition select_customer (cond : customer -> bool) (w : world)
  : option (string * customer) :=
  List.find (fun row => cond (snd row)) (map_to_list (customers w)).

Definition has_phone (phone : string) (c : customer) : bool :=
  bool_decide (c_phone c = Some phone).

Definition has_email (email : string) (c : customer) : bool :=
  bool_decide (c_email c = Some email).

Definition with_customer (id : string) (c : customer) (w : world) : world :=
  mkWorld (tickets w) (<[id := c]> (customers w)) (messages w) (calls w)
    (store_ops w).

Definition with_new_ticket (id : string) (t : ticket) (w : world) : world :=
  mkWorld (<[id := t]> (tickets w)) (customers w) (messages w) (calls w)
    (store_ops w).

Definition set_email (email : string) (c : customer) : customer :=
  mkCustomer (Some email) (c_phone c) (c_name c).

Section WithSite.

Variable D : site.
Variable E : env.

(** The id of the row that an [INSERT ... RETURNING id] adds. *)
Definition returned_id : M string :=
  do _ <- store_op E;
  read (fun w => new_id D (store_ops w)).

Definition get_customer_by_phone (phone : string)
  : M (option (string * customer)) :=
  do _ <- store_op E;
  read (select_customer (has_phone phone)).

(** [INSERT INTO customers ...]: the store refuses an id it holds. *)
Definition insert_customer (c : customer) : M string :=
  do id <- returned_id;
  do held <- read (fun w => customers w !! id);
  match held with
  | Some _ => raise StoreFault
  | None =>
      do _ <- modify (with_customer id c);
      ret id
  end.

Definition create_customer (email phone name : option string) : M string :=
  do by_email <-
    (if truthy_opt email
     then do _ <- store_op E;
          read (select_customer (has_email (default EmptyString email)))
     else ret None);
  match by_email with
  | Some existing => ret (fst existing)
  | None =>
      do by_phone <-
        (if truthy_opt phone
         then do _ <- store_op E;
              read (select_customer (has_phone (default EmptyString phone)))
         else ret None);
      match by_phone with
      | Some existing =>
          do _ <- (if truthy_opt email
                   then do _ <- store_op E;
                        modify (fun w =>
                          mkWorld (tickets w)
                            (alter (set_email (default EmptyString email))
                               (fst existing) (customers w))
                            (messages w) (calls w) (store_ops w))
                   else ret tt);
          ret (fst existing)
      | None => insert_customer (mkCustomer email phone name)
      end
  end.

(** [INSERT INTO conversations ...]; the runners' world keeps no
    conversation rows. *)
Definition create_conversation (customer_id channel : string) : M string :=
  returned_id.

(** The body of [create_ticket]. *)
Definition create_ticket (customer_id source_channel : string)
  (category : option string) : M string :=
  do conversation_id <- returned_id;
  do ticket_id <- returned_id;
  do held <- read (fun w => tickets w !! ticket_id);
  match held with
  | Some _ => raise StoreFault
  | None =>
      do _ <- modify (with_new_ticket ticket_id
                        (mkTicket "open" None source_channel customer_id
                           conversation_id));
      ret ticket_id
  end.

(** The parameters of [create_ticket]. *)
Definition create_ticket_parameters : list string :=
  ["conn"; "customer_id"; "source_channel"; "subject"; "category";
   "priority"].

(** Python binds the keyword arguments of a call before it runs the
    body: a keyword that names no parameter is a TypeError. *)
Definition unexpected_keyword (parameters : list string)
  (keywords : list (string * string)) : option string :=
  fst <$> List.find
            (fun kv => negb (existsb (String.eqb (fst kv)) parameters))
            keywords.

Fixpoint keyword (name : string) (keywords : list (string * string))
  : option string :=
  match keywords with
  | [] => None
  | (k, v) :: rest => if String.eqb k name then Some v else keyword name rest
  end.

(** [create_ticket(conn, **keywords)] *)
Definition call_create_ticket (keywords : list (string * string)) : M string :=
  match unexpected_keyword create_ticket_parameters keywords with
  | Some k =>
      raise (TypeError
               ("create_ticket() got an unexpected keyword argument '"
                +:+ k +:+ "'"))
  | None =>
      match keyword "customer_id" keywords,
            keyword "source_channel" keywords with
      | Some customer_id, Some source_channel =>
          create_ticket customer_id source_channel
            (keyword "category" keywords)
      | _, _ =>
          raise (TypeError
                   "create_ticket() missing required positional arguments")
      end
  end.

(** [get_ticket]: the ticket joined with its conversation and its
    customer; of the dict only [conversation_id] is read. *)
Definition get_ticket (ticket_id : string) : M (option string) :=
  do row <- fetch_ticket_row E ticket_id;
  ret (t_conversation_id <$> (fst <$> row)).

Definition store_message (conversation_id channel direction role
                          content : string) : W unit :=
  run _ <- lift (store_op E);
  fun p =>
    (Ok tt, mkPlant (base p)
              (mkStored conversation_id channel direction role content
                 :: handler_rows p)
              (posted p) (published p)).

End WithSite.

End Queries.

(* ------------------------------------------------------------------ *)
(** ** src/channels/whatsapp_handler.py *)

Module WhatsAppHandler.

(** The handler object: [_initialized], and whether [_mcp_client] is
    set. *)
Record handler : Type := mkHandler {
  _initialized : bool;
  _mcp_client : bool
}.

(** [s[-4:]] *)
Definition last_4 (s : string) : string :=
  String.rev (Str.take 4 (String.rev s)).

(** [s.replace(old, new)] for a non-empty [old]: occurrences are taken
    from the left and do not overlap.  [skip] counts the characters of
    the occurrence just replaced that are still to be passed. *)
Fixpoint replace_go (old new : string) (skip : nat) (s : string) : string :=
  match s with
  | EmptyString => EmptyString
  | String c r =>
      match skip with
      | S k => replace_go old new k r
      | O =>
          if Str.startswith old s
          then new +:+ replace_go old new (String.length old - 1) r
          else String c (replace_go old new 0 r)
      end
  end.

Definition replace (old new s : string) : string := replace_go old new 0 s.

(** The phone number [poll_messages] reads off a chat JID. *)
Definition phone_of_jid (chat_jid : string) : string :=
  "+" +:+ replace "@s.whatsapp.net" EmptyString chat_jid.

Section WithSite.

Variable D : site.
Variable E : env.

(** [response_text[:300]] *)
Definition first_300 (response_text : pyval) : W string :=
  match response_text with
  | PStr s => wret (Str.take 300 s)
  | PCoroutine _ => wraise (TypeError "'coroutine' object is not subscriptable")
  end.

Definition send_response (H : handler) (ticket_id : string)
  (response_text : pyval) (to_phone : string) : W bool :=
  wtry
    (if negb (_initialized H) || negb (_mcp_client H)
     then wret false
     else
       run truncated_response <- first_300 response_text;
       run success <- WhatsAppMCPClient.send_message D to_phone
                        truncated_response;
       run _ <- (if success : bool
                 then
                   run _ <- lift (store_op E);
                   run ticket <- lift (Queries.get_ticket E ticket_id);
                   match ticket with
                   | Some conversation_id =>
                       Queries.store_message E conversation_id "whatsapp"
                         "outgoing" "support" truncated_response
                   | None => wret tt
                   end
                 else wret tt);
       wret success)
    (fun _ => wret false).

Definition _create_or_get_customer (phone_number : string) : M string :=
  do _ <- store_op E;
  do customer <- Queries.get_customer_by_phone E phone_number;
  match customer with
  | Some row => ret (fst row)
  | None =>
      Queries.create_customer D E None (Some phone_number)
        (Some ("WhatsApp User " +:+ last_4 phone_number))
  end.

Definition _create_ticket (customer_id subject : string) : M string :=
  do _ <- store_op E;
  do conversation_id <- Queries.create_conversation D E customer_id "whatsapp";
  do ticket_id <- Queries.call_create_ticket D E
                    [("conversation_id", conversation_id);
                     ("customer_id", customer_id);
                     ("source_channel", "whatsapp");
                     ("category", "support")];
  ret ticket_id.

Definition _store_message (ticket_id content direction : string) : W unit :=
  run _ <- lift (store_op E);
  run ticket <- lift (Queries.get_ticket E ticket_id);
  match ticket with
  | Some conversation_id =>
      Queries.store_message E conversation_id "whatsapp" direction
        (if String.eqb direction "incoming" then "customer" else "support")
        content
  | None => wret tt
  end.

Definition process_inbound_message (phone_number message_text : string)
  : W (option string) :=
  wtry
    (run _ <- lift (store_op E);
     run customer_id <- lift (_create_or_get_customer phone_number);
     run ticket_id <- lift (_create_ticket customer_id "WhatsApp Support");
     run _ <- _store_message ticket_id message_text "incoming";
     run _ <- Kafka.publish D (Kafka.item "whatsapp_inbound" Kafka.TOPICS)
                (WhatsAppInbound ticket_id customer_id phone_number
                   message_text);
     wret (Some ticket_id))
    (fun _ => wret None).

End WithSite.

End WhatsAppHandler.

(* ------------------------------------------------------------------ *)
(** ** src/workers/message_processor.py *)

Module MessageProcessor.

Definition _get_channel_from_topic (topic : string) : string :=
  if Str.contains "email" topic then "email"
  else if Str.contains "whatsapp" topic then "whatsapp"
  else "web_form".

(** [len(response)] *)
Definition py_len (response : pyval) : W Z :=
  match response with
  | PStr s => wret (Str.len s)
  | PCoroutine _ => wraise (TypeError "object of type 'coroutine' has no len()")
  end.

Section WithSite.

Variable D : site.
Variable E : env.

(** The [try] block of [_handle_message]. *)
Definition handle_body (topic : string) (message : inbound) : W unit :=
  let ticket_id := i_ticket_id message in
  let customer_id := i_customer_id message in
  let customer_message :=
    match i_message message with
    | None => Some EmptyString
    | given => given
    end in
  let channel := _get_channel_from_topic topic in
  if negb (forallb truthy_opt [ticket_id; customer_id; customer_message])
  then wret tt
  else
    let ticket_id := default EmptyString ticket_id in
    let customer_id := default EmptyString customer_id in
    let customer_message := default EmptyString customer_message in
    run response <- lift (process E ticket_id customer_id customer_message
                            channel);
    run response_length <- py_len response;
    run _ <- Kafka.publish D (Kafka.item "metrics" Kafka.TOPICS)
               (MessageProcessed ticket_id channel response_length);
    run _ <- lift (store_op E);
    run ticket <- lift (do _ <- store_op E;
                        read (fun w => tickets w !! ticket_id));
    match ticket with
    | Some row =>
        if String.eqb (t_status row) "escalated"
        then Kafka.publish D (Kafka.item "escalations" Kafka.TOPICS)
               (TicketEscalated ticket_id customer_id
                  (t_resolution_notes row) channel)
        else wret tt
    | None => wret tt
    end.

Definition _handle_message (topic : string) (message : inbound) : W unit :=
  wtry (handle_body topic message)
    (fun e =>
       Kafka.publish D (Kafka.item "dlq" Kafka.TOPICS)
         (DeadLetter topic e message)).

End WithSite.

End MessageProcessor.

(* ------------------------------------------------------------------ *)
(** ** Notions used to state what the classifier and the runners do *)

Module TextSpec.

(** Some character of the text is alphanumeric ([str.isalnum]). *)
Fixpoint has_alnum (s : string) : bool :=
  match s with
  | EmptyString => false
  | String c r => Char.isalnum c || has_alnum r
  end.

(** The intents [classify_intent] takes from a pattern. *)
Definition structural_intents : list string :=
  ["greeting"; "thanks"; "yes"; "no"].

(** The intents whose table entry sets [escalate]. *)
Definition escalating_intents : list string :=
  ["refund"; "pricing"; "contact_support"].

(** The alternatives of a pattern. *)
Definition alternatives (r : QuickAnswer.regex) : list string :=
  match r with
  | QuickAnswer.StartsWith alts
  | QuickAnswer.Somewhere alts
  | QuickAnswer.Whole alts => alts
  end.

(** The text consists of digits ([str.isdigit]). *)
Fixpoint all_digits (s : string) : bool :=
  match s with
  | EmptyString => true
  | String c r => WhatsAppMCPClient.isdigit c && all_digits r
  end.

(** The two rewriting rules of [_normalize_phone_number], on a number
    already reduced to its digits. *)
Definition rule_0 (cleaned : string) : string :=
  if Str.startswith "0" cleaned && (Str.len cleaned =? 11)
  then "92" +:+ WhatsAppMCPClient.from_1 cleaned
  else cleaned.

Definition rule_3 (cleaned : string) : string :=
  if (Str.len cleaned =? 10) && Str.startswith "3" cleaned
  then "92" +:+ cleaned
  else cleaned.

End TextSpec.

Module Frame.

(** [m] takes every world to one that is [R]-related to it, whether it
    returns or raises. *)
Definition preserves {A : Type} (R : world -> world -> Prop) (m : M A) : Prop :=
  forall w, R w (snd (m w)).

(** What no statement of the runners changes in a ticket row. *)
Definition same_identity (t t' : ticket) : Prop :=
  t_source_channel t' = t_source_channel t
  /\ t_customer_id t' = t_customer_id t
  /\ t_conversation_id t' = t_conversation_id t.

(** The status a ticket row can move to. *)
Definition status_moves (t t' : ticket) : Prop :=
  t_status t' = t_status t
  \/ t_status t' = "escalated"
  \/ t_status t' = "resolved".

(** [w'] differs from [w] at most in the row of [ticket_id], which is
    neither created nor deleted and keeps its identity, and in rows
    added to [messages]. *)
Definition touches_only (ticket_id : string) (w w' : world) : Prop :=
  customers w' = customers w
  /\ (forall id, id <> ticket_id -> tickets w' !! id = tickets w !! id)
  /\ option_Forall2 (fun t t' => same_identity t t' /\ status_moves t t')
       (tickets w !! ticket_id) (tickets w' !! ticket_id)
  /\ (exists new, messages w' = new ++ messages w).

(** The calls [w'] has and [w] has not all satisfy [allowed]. *)
Definition calls_only (allowed : event -> bool) (w w' : world) : Prop :=
  exists new, calls w' = new ++ calls w /\ forallb allowed new = true.

(** Nothing was stored as a message and nothing was called. *)
Definition silent (w w' : world) : Prop :=
  messages w' = messages w /\ calls w' = calls w.

Definition is_whatsapp_send (ev : event) : bool :=
  match ev with
  | WhatsAppSend _ _ _ => true
  | _ => false
  end.

(** What the store part of [send_response] can change. *)
Definition row_added (content : string) (p p' : plant) : Prop :=
  posted p' = posted p /\ published p' = published p
  /\ (handler_rows p' = handler_rows p
      \/ exists conversation_id,
           handler_rows p'
           = mkStored conversation_id "whatsapp" "outgoing" "support" content
               :: handler_rows p).

(** The tickets are the same. *)
Definition same_tickets (w w' : world) : Prop := tickets w' = tickets w.

End Frame.

(* ------------------------------------------------------------------ *)
(** ** A reply that is cut inside a word *)

Module CutScenario.

(** A reply of 400 characters in 37 words; its 300th character is the
    "l" of the 28th "deliveries". *)
Definition reply_cut : string :=
  Scenario.copies 36 "deliveries " +:+ "done".

(** What the first 300 characters of it are. *)
Definition cut_300 : string := Scenario.copies 27 "deliveries " +:+ "del".

(** What [format_for_channel] makes of it for WhatsApp. *)
Definition formatted_299 : string :=
  Scenario.copies 26 "deliveries " +:+ "deliveries...".

(** The generator answers with [reply_cut]. *)
Definition cutting : env :=
  Scenario.with_generator (fun _ => Some reply_cut) Scenario.calm.

(** A connected site whose bridge accepts every request. *)
Definition open_bridge : site :=
  mkSite true (fun _ _ => Some (200, Some true)) (fun _ => "N-1").

(** The deployment around [Scenario.desk], nothing sent yet. *)
Definition idle (channel : string) : plant :=
  mkPlant (Scenario.desk channel) [] [] [].

End CutScenario.

(* ================================================================== *)
(** * Properties *)

Module StrFacts.

Lemma app_empty_l (s : string) : EmptyString +:+ s = s.
Proof. reflexivity. Qed.

Lemma app_cons (c : ascii) (s t : string) :
  String c s +:+ t = String c (s +:+ t).
Proof. reflexivity. Qed.

Lemma app_empty_r (s : string) : s +:+ EmptyString = s.
Proof.
  induction s as [|c s IH]; [reflexivity|].
  rewrite app_cons, IH. reflexivity.
Qed.

Lemma app_assoc (a b c : string) : (a +:+ b) +:+ c = a +:+ (b +:+ c).
Proof.
  induction a as [|x a IH]; [reflexivity|].
  rewrite !app_cons, IH. reflexivity.
Qed.

Lemma length_app (a b : string) :
  String.length (a +:+ b) = (String.length a + String.length b)%nat.
Proof.
  induction a as [|x a IH]; [reflexivity|].
  rewrite app_cons. simpl. rewrite IH. reflexivity.
Qed.

Lemma startswith_app (p t : string) : Str.startswith p (p +:+ t) = true.
Proof.
  induction p as [|c p IH]; [reflexivity|].
  rewrite app_cons. simpl. rewrite Ascii.eqb_refl. exact IH.
Qed.

Lemma startswith_inv (p s : string) :
  Str.startswith p s = true -> exists t, s = p +:+ t.
Proof.
  revert s. induction p as [|c p IH]; intros s H.
  - exists s. reflexivity.
  - destruct s as [|d s]; [discriminate|].
    simpl in H. apply andb_true_iff in H as [Hc Hp].
    apply Ascii.eqb_eq in Hc as ->.
    destruct (IH _ Hp) as [t ->]. exists t. reflexivity.
Qed.

Lemma startswith_iff (p s : string) :
  Str.startswith p s = true <-> exists t, s = p +:+ t.
Proof.
  split; [apply startswith_inv|].
  intros [t ->]. apply startswith_app.
Qed.

(** [p in s] holds exactly when [s] splits around a copy of [p]. *)
Lemma contains_iff (p s : string) :
  Str.contains p s = true <-> exists pre post, s = pre +:+ p +:+ post.
Proof.
  split.
  - induction s as [|c s IH]; simpl; intros H.
    + rewrite orb_false_r in H. apply startswith_inv in H as [t Ht].
      exists EmptyString, t. exact Ht.
    + apply orb_true_iff in H as [H|H].
      * apply startswith_inv in H as [t Ht].
        exists EmptyString, t. exact Ht.
      * destruct (IH H) as (pre & post & ->).
        exists (String c pre), post. reflexivity.
  - intros (pre & post & ->).
    induction pre as [|c pre IH].
    + rewrite app_empty_l.
      destruct (p +:+ post) eqn:Heq; simpl;
        rewrite <- Heq, startswith_app; reflexivity.
    + rewrite app_cons. simpl. rewrite IH. apply orb_true_r.
Qed.

Lemma lower_app (a b : string) :
  Str.lower (a +:+ b) = Str.lower a +:+ Str.lower b.
Proof.
  induction a as [|c a IH]; [reflexivity|].
  rewrite app_cons. simpl. rewrite IH. reflexivity.
Qed.

Lemma lower_length (s : string) :
  String.length (Str.lower s) = String.length s.
Proof. induction s as [|c s IH]; simpl; congruence. Qed.

Lemma contains_lower (p s : string) :
  Str.contains p s = true ->
  Str.contains (Str.lower p) (Str.lower s) = true.
Proof.
  rewrite !contains_iff. intros (pre & post & ->).
  exists (Str.lower pre), (Str.lower post).
  rewrite !lower_app. reflexivity.
Qed.

Lemma char_lower_idem (c : ascii) : Char.lower (Char.lower c) = Char.lower c.
Proof. destruct c as [[] [] [] [] [] [] [] []]; reflexivity. Qed.

Lemma lower_idem (s : string) : Str.lower (Str.lower s) = Str.lower s.
Proof.
  induction s as [|c s IH]; [reflexivity|].
  simpl. rewrite char_lower_idem, IH. reflexivity.
Qed.

End StrFacts.

Module EscalationFacts.

Import Escalation EscalationSpec StrFacts.

Lemma strip_prefix_iff (p s rest : string) :
  strip_prefix p s = Some rest <-> s = p +:+ rest.
Proof.
  revert s. induction p as [|c p IH]; intros s.
  - simpl. rewrite app_empty_l. split; congruence.
  - destruct s as [|d s]; simpl.
    + rewrite app_cons. split; discriminate.
    + rewrite app_cons. destruct (Ascii.eqb c d) eqn:Hcd.
      * apply Ascii.eqb_eq in Hcd as ->. rewrite IH.
        split; [intros ->; reflexivity | intros [= ->]; reflexivity].
      * apply Ascii.eqb_neq in Hcd. split; [discriminate|].
        intros [= -> _]. contradiction.
Qed.

Lemma preceding_snoc (prev : option ascii) (p : string) (c : ascii) :
  preceding prev (p +:+ String c EmptyString) = Some c.
Proof.
  revert prev. induction p as [|d p IH]; intros prev; [reflexivity|].
  rewrite app_cons. simpl. apply IH.
Qed.

Lemma string_snoc_cases (s : string) :
  s = EmptyString \/ exists p c, s = p +:+ String c EmptyString.
Proof.
  induction s as [|d s IH]; [left; reflexivity|right].
  destruct IH as [->|(p & c & ->)].
  - exists EmptyString, d. reflexivity.
  - exists (String d p), c. reflexivity.
Qed.

Lemma ends_clear_iff (pre : string) :
  ends_clear pre <-> boundary_left (preceding None pre) = true.
Proof.
  unfold ends_clear. destruct (string_snoc_cases pre) as [->|(p & c & ->)].
  - simpl. split; [reflexivity|]. intros _ p c H.
    destruct p; discriminate.
  - rewrite preceding_snoc. simpl. split.
    + intros H. rewrite (H p c eq_refl). reflexivity.
    + intros H p' c' Heq.
      assert (Some c' = Some c) as [= ->].
      { rewrite <- (preceding_snoc None p' c'), <- Heq.
        apply preceding_snoc. }
      apply negb_true_iff. exact H.
Qed.

Lemma starts_clear_iff (post : string) :
  starts_clear post <-> boundary_right post = true.
Proof.
  unfold starts_clear. destruct post as [|c r]; simpl.
  - split; [reflexivity|]. intros _ c r H. discriminate.
  - split.
    + intros H. rewrite (H c r eq_refl). reflexivity.
    + intros H c' r' [= -> ->]. apply negb_true_iff. exact H.
Qed.

(** Every human-request keyword is made of letters and spaces and
    begins and ends with a letter, so that [\b] on either side of it is
    the boundary that [word_match_here] tests. *)
Lemma human_keywords_are_words :
  forall k, In k HUMAN_REQUEST_KEYWORDS ->
    (exists c r, k = String c r /\ Char.is_word c = true)
    /\ (exists d, preceding None k = Some d /\ Char.is_word d = true).
Proof.
  intros k Hin. simpl in Hin.
  repeat (destruct Hin as [<-|Hin];
          [split; [eexists; eexists; split; reflexivity
                  |eexists; split; reflexivity]|]).
  destruct Hin.
Qed.

(** The scan from a position finds exactly the whole-word occurrences
    to its right. *)
Lemma word_search_from_iff (kw s : string) (prev : option ascii) :
  word_search_from prev kw s = true <->
  exists pre post,
    s = pre +:+ kw +:+ post
    /\ boundary_left (preceding prev pre) = true
    /\ boundary_right post = true.
Proof.
  revert prev. induction s as [|c s IH]; intros prev.
  - simpl. rewrite orb_false_r. unfold word_match_here.
    split.
    + destruct (strip_prefix kw EmptyString) as [rest|] eqn:Hs; [|discriminate].
      intros H. apply andb_true_iff in H as [Hl Hr].
      apply strip_prefix_iff in Hs.
      exists EmptyString, rest. auto.
    + intros (pre & post & Heq & Hl & Hr).
      destruct pre; [|discriminate].
      rewrite app_empty_l in Heq. apply strip_prefix_iff in Heq.
      rewrite Heq. simpl in Hl. rewrite Hl, Hr. reflexivity.
  - simpl. rewrite orb_true_iff, IH. unfold word_match_here. split.
    + intros [H|(pre & post & -> & Hl & Hr)].
      * destruct (strip_prefix kw (String c s)) as [rest|] eqn:Hs;
          [|discriminate].
        apply andb_true_iff in H as [Hl Hr].
        apply strip_prefix_iff in Hs.
        exists EmptyString, rest. auto.
      * exists (String c pre), post. auto.
    + intros (pre & post & Heq & Hl & Hr).
      destruct pre as [|d pre].
      * left. rewrite app_empty_l in Heq. apply strip_prefix_iff in Heq.
        rewrite Heq. simpl in Hl. rewrite Hl, Hr. reflexivity.
      * right. rewrite app_cons in Heq. injection Heq as -> ->.
        exists pre, post. auto.
Qed.

Lemma word_search_iff (kw s : string) :
  word_search kw s = true <-> occurs_as_word kw s.
Proof.
  unfold word_search, occurs_as_word. rewrite word_search_from_iff.
  split; intros (pre & post & Heq & Hl & Hr); exists pre, post;
    (split; [exact Heq|]).
  - split; [apply ends_clear_iff | apply starts_clear_iff]; assumption.
  - split; [apply ends_clear_iff | apply starts_clear_iff]; assumption.
Qed.

Lemma occurs_iff (kw s : string) : Str.contains kw s = true <-> occurs kw s.
Proof. apply contains_iff. Qed.

(** The first loop returns at the first listed keyword that occurs. *)
Lemma hard_loop_first (before after : list string) (kw s : string) :
  (forall k, In k before -> ~ occurs k s) ->
  occurs kw s ->
  hard_keyword_loop (before ++ kw :: after) s
  = Some (mkDecision true ("keyword_detected:" +:+ kw) "immediate").
Proof.
  intros Hb Hk. induction before as [|b before IH]; simpl.
  - apply occurs_iff in Hk. rewrite Hk. reflexivity.
  - destruct (Str.contains b s) eqn:Hc.
    + exfalso. apply (Hb b); [left; reflexivity | apply occurs_iff, Hc].
    + apply IH. intros k Hin. apply Hb. right. exact Hin.
Qed.

Lemma hard_loop_some (kws : list string) (s : string) (d : EscalationDecision) :
  hard_keyword_loop kws s = Some d ->
  exists before kw after,
    kws = before ++ kw :: after
    /\ (forall k, In k before -> ~ occurs k s)
    /\ occurs kw s
    /\ d = mkDecision true ("keyword_detected:" +:+ kw) "immediate".
Proof.
  induction kws as [|k kws IH]; simpl; [discriminate|].
  destruct (Str.contains k s) eqn:Hc.
  - intros [= <-]. exists [], k, kws.
    split; [reflexivity|]. split; [intros ? []|].
    split; [apply occurs_iff, Hc | reflexivity].
  - intros H. destruct (IH H) as (before & kw & after & -> & Hb & Hk & ->).
    exists (k :: before), kw, after.
    split; [reflexivity|]. split; [|auto].
    intros k' [<-|Hin]; [|apply Hb, Hin].
    intros Ho. apply occurs_iff in Ho. congruence.
Qed.

Lemma hard_loop_none (kws : list string) (s : string) :
  hard_keyword_loop kws s = None <-> (forall k, In k kws -> ~ occurs k s).
Proof.
  induction kws as [|k kws IH]; simpl.
  - split; [intros _ ? [] | reflexivity].
  - destruct (Str.contains k s) eqn:Hc.
    + split; [discriminate|]. intros H. exfalso.
      apply (H k); [left; reflexivity | apply occurs_iff, Hc].
    + rewrite IH. split.
      * intros H k' [<-|Hin]; [|apply H, Hin].
        intros Ho. apply occurs_iff in Ho. congruence.
      * intros H k' Hin. apply H. right. exact Hin.
Qed.

Lemma human_loop_some (kws : list string) (s : string) (d : EscalationDecision) :
  human_request_loop kws s = Some d ->
  d = mkDecision true "customer_requested_human" "high"
  /\ exists k, In k kws /\ occurs_as_word k s.
Proof.
  induction kws as [|k kws IH]; simpl; [discriminate|].
  destruct (word_search k s) eqn:Hw.
  - intros [= <-]. split; [reflexivity|].
    exists k. split; [left; reflexivity | apply word_search_iff, Hw].
  - intros H. destruct (IH H) as [-> (k' & Hin & Ho)].
    split; [reflexivity|]. exists k'. split; [right|]; assumption.
Qed.

Lemma human_loop_none (kws : list string) (s : string) :
  human_request_loop kws s = None <->
  (forall k, In k kws -> ~ occurs_as_word k s).
Proof.
  induction kws as [|k kws IH]; simpl.
  - split; [intros _ ? [] | reflexivity].
  - destruct (word_search k s) eqn:Hw.
    + split; [discriminate|]. intros H. exfalso.
      apply (H k); [left; reflexivity | apply word_search_iff, Hw].
    + rewrite IH. split.
      * intros H k' [<-|Hin]; [|apply H, Hin].
        intros Ho. apply word_search_iff in Ho. congruence.
      * intros H k' Hin. apply H. right. exact Hin.
Qed.

Lemma human_loop_found (kws : list string) (s k : string) :
  In k kws -> occurs_as_word k s ->
  human_request_loop kws s
  = Some (mkDecision true "customer_requested_human" "high").
Proof.
  intros Hin Ho.
  destruct (human_request_loop kws s) as [d|] eqn:Hl.
  - apply human_loop_some in Hl as [-> _]. reflexivity.
  - exfalso. exact (proj1 (human_loop_none kws s) Hl k Hin Ho).
Qed.

(** Not below 0.2 and below 0.3 is at least 0.2. *)
Lemma not_below_at_least (sc : pyfloat) (y : pyfloat) :
  Float.ltb sc Float.lit_0_2 = false -> Float.ltb sc y = true ->
  Float.leb Float.lit_0_2 sc = true.
Proof.
  destruct sc as [q| | |]; simpl; try discriminate.
  - unfold Float.Qltb. intros H _. apply negb_false_iff in H. exact H.
  - reflexivity.
Qed.

Lemma at_least_not_below (sc : pyfloat) :
  Float.leb Float.lit_0_2 sc = true -> Float.ltb sc Float.lit_0_2 = false.
Proof.
  destruct sc as [q| | |]; simpl; try discriminate; try reflexivity.
  unfold Float.Qltb. intros ->. reflexivity.
Qed.

(** C4. [decide_escalation] is the ordered-rule policy: a decision
    follows from the rules (first listed hard keyword occurring as a
    substring; else a human-request keyword as a whole word; else score
    below 0.2; else score from 0.2 up to 0.3; else none) exactly when it
    is the value the function returns.  The rules therefore fix one
    decision for each text and score. *)
Theorem decide_escalation_is_rule_policy (text : string) (sc : pyfloat)
  (d : EscalationDecision) :
  decides text sc d <-> d = decide_escalation text sc.
Proof.
  unfold decide_escalation. split.
  - intros H. destruct H as [before kw after Hl Hb Hk|Hh Hm|Hh Hm Hs
                            |Hh Hm Hs1 Hs2|Hh Hm Hs1 Hs2].
    + rewrite Hl, (hard_loop_first before after kw _ Hb Hk). reflexivity.
    + apply hard_loop_none in Hh. rewrite Hh.
      destruct Hm as (k & Hin & Ho).
      rewrite (human_loop_found _ _ k Hin Ho). reflexivity.
    + apply hard_loop_none in Hh. apply human_loop_none in Hm.
      rewrite Hh, Hm. unfold below in Hs. rewrite Hs. reflexivity.
    + apply hard_loop_none in Hh. apply human_loop_none in Hm.
      rewrite Hh, Hm. unfold below, at_least in *.
      rewrite (at_least_not_below _ Hs1), Hs2. reflexivity.
    + apply hard_loop_none in Hh. apply human_loop_none in Hm.
      rewrite Hh, Hm. unfold below, at_least in *.
      destruct (Float.ltb sc Float.lit_0_2) eqn:H2; [congruence|].
      destruct (Float.ltb sc Float.lit_0_3) eqn:H3; [|reflexivity].
      exfalso. apply Hs2. split; [|reflexivity].
      apply (not_below_at_least _ _ H2 H3).
  - intros ->.
    destruct (hard_keyword_loop HARD_ESCALATION_KEYWORDS (Str.lower text))
      as [dh|] eqn:Hh.
    { apply hard_loop_some in Hh
        as (before & kw & after & Hl & Hb & Hk & ->).
      exact (rule_hard_keyword text sc before kw after Hl Hb Hk). }
    pose proof (proj1 (hard_loop_none _ _) Hh) as Hh'. clear Hh.
    rename Hh' into Hh.
    destruct (human_request_loop HUMAN_REQUEST_KEYWORDS (Str.lower text))
      as [dm|] eqn:Hm.
    { apply human_loop_some in Hm as [-> Hex].
      exact (rule_human_request text sc Hh Hex). }
    pose proof (proj1 (human_loop_none _ _) Hm) as Hm'. clear Hm.
    rename Hm' into Hm.
    destruct (Float.ltb sc Float.lit_0_2) eqn:H2.
    { exact (rule_hostile text sc Hh Hm H2). }
    destruct (Float.ltb sc Float.lit_0_3) eqn:H3.
    { apply (rule_negative text sc Hh Hm); [|exact H3].
      apply (not_below_at_least _ _ H2 H3). }
    apply (rule_default text sc Hh Hm).
    + unfold below. congruence.
    + unfold below. intros [_ H]. congruence.
Qed.

End EscalationFacts.

Module SplitFacts.

Import Tokens StrFacts.

Lemma rev_app_rev_app (a b c : string) :
  String.rev_app (String.rev_app a b) c = String.rev_app b (a +:+ c).
Proof.
  revert b c. induction a as [|x a IH]; intros b c; [reflexivity|].
  simpl. rewrite IH. reflexivity.
Qed.

Lemma rev_rev_app (a : string) : String.rev (String.rev_app a EmptyString) = a.
Proof.
  unfold String.rev. rewrite rev_app_rev_app. simpl. apply app_empty_r.
Qed.

Lemma no_space_app (a b : string) :
  no_space (a +:+ b) = no_space a && no_space b.
Proof.
  induction a as [|x a IH]; [reflexivity|].
  rewrite app_cons. simpl. rewrite IH. apply andb_assoc.
Qed.

Lemma no_space_rev_app (a b : string) :
  no_space (String.rev_app a b) = no_space a && no_space b.
Proof.
  revert b. induction a as [|x a IH]; intros b; [reflexivity|].
  simpl. rewrite IH. simpl.
  destruct (Char.isspace x), (no_space a), (no_space b); reflexivity.
Qed.

Lemma rev_app_nonempty (a b : string) :
  b <> EmptyString -> String.rev_app a b <> EmptyString.
Proof.
  revert b. induction a as [|x a IH]; intros b Hb; [exact Hb|].
  simpl. apply IH. discriminate.
Qed.

(** Reading a separator-free run [w]: it is pushed, reversed, on the
    run being read. *)
Lemma split_go_run (w rest : string) (cur : option string) :
  w <> EmptyString -> no_space w = true ->
  Str.split_go cur (w +:+ rest)
  = Str.split_go (Some (String.rev_app w (default EmptyString cur))) rest.
Proof.
  revert cur. induction w as [|c w IH]; intros cur Hne Hns; [congruence|].
  simpl in Hns. apply andb_true_iff in Hns as [Hc Hw].
  apply negb_true_iff in Hc.
  rewrite app_cons. simpl. rewrite Hc.
  destruct w as [|d w].
  - reflexivity.
  - rewrite IH; [reflexivity|discriminate|exact Hw].
Qed.

(** [split] undoes [join] on a single space, for words it can return. *)
Lemma split_join (l : list string) :
  Forall is_token l -> Str.split (Str.join " " l) = l.
Proof.
  unfold Str.split. induction 1 as [|w l [Hne Hns] Hl IH]; [reflexivity|].
  destruct l as [|w' l].
  - simpl. rewrite <- (app_empty_r w) at 1.
    rewrite split_go_run by assumption. simpl.
    rewrite rev_rev_app. reflexivity.
  - change (Str.join " " (w :: w' :: l))
      with (w +:+ " " +:+ Str.join " " (w' :: l)).
    rewrite split_go_run by assumption.
    change (" " +:+ Str.join " " (w' :: l))
      with (String " " (Str.join " " (w' :: l))).
    simpl Str.split_go at 1.
    change (Char.isspace " ") with true. cbv iota.
    rewrite rev_rev_app. f_equal. exact IH.
Qed.

(** Every word that [split] returns is a token. *)
Lemma split_go_tokens (s : string) (cur : option string) :
  (forall a, cur = Some a -> is_token a) ->
  Forall is_token (Str.split_go cur s).
Proof.
  revert cur. induction s as [|c s IH]; intros cur Hcur; simpl.
  - destruct cur as [a|]; [|constructor].
    constructor; [|constructor].
    destruct (Hcur a eq_refl) as [Hne Hns]. split.
    + unfold String.rev. destruct a; [congruence|]. simpl.
      apply rev_app_nonempty. discriminate.
    + unfold String.rev. rewrite no_space_rev_app, Hns. reflexivity.
  - destruct (Char.isspace c) eqn:Hc.
    + destruct cur as [a|].
      * constructor; [|apply IH; discriminate].
        destruct (Hcur a eq_refl) as [Hne Hns]. split.
        -- unfold String.rev. destruct a; [congruence|]. simpl.
           apply rev_app_nonempty. discriminate.
        -- unfold String.rev. rewrite no_space_rev_app, Hns. reflexivity.
      * apply IH. discriminate.
    + apply IH. intros a [= <-]. split; [discriminate|].
      simpl. rewrite Hc. simpl.
      destruct cur as [a|]; [apply (Hcur a eq_refl)|reflexivity].
Qed.

Lemma split_tokens (s : string) : Forall is_token (Str.split s).
Proof. apply split_go_tokens. discriminate. Qed.

Lemma is_token_app (w x : string) :
  is_token w -> no_space x = true -> is_token (w +:+ x).
Proof.
  intros [Hne Hns] Hx. split.
  - destruct w; [congruence|]. rewrite app_cons. discriminate.
  - rewrite no_space_app, Hns, Hx. reflexivity.
Qed.

Lemma mark_last_tokens (x : string) (l : list string) :
  x <> EmptyString -> no_space x = true ->
  Forall is_token l -> Forall is_token (mark_last x l).
Proof.
  intros Hx Hns. induction 1 as [|w l Hw Hl IH]; simpl.
  - constructor; [split; assumption|constructor].
  - destruct l as [|w' l].
    + constructor; [apply is_token_app; assumption|constructor].
    + constructor; assumption.
Qed.

Lemma join_mark_last (x : string) (l : list string) :
  Str.join " " l +:+ x = Str.join " " (mark_last x l).
Proof.
  induction l as [|w l IH]; [reflexivity|].
  destruct l as [|w' l]; [reflexivity|].
  change (Str.join " " (w :: w' :: l))
    with (w +:+ " " +:+ Str.join " " (w' :: l)).
  rewrite !app_assoc, IH.
  change (mark_last x (w :: w' :: l)) with (w :: mark_last x (w' :: l)).
  destruct (mark_last x (w' :: l)) as [|m ms] eqn:Hm;
    [destruct l; discriminate|].
  reflexivity.
Qed.

Lemma length_mark_last (x : string) (l : list string) :
  length (mark_last x l) = Nat.max 1 (length l).
Proof.
  induction l as [|w l IH]; [reflexivity|].
  destruct l as [|w' l]; [reflexivity|].
  change (mark_last x (w :: w' :: l)) with (w :: mark_last x (w' :: l)).
  change (length (w :: mark_last x (w' :: l)))
    with (S (length (mark_last x (w' :: l)))).
  rewrite IH. simpl. lia.
Qed.

Lemma removelast_mark_last (x : string) (l : list string) :
  removelast (mark_last x l) = removelast l.
Proof.
  induction l as [|w l IH]; [reflexivity|].
  destruct l as [|w' l]; [reflexivity|].
  change (mark_last x (w :: w' :: l)) with (w :: mark_last x (w' :: l)).
  change (removelast (w :: w' :: l)) with (w :: removelast (w' :: l)).
  rewrite <- IH. destruct (mark_last x (w' :: l)) eqn:Hm; [|reflexivity].
  destruct l; discriminate.
Qed.

Lemma removelast_firstn_prefix {A : Type} (n : nat) (l : list A) :
  exists rest, l = removelast (firstn n l) ++ rest.
Proof.
  revert n. induction l as [|x l IH]; intros n.
  - exists []. destruct n; reflexivity.
  - destruct n as [|n]; [exists (x :: l); reflexivity|].
    simpl firstn. destruct (firstn n l) as [|y t] eqn:Hf.
    + exists (x :: l). reflexivity.
    + destruct (IH n) as [rest Hrest]. rewrite Hf in Hrest.
      exists rest. simpl. simpl in Hrest. rewrite <- Hrest. reflexivity.
Qed.

End SplitFacts.

Module FormatterFacts.

Import Formatters Tokens SplitFacts StrFacts.

Lemma removelast_prefix {A : Type} (l : list A) : removelast l `prefix_of` l.
Proof.
  destruct (removelast_firstn_prefix (length l) l) as [rest H].
  rewrite firstn_all in H. exists rest. exact H.
Qed.

(** C7, as stated, fails: the ellipsis is glued to the last kept word,
    so the output's tokens are not a prefix of the input's; and a
    negative cap counts from the end. *)
Lemma truncate_tokens_not_prefix :
  Str.split (truncate_to_words "a b c" 2) = ["a"; "b..."]
  /\ Str.split "a b c" = ["a"; "b"; "c"]
  /\ ~ (Str.split (truncate_to_words "a b c" 2) `prefix_of` Str.split "a b c")
  /\ Str.split (truncate_to_words "a b c" (-1)) = ["a"; "b..."].
Proof.
  split; [reflexivity|]. split; [reflexivity|]. split; [|reflexivity].
  intros [k Hk]. vm_compute in Hk. discriminate.
Qed.

(** C7, amended.  For a cap [N >= 0]: a text of at most [N] words is
    returned unchanged; otherwise the output's tokens are the first [N]
    tokens of the input with the ellipsis appended to the last of them
    (the ellipsis alone for [N = 0]).  So the output has at most [N + 1]
    tokens, and its tokens but the last are a prefix of the input's. *)
Theorem truncate_to_words_tokens (text : string) (N : Z) :
  0 <= N ->
  let words := Str.split text in
  let out := Str.split (truncate_to_words text N) in
  Z.of_nat (length out) <= N + 1
  /\ (Z.of_nat (length words) <= N -> truncate_to_words text N = text)
  /\ (N < Z.of_nat (length words) ->
      out = mark_last "..." (firstn (Z.to_nat N) words))
  /\ removelast out `prefix_of` words.
Proof.
  intros HN words out. subst out. unfold truncate_to_words.
  fold words.
  destruct (Z.of_nat (length words) <=? N) eqn:Hle.
  - apply Z.leb_le in Hle. fold words.
    split; [lia|]. split; [reflexivity|]. split; [lia|].
    apply removelast_prefix.
  - apply Z.leb_gt in Hle.
    assert (Hout : Str.split (Str.join " " (slice_to N words) +:+ "...")
                   = mark_last "..." (firstn (Z.to_nat N) words)).
    { unfold slice_to. destruct (N <? 0) eqn:Hneg;
        [apply Z.ltb_lt in Hneg; lia|].
      rewrite join_mark_last. apply split_join.
      apply mark_last_tokens; [discriminate|reflexivity|].
      apply Forall_take, split_tokens. }
    rewrite Hout. split; [|split; [lia|split; [reflexivity|]]].
    + rewrite length_mark_last, length_take. lia.
    + rewrite removelast_mark_last.
      destruct (removelast_firstn_prefix (Z.to_nat N) words) as [rest H].
      exists rest. exact H.
Qed.

Lemma truncate_to_words_tokens_witness :
  0 <= 2
  /\ Str.split (truncate_to_words "a b c" 2)
     = mark_last "..." (firstn 2 (Str.split "a b c")).
Proof.
  split; [lia|].
  apply (truncate_to_words_tokens "a b c" 2); [lia|].
  vm_compute. reflexivity.
Defined.

End FormatterFacts.

Module ClassifierFacts.

Import QuickAnswer ClassifierSpec.

Lemma keyword_loop_none (kws : list string) (s : string) :
  existsb (fun kw => keyword_accepted kw s) kws = false ->
  keyword_loop kws s = None.
Proof.
  induction kws as [|k kws IH]; simpl; [reflexivity|].
  destruct (keyword_accepted k s); simpl; [discriminate|exact IH].
Qed.

Lemma keyword_loop_some (kws : list string) (s : string) :
  existsb (fun kw => keyword_accepted kw s) kws = true ->
  exists kw, keyword_loop kws s = Some kw.
Proof.
  induction kws as [|k kws IH]; simpl; [discriminate|].
  destruct (keyword_accepted k s); simpl; [eexists; reflexivity|exact IH].
Qed.

Lemma keyword_loop_accepted (kws : list string) (s kw : string) :
  keyword_loop kws s = Some kw -> In kw kws /\ keyword_accepted kw s = true.
Proof.
  induction kws as [|k kws IH]; simpl; [discriminate|].
  destruct (keyword_accepted k s) eqn:Hk.
  - intros [= <-]. auto.
  - intros H. destruct (IH H). auto.
Qed.

Lemma priority_loop_accepted (names : list string) (s intent kw : string) :
  priority_loop names s = Some (intent, kw) ->
  In intent names /\ In kw (intent_keywords intent)
  /\ keyword_accepted kw s = true.
Proof.
  induction names as [|n names IH]; cbn [priority_loop In];
    [discriminate|].
  destruct (lookup n QUICK_ANSWERS) as [d|] eqn:Hd.
  - destruct (keyword_loop (keywords d) s) as [k|] eqn:Hk.
    + intros Heq. injection Heq as Hn Hk'. subst n k.
      unfold intent_keywords. rewrite Hd.
      apply keyword_loop_accepted in Hk as [Hin Hacc]. auto.
    + intros H. destruct (IH H) as (? & ? & ?). auto.
  - intros H. destruct (IH H) as (? & ? & ?). auto.
Qed.

(** An occurrence that [find] reports lies inside the text. *)
Lemma find_in_range (p s : string) :
  0 <= Str.find p s -> Str.find p s + Str.len p <= Str.len s.
Proof.
  unfold Str.len. induction s as [|c s IH]; simpl.
  - destruct (Str.startswith p EmptyString) eqn:Hp; [|lia].
    intros _. apply StrFacts.startswith_inv in Hp as [r Hr].
    apply (f_equal String.length) in Hr.
    rewrite StrFacts.length_app in Hr. simpl in Hr. lia.
  - destruct (Str.startswith p (String c s)) eqn:Hp.
    + intros _. apply StrFacts.startswith_inv in Hp as [r Hr].
      apply (f_equal String.length) in Hr.
      rewrite StrFacts.length_app in Hr. simpl in Hr. lia.
    + destruct (Str.find p s <? 0) eqn:Hneg; [lia|].
      apply Z.ltb_ge in Hneg. intros _. specialize (IH Hneg). lia.
Qed.

Lemma at_index_defined (s : string) (i : Z) :
  0 <= i < Str.len s -> is_Some (Str.at_index s i).
Proof.
  unfold Str.at_index, Str.len. intros [H0 H1].
  destruct (i <? 0) eqn:Hneg; [apply Z.ltb_lt in Hneg; lia|].
  assert (Hn : (Z.to_nat i < String.length s)%nat) by lia.
  clear - Hn. revert s Hn.
  induction (Z.to_nat i) as [|n IH]; intros [|c s] Hn; simpl in *;
    try lia.
  - eexists; reflexivity.
  - apply IH. lia.
Qed.

(** Under the guards of [keyword_accepted] both indexed characters
    exist: no IndexError arises. *)
Lemma keyword_indices_defined (keyword message_lower : string) :
  let idx := Str.find (Str.lower keyword) message_lower in
  0 <= idx ->
  (idx <> 0 -> is_Some (Str.at_index message_lower (idx - 1)))
  /\ (idx + Str.len keyword < Str.len message_lower ->
      is_Some (Str.at_index message_lower (idx + Str.len keyword))).
Proof.
  intros idx Hidx. pose proof (find_in_range _ _ Hidx) as Hr. fold idx in Hr.
  assert (0 <= Str.len keyword) by (unfold Str.len; lia).
  assert (0 <= Str.len (Str.lower keyword)) by (unfold Str.len; lia).
  split; intros H1; apply at_index_defined; lia.
Qed.

(** The length gate of [keyword_accepted]. *)
Lemma accepted_gate (kw s : string) :
  keyword_accepted kw s = true ->
  (3 < String.length kw)%nat \/ In kw ["down"; "csv"; "2fa"].
Proof.
  unfold keyword_accepted.
  destruct (Str.contains (Str.lower kw) s); [|discriminate].
  destruct (3 <? Str.len kw) eqn:Hlen.
  - intros _. left. apply Z.ltb_lt in Hlen. unfold Str.len in Hlen. lia.
  - simpl. destruct (String.eqb kw "down") eqn:H1.
    { apply String.eqb_eq in H1 as ->. intros _. right. simpl. auto. }
    destruct (String.eqb kw "csv") eqn:H2.
    { apply String.eqb_eq in H2 as ->. intros _. right. simpl. auto. }
    destruct (String.eqb kw "2fa") eqn:H3.
    { apply String.eqb_eq in H3 as ->. intros _. right. simpl. auto. }
    discriminate.
Qed.

(** [classify_intent] returns the structural pattern's intent, else the
    intent of the keyword scan. *)
Lemma classify_intent_scan (message : string) :
  classify_intent message
  = match structural message with
    | Some intent => Some intent
    | None => option_map fst (keyword_scan message)
    end.
Proof.
  unfold classify_intent, keyword_scan, structural.
  destruct (pattern_loop INTENT_PATTERNS (Str.lower message)); reflexivity.
Qed.

(** C10.  The keyword scan never reports a keyword of three characters
    or fewer other than "down", "csv" and "2fa" (the scan names the
    intent and the keyword whenever [classify_intent] answers from the
    table); so "bug", although listed for "downtime", classifies as
    nothing. *)
Theorem short_keywords_never_match :
  (forall message intent keyword,
      keyword_scan message = Some (intent, keyword) ->
      ((3 < String.length keyword)%nat \/ In keyword ["down"; "csv"; "2fa"])
      /\ classify_intent message = Some intent)
  /\ classify_intent "bug" = None
  /\ In "bug" (intent_keywords "downtime").
Proof.
  split; [|split].
  - intros message intent keyword H. split.
    + unfold keyword_scan in H.
      destruct (pattern_loop INTENT_PATTERNS (Str.lower message));
        [discriminate|].
      apply priority_loop_accepted in H as (_ & _ & Hacc).
      exact (accepted_gate _ _ Hacc).
    + rewrite classify_intent_scan. unfold keyword_scan, structural in *.
      destruct (pattern_loop INTENT_PATTERNS (Str.lower message));
        [discriminate|].
      rewrite H. reflexivity.
  - vm_compute. reflexivity.
  - vm_compute. tauto.
Qed.

Lemma short_keywords_never_match_witness :
  keyword_scan "2FA setup" = Some ("two_factor", "2fa")
  /\ ((3 < String.length "2fa")%nat \/ In "2fa" ["down"; "csv"; "2fa"])
  /\ classify_intent "2FA setup" = Some "two_factor".
Proof.
  assert (H : keyword_scan "2FA setup" = Some ("two_factor", "2fa"))
    by (vm_compute; reflexivity).
  split; [exact H|].
  destruct short_keywords_never_match as (Hscan & _ & _).
  exact (Hscan "2FA setup" "two_factor" "2fa" H).
Defined.

(** C8, as stated, fails: both intents have a keyword in the text, no
    pattern and no earlier intent is involved, and the answer is
    "api_key": the first occurrence of "integrate" lies inside
    "reintegrate" and the later ones are not looked at. *)
Lemma priority_example_is_api_key :
  mentions "integration" priority_example = true
  /\ mentions "api_key" priority_example = true
  /\ structural priority_example = None
  /\ forallb (fun e => negb (mentions e priority_example)) before_integration
     = true
  /\ classify_intent priority_example = Some "api_key".
Proof. vm_compute. repeat split; reflexivity. Qed.

(** C8, amended.  When a keyword of "integration" passes the
    classifier's keyword test (its first occurrence is delimited), and
    neither a structural pattern nor an earlier intent matches, the
    answer is "integration", whatever keywords of "api_key" the text
    holds besides. *)
Theorem integration_before_api_key (message : string) :
  matches "integration" message = true ->
  structural message = None ->
  forallb (fun e => negb (matches e message)) before_integration = true ->
  classify_intent message = Some "integration".
Proof.
  intros Hint Hpat Hbefore.
  unfold classify_intent. unfold structural in Hpat. rewrite Hpat.
  unfold before_integration in Hbefore. simpl in Hbefore.
  repeat (apply andb_true_iff in Hbefore as [?%negb_true_iff Hbefore]).
  unfold matches in *.
  unfold priority_order.
  repeat match goal with
  | H : existsb _ (intent_keywords ?n) = false |- _ =>
      apply keyword_loop_none in H
  end.
  apply keyword_loop_some in Hint as [kw Hkw].
  unfold intent_keywords in *.
  cbn [priority_loop].
  repeat match goal with
  | |- context [lookup ?n QUICK_ANSWERS] =>
      let d := eval vm_compute in (lookup n QUICK_ANSWERS) in
      change (lookup n QUICK_ANSWERS) with d in *
  end.
  cbv iota beta in *.
  repeat match goal with
  | H : keyword_loop _ _ = None |- _ => rewrite H; clear H
  end.
  rewrite Hkw. reflexivity.
Qed.

Lemma integration_before_api_key_witness :
  mentions "api_key" "slack integration api key" = true
  /\ classify_intent "slack integration api key" = Some "integration".
Proof.
  split; [vm_compute; reflexivity|].
  apply integration_before_api_key; vm_compute; reflexivity.
Defined.

End ClassifierFacts.

Module MonadFacts.

Lemma bind_ok {A B : Type} (m : M A) (k : A -> M B) (w w1 : world) (a : A) :
  m w = (Ok a, w1) -> bind m k w = k a w1.
Proof. unfold bind. intros ->. reflexivity. Qed.

Lemma bind_raise {A B : Type} (m : M A) (k : A -> M B) (w w1 : world) (e : exn) :
  m w = (Raise e, w1) -> bind m k w = (Raise e, w1).
Proof. unfold bind. intros ->. reflexivity. Qed.

Lemma bind_cases {A B : Type} (m : M A) (k : A -> M B) (w : world) :
  (exists a w1, m w = (Ok a, w1) /\ bind m k w = k a w1)
  \/ (exists e w1, m w = (Raise e, w1) /\ bind m k w = (Raise e, w1)).
Proof.
  unfold bind. destruct (m w) as [[a|e] w1]; [left|right]; eauto.
Qed.

Lemma raises_only_ret {A : Type} (P : exn -> Prop) (a : A) :
  raises_only P (ret a).
Proof. intros w e w' H. discriminate. Qed.

Lemma raises_only_raise {A : Type} (P : exn -> Prop) (e : exn) :
  P e -> raises_only P (@raise A e).
Proof. intros He w e' w' H. injection H as <- _. exact He. Qed.

Lemma raises_only_bind {A B : Type} (P : exn -> Prop) (m : M A) (k : A -> M B) :
  raises_only P m -> (forall a, raises_only P (k a)) ->
  raises_only P (bind m k).
Proof.
  intros Hm Hk w e w' H.
  destruct (bind_cases m k w) as [(a & w1 & Hmw & Hb)|(e1 & w1 & Hmw & Hb)];
    rewrite Hb in H.
  - exact (Hk a w1 e w' H).
  - injection H as <- <-. exact (Hm w e1 w1 Hmw).
Qed.

Lemma raises_only_try {A : Type} (P : exn -> Prop) (m : M A) (h : exn -> M A) :
  (forall e, raises_only P (h e)) -> raises_only P (try_except m h).
Proof.
  intros Hh w e w' H. unfold try_except in H.
  destruct (m w) as [[a|e1] w1]; [discriminate|].
  exact (Hh e1 w1 e w' H).
Qed.

Lemma raises_only_of_option {A : Type} (P : exn -> Prop) (e : exn) (x : option A) :
  P e -> raises_only P (of_option e x).
Proof.
  intros He. destruct x; [apply raises_only_ret|apply raises_only_raise, He].
Qed.

Lemma raises_only_store_op (P : exn -> Prop) (E : env) :
  P StoreFault -> raises_only P (store_op E).
Proof.
  intros HP w e w' H. unfold store_op in H.
  destruct (store_ok E (store_ops w)); [discriminate|].
  injection H as <- _. exact HP.
Qed.

Lemma keeps_ret {A B : Type} (f : world -> B) (a : A) : keeps f (ret a).
Proof. intros w. reflexivity. Qed.

Lemma keeps_raise {A B : Type} (f : world -> B) (e : exn) :
  keeps f (@raise A e).
Proof. intros w. reflexivity. Qed.

Lemma keeps_bind {A B C : Type} (f : world -> C) (m : M A) (k : A -> M B) :
  keeps f m -> (forall a, keeps f (k a)) -> keeps f (bind m k).
Proof.
  intros Hm Hk w. specialize (Hm w). unfold bind.
  destruct (m w) as [[a|e] w1]; simpl in *.
  - rewrite Hk. exact Hm.
  - exact Hm.
Qed.

Lemma keeps_try {A B : Type} (f : world -> B) (m : M A) (h : exn -> M A) :
  keeps f m -> (forall e, keeps f (h e)) -> keeps f (try_except m h).
Proof.
  intros Hm Hh w. specialize (Hm w). unfold try_except.
  destruct (m w) as [[a|e] w1]; simpl in *.
  - exact Hm.
  - rewrite Hh. exact Hm.
Qed.

Lemma keeps_of_option {A B : Type} (f : world -> B) (e : exn) (x : option A) :
  keeps f (of_option e x).
Proof. destruct x; [apply keeps_ret|apply keeps_raise]. Qed.

End MonadFacts.

Module SentimentFacts.

Import Sentiment MonadFacts.

Lemma analyze_sentiment_run (E : env) (message : string) (w : world) :
  exists r,
    analyze_sentiment E message w
    = (Ok r, with_call (SentimentCall (prompt_of message)) w).
Proof.
  unfold analyze_sentiment, try_except, analyze_body, bind, record_call,
    of_option.
  destruct (sentiment_model E (prompt_of message)) as [raw|]; simpl;
    [|eexists; reflexivity].
  destruct (sentiment_json E _) as [[[sc lb] cf]|]; simpl;
    eexists; reflexivity.
Qed.

(** C9.  [analyze_sentiment] always returns: when the model call or the
    parsing of its reply fails, the neutral default (score 0.5, label
    "neutral", confidence 0.0, no escalation); otherwise the parsed
    fields, with [should_escalate] equal to [score < 0.3]. *)
Theorem analyze_sentiment_never_raises (E : env) (message : string) (w : world) :
  exists r,
    analyze_sentiment E message w
    = (Ok r, with_call (SentimentCall (prompt_of message)) w)
    /\ match sentiment_model E (prompt_of message) with
       | None => r = neutral_default
       | Some raw =>
           match sentiment_json E (cleaned raw) with
           | None => r = neutral_default
           | Some (sc, lb, cf) =>
               r = mkSentiment sc lb cf (Float.ltb sc Float.lit_0_3)
               /\ should_escalate r = Float.ltb (score r) Float.lit_0_3
           end
       end
    /\ neutral_default
       = mkSentiment (Finite (1 # 2)) "neutral" (Finite 0) false.
Proof.
  unfold analyze_sentiment, try_except, analyze_body, bind, record_call,
    of_option, cleaned.
  destruct (sentiment_model E (prompt_of message)) as [raw|]; simpl.
  - destruct (sentiment_json E _) as [[[sc lb] cf]|]; simpl.
    + eexists. split; [reflexivity|]. split; [|reflexivity].
      split; reflexivity.
    + eexists. split; [reflexivity|]. split; reflexivity.
  - eexists. split; [reflexivity|]. split; reflexivity.
Qed.

End SentimentFacts.

Module RunnerFacts.

Import MonadFacts SentimentFacts StrFacts EscalationFacts EscalationSpec Scenario.

Lemma store_op_ok (E : env) (w : world) :
  store_ok E (store_ops w) = true -> store_op E w = (Ok tt, tick w).
Proof. unfold store_op. intros ->. reflexivity. Qed.

(** [_escalate_ticket] when the store accepts its two operations. *)
Lemma escalate_ok (E : env) (ticket_id reason : string) (w : world) :
  store_ok E (store_ops w) = true ->
  store_ok E (S (store_ops w)) = true ->
  _escalate_ticket E ticket_id reason w
  = (Ok tt, with_ticket ticket_id
              (set_escalated ("Escalation reason: " +:+ reason))
              (tick (tick w))).
Proof.
  intros H0 H1. unfold _escalate_ticket, update_ticket.
  rewrite (bind_ok _ _ w (tick w) tt) by (apply store_op_ok, H0).
  rewrite (bind_ok _ _ (tick w) (tick (tick w)) tt)
    by (apply store_op_ok, H1).
  reflexivity.
Qed.

(** [_escalate_ticket] raises only when the store refuses one of its
    operations, the last one attempted. *)
Lemma escalate_raise (E : env) (ticket_id reason : string) (w w' : world)
  (e : exn) :
  _escalate_ticket E ticket_id reason w = (Raise e, w') ->
  e = StoreFault
  /\ exists k, store_ops w' = S k /\ store_ok E k = false.
Proof.
  unfold _escalate_ticket, update_ticket, bind, store_op.
  destruct (store_ok E (store_ops w)) eqn:H0.
  - simpl. destruct (store_ok E (S (store_ops w))) eqn:H1.
    + discriminate.
    + intros [= <- <-]. split; [reflexivity|].
      exists (S (store_ops w)). split; [reflexivity|exact H1].
  - intros [= <- <-]. split; [reflexivity|].
    exists (store_ops w). split; [reflexivity|exact H0].
Qed.

Lemma hard_keywords_lower :
  forall k, In k Escalation.HARD_ESCALATION_KEYWORDS -> Str.lower k = k.
Proof.
  intros k Hin. simpl in Hin.
  repeat (destruct Hin as [<-|Hin]; [reflexivity|]). destruct Hin.
Qed.

(** A text that holds a hard keyword is escalated, whatever the score,
    for the first listed keyword that occurs in its lower-cased form. *)
Lemma decide_hard_keyword (message kw : string) (sc : pyfloat) :
  In kw Escalation.HARD_ESCALATION_KEYWORDS ->
  Str.contains kw message = true ->
  exists before first after,
    Escalation.HARD_ESCALATION_KEYWORDS = before ++ first :: after
    /\ (forall k, In k before -> ~ occurs k (Str.lower message))
    /\ occurs first (Str.lower message)
    /\ Escalation.decide_escalation message sc
       = Escalation.mkDecision true ("keyword_detected:" +:+ first)
           "immediate".
Proof.
  intros Hin Hc. unfold Escalation.decide_escalation.
  destruct (Escalation.hard_keyword_loop Escalation.HARD_ESCALATION_KEYWORDS
              (Str.lower message)) as [d|] eqn:Hl.
  - apply hard_loop_some in Hl as (before & first & after & Hk & Hb & Ho & ->).
    exists before, first, after. auto.
  - exfalso.
    pose proof (proj1 (hard_loop_none _ _) Hl kw Hin) as Hno.
    apply Hno. apply occurs_iff.
    rewrite <- (hard_keywords_lower kw Hin). apply contains_lower, Hc.
Qed.

(** C1, as stated, fails on the WhatsApp channel: "I want a refund"
    holds the hard keyword "refund", yet the reply is the canned refund
    answer, not the hand-off notice, and the ticket ends resolved. *)
Lemma whatsapp_refund_gets_canned_reply :
  Str.contains "refund" "I want a refund" = true
  /\ In "refund" Escalation.HARD_ESCALATION_KEYWORDS
  /\ fst (process calm "T-1" "C-1" "I want a refund" "whatsapp"
            (desk "whatsapp"))
     = Ok (PStr QuickAnswer.response_refund)
  /\ QuickAnswer.response_refund
     <> WhatsAppAgentRunner._get_escalation_response "whatsapp"
  /\ t_status <$> (tickets (snd (process calm "T-1" "C-1" "I want a refund"
                                   "whatsapp" (desk "whatsapp"))) !! "T-1")
     = Some "resolved".
Proof.
  split; [reflexivity|]. split; [simpl; tauto|].
  split; [vm_compute; reflexivity|].
  split; [vm_compute; discriminate|].
  vm_compute. reflexivity.
Qed.

(** C1, amended.  On the e-mail and web-form channels, a message that
    holds a hard escalation keyword makes [process] mark the ticket
    escalated and return the hand-off notice of the channel, whatever
    the scorer reports, once the store accepts the escalation write.
    The reason names the first keyword of the list that occurs in the
    lower-cased text: that keyword occurs there, and none listed before
    it does. *)
Theorem hard_keyword_escalates (E : env) (w : world)
  (ticket_id customer_id message channel kw : string) (t : ticket) :
  channel <> "whatsapp" ->
  In kw Escalation.HARD_ESCALATION_KEYWORDS ->
  Str.contains kw message = true ->
  tickets w !! ticket_id = Some t ->
  store_ok E (store_ops w) = true ->
  store_ok E (S (store_ops w)) = true ->
  exists before first after w',
    Escalation.HARD_ESCALATION_KEYWORDS = before ++ first :: after
    /\ (forall k, In k before -> ~ occurs k (Str.lower message))
    /\ occurs first (Str.lower message)
    /\ process E ticket_id customer_id message channel w
       = (Ok (PStr (AgentRunner._get_escalation_response channel)), w')
    /\ tickets w' !! ticket_id
       = Some (set_escalated
                 ("Escalation reason: keyword_detected:" +:+ first) t).
Proof.
  intros Hch Hin Hc Ht H0 H1.
  unfold process.
  destruct (String.eqb channel "whatsapp") eqn:Hw;
    [apply String.eqb_eq in Hw; contradiction|].
  destruct (analyze_sentiment_run E message w) as [r Hr].
  destruct (decide_hard_keyword message kw (Sentiment.score r) Hin Hc)
    as (before & first & after & Hsplit & Hbefore & Hfirst & Hd).
  exists before, first, after.
  assert (Hbody :
    AgentRunner.process_body E ticket_id customer_id message channel w
    = (Ok (AgentRunner._get_escalation_response channel),
       with_ticket ticket_id
         (set_escalated
            ("Escalation reason: " +:+ "keyword_detected:" +:+ first))
         (tick (tick (with_call
                        (SentimentCall (Sentiment.prompt_of message)) w))))).
  { unfold AgentRunner.process_body.
    rewrite (bind_ok _ _ _ _ _ Hr). unfold AgentRunner.after_sentiment.
    rewrite Hd.
    cbn [Escalation.should_escalate Escalation.reason].
    rewrite (bind_ok _ _ _ _ tt
               (escalate_ok E ticket_id _ (with_call _ w) H0 H1)).
    reflexivity. }
  assert (Hrun :
    AgentRunner.process_message E ticket_id customer_id message channel w
    = (Ok (AgentRunner._get_escalation_response channel),
       with_ticket ticket_id
         (set_escalated
            ("Escalation reason: " +:+ "keyword_detected:" +:+ first))
         (tick (tick (with_call
                        (SentimentCall (Sentiment.prompt_of message)) w))))).
  { unfold AgentRunner.process_message, try_except.
    rewrite Hbody. reflexivity. }
  eexists. split; [exact Hsplit|]. split; [exact Hbefore|].
  split; [exact Hfirst|]. split.
  - rewrite (bind_ok _ _ _ _ _ Hrun). reflexivity.
  - simpl. rewrite lookup_alter_eq, Ht. reflexivity.
Qed.

Lemma hard_keyword_escalates_witness :
  "email" <> "whatsapp"
  /\ Str.contains "legal" "My LAWYER will take legal action" = true
  /\ exists before first after w',
       Escalation.HARD_ESCALATION_KEYWORDS = before ++ first :: after
       /\ (forall k, In k before
                     -> ~ occurs k (Str.lower "My LAWYER will take legal action"))
       /\ occurs first (Str.lower "My LAWYER will take legal action")
       /\ process calm "T-1" "C-1" "My LAWYER will take legal action" "email"
            (desk "email")
          = (Ok (PStr (AgentRunner._get_escalation_response "email")), w')
       /\ tickets w' !! "T-1"
          = Some (set_escalated
                    ("Escalation reason: keyword_detected:" +:+ first)
                    (mkTicket "open" None "email" "C-1" "K-1")).
Proof.
  split; [discriminate|]. split; [reflexivity|].
  apply (hard_keyword_escalates calm (desk "email") "T-1" "C-1"
           "My LAWYER will take legal action" "email" "legal").
  - discriminate.
  - simpl. tauto.
  - reflexivity.
  - vm_compute. reflexivity.
  - reflexivity.
  - reflexivity.
Defined.

End RunnerFacts.

Module BoundaryFacts.

Import MonadFacts SentimentFacts RunnerFacts Scenario.

Lemma raises_only_modify (P : exn -> Prop) (f : world -> world) :
  raises_only P (modify f).
Proof. intros w e w' H. discriminate. Qed.

Lemma raises_only_read {A : Type} (P : exn -> Prop) (f : world -> A) :
  raises_only P (read f).
Proof. intros w e w' H. discriminate. Qed.

(** One step of a proof that a computation raises only store or row
    faults: follow the shape of the code. *)
Ltac raises_step :=
  match goal with
  | |- raises_only _ (bind _ _) => apply raises_only_bind; [|intros ?]
  | |- raises_only _ (try_except _ _) => apply raises_only_try; intros ?
  | |- raises_only _ (ret _) => apply raises_only_ret
  | |- raises_only _ (raise _) => apply raises_only_raise; exact I
  | |- raises_only _ (of_option _ _) => apply raises_only_of_option; exact I
  | |- raises_only _ (store_op _) => apply raises_only_store_op; exact I
  | |- raises_only _ (modify _) => apply raises_only_modify
  | |- raises_only _ (record_call _) => apply raises_only_modify
  | |- raises_only _ (read _) => apply raises_only_read
  | |- raises_only _ (if ?b then _ else _) => destruct b
  | |- raises_only _ (match ?x with _ => _ end) => destruct x
  end.

Ltac raises_auto := repeat raises_step.

Lemma escalate_raises (E : env) (ticket_id reason : string) :
  raises_only store_or_row_fault (_escalate_ticket E ticket_id reason).
Proof. unfold _escalate_ticket, update_ticket. raises_auto. Qed.

Lemma analyze_raises (E : env) (message : string) :
  raises_only store_or_row_fault (Sentiment.analyze_sentiment E message).
Proof. unfold Sentiment.analyze_sentiment. raises_auto. Qed.

Lemma agent_send_raises (E : env) (ticket_id content channel : string) :
  raises_only store_or_row_fault
    (AgentRunner._send_response E ticket_id content channel).
Proof.
  unfold AgentRunner._send_response, fetch_ticket_row, insert_message,
    update_ticket.
  raises_auto.
Qed.

Lemma agent_body_raises (E : env) (ticket_id customer_id message channel : string) :
  raises_only store_or_row_fault
    (AgentRunner.process_body E ticket_id customer_id message channel).
Proof.
  unfold AgentRunner.process_body, AgentRunner.after_sentiment.
  apply raises_only_bind; [apply analyze_raises|intros sentiment].
  destruct (Escalation.should_escalate _).
  - apply raises_only_bind; [apply escalate_raises|intros ?].
    apply raises_only_ret.
  - apply raises_only_bind.
    { unfold AgentRunner._build_context, fetch_customer. raises_auto. }
    intros context. apply raises_only_bind.
    { unfold AgentRunner._generate_response. raises_auto. }
    intros response. apply raises_only_bind; [apply agent_send_raises|].
    intros ?. apply raises_only_ret.
Qed.

Lemma whatsapp_send_raises (E : env) (ticket_id : string) (content : pyval)
  (channel : string) :
  raises_only store_or_row_fault
    (WhatsAppAgentRunner._send_response E ticket_id content channel).
Proof.
  unfold WhatsAppAgentRunner._send_response, fetch_ticket_row,
    insert_message, update_ticket.
  raises_auto.
Qed.

Lemma whatsapp_body_raises (E : env) (ticket_id customer_id message channel : string) :
  raises_only store_or_row_fault
    (WhatsAppAgentRunner.process_body E ticket_id customer_id message channel).
Proof.
  unfold WhatsAppAgentRunner.process_body.
  destruct (QuickAnswer.get_quick_answer message) as [qa|].
  - apply raises_only_bind.
    { destruct (QuickAnswer.qa_escalate qa);
        [apply escalate_raises|apply raises_only_ret]. }
    intros ?. apply raises_only_bind; [apply whatsapp_send_raises|].
    intros ?. apply raises_only_ret.
  - unfold WhatsAppAgentRunner.call_without_await. cbn [truthy].
    apply raises_only_bind; [apply whatsapp_send_raises|].
    intros ?. apply raises_only_ret.
Qed.

Lemma try_block_raises (E : env) (ticket_id customer_id message channel : string) :
  raises_only store_or_row_fault
    (try_block E ticket_id customer_id message channel).
Proof.
  unfold try_block. destruct (String.eqb channel "whatsapp").
  - apply whatsapp_body_raises.
  - apply raises_only_bind; [apply agent_body_raises|].
    intros ?. apply raises_only_ret.
Qed.

(** The boundary of either runner: what it does with the outcome of the
    [try] block. *)
Lemma boundary_run {A : Type} (E : env) (ticket_id : string) (x : A)
  (m : M A) (w : world) :
  match m w with
  | (Ok a, w1) =>
      try_except m (fun _ => do _ <- _escalate_ticket E ticket_id "agent_error";
                             ret x) w = (Ok a, w1)
  | (Raise _, w1) =>
      try_except m (fun _ => do _ <- _escalate_ticket E ticket_id "agent_error";
                             ret x) w
      = (do _ <- _escalate_ticket E ticket_id "agent_error"; ret x) w1
  end.
Proof. unfold try_except. destruct (m w) as [[a|e] w1]; reflexivity. Qed.

Lemma handler_raise {A : Type} (E : env) (ticket_id : string) (x : A)
  (w w' : world) (e : exn) :
  (do _ <- _escalate_ticket E ticket_id "agent_error"; ret x) w = (Raise e, w') ->
  e = StoreFault /\ exists k, store_ops w' = S k /\ store_ok E k = false.
Proof.
  intros H.
  destruct (bind_cases (_escalate_ticket E ticket_id "agent_error")
              (fun _ => ret x) w)
    as [(a & w1 & _ & Hb)|(e1 & w1 & Hm & Hb)]; rewrite Hb in H.
  - discriminate.
  - injection H as <- <-. exact (escalate_raise _ _ _ _ _ _ Hm).
Qed.

Lemma handler_ok {A : Type} (E : env) (ticket_id : string) (x : A) (w : world) :
  store_ok E (store_ops w) = true ->
  store_ok E (S (store_ops w)) = true ->
  (do _ <- _escalate_ticket E ticket_id "agent_error"; ret x) w
  = (Ok x, with_ticket ticket_id
             (set_escalated "Escalation reason: agent_error")
             (tick (tick w))).
Proof.
  intros H0 H1.
  rewrite (bind_ok _ _ _ _ tt (escalate_ok E ticket_id _ w H0 H1)).
  reflexivity.
Qed.

(** [process] in terms of the [try] block of the runner it picks. *)
Lemma process_unfold (E : env) (ticket_id customer_id message channel : string)
  (w : world) :
  process E ticket_id customer_id message channel w
  = match try_block E ticket_id customer_id message channel w with
    | (Ok v, w1) => (Ok v, w1)
    | (Raise _, w1) =>
        (do _ <- _escalate_ticket E ticket_id "agent_error";
         ret (PStr (boundary_text channel))) w1
    end.
Proof.
  unfold process, try_block, boundary_text.
  destruct (String.eqb channel "whatsapp").
  - unfold WhatsAppAgentRunner.process_message, try_except.
    destruct (WhatsAppAgentRunner.process_body _ _ _ _ _ w) as [[v|e] w1];
      reflexivity.
  - unfold AgentRunner.process_message, try_except, bind.
    destruct (AgentRunner.process_body _ _ _ _ _ w) as [[v|e] w1];
      [reflexivity|].
    destruct (_escalate_ticket E ticket_id "agent_error" w1) as [[[]|e1] w2];
      reflexivity.
Qed.

(** C3, as stated, fails twice over.  When the store refuses every
    operation the boundary handler's own escalation write raises, and
    the exception leaves [process].  And a fault of the generator never
    reaches the boundary: the reply is the apology of the generation
    step, not the error text, and the ticket ends resolved. *)
Lemma store_down_fault_escapes :
  fst (process store_down "T-1" "C-1" "I want a refund" "email" (desk "email"))
  = Raise StoreFault
  /\ fst (process mute "T-1" "C-1" "How do I invite team members?" "web_form"
            (desk "web_form"))
     = Ok (PStr AgentRunner.generation_apology)
  /\ AgentRunner.generation_apology <> AgentRunner.error_text
  /\ t_status <$> (tickets (snd (process mute "T-1" "C-1"
                                   "How do I invite team members?" "web_form"
                                   (desk "web_form"))) !! "T-1")
     = Some "resolved".
Proof.
  split; [vm_compute; reflexivity|].
  split; [vm_compute; reflexivity|].
  split; [vm_compute; discriminate|].
  vm_compute. reflexivity.
Qed.

(** C3, amended.  Whatever the capabilities do: an exception leaves
    [process] only when the boundary handler's own escalation write is
    refused by the store; the [try] block raises only faults of the
    store or of a missing row (the faults of the scorer, the generator
    and the delivery bridge are absorbed where they arise), and when it
    does and the store accepts the handler's write, [process] returns
    the error text of the runner with the ticket escalated for
    "agent_error"; when it does not, its result is the result of
    [process]. *)
Theorem faults_stop_at_the_boundary (E : env)
  (ticket_id customer_id message channel : string) (w : world) :
  (forall e w',
      process E ticket_id customer_id message channel w = (Raise e, w') ->
      e = StoreFault
      /\ exists k, store_ops w' = S k /\ store_ok E k = false)
  /\ (forall e w1,
         try_block E ticket_id customer_id message channel w = (Raise e, w1) ->
         store_or_row_fault e
         /\ (store_ok E (store_ops w1) = true ->
             store_ok E (S (store_ops w1)) = true ->
             process E ticket_id customer_id message channel w
             = (Ok (PStr (boundary_text channel)),
                with_ticket ticket_id
                  (set_escalated "Escalation reason: agent_error")
                  (tick (tick w1)))))
  /\ (forall v w1,
         try_block E ticket_id customer_id message channel w = (Ok v, w1) ->
         process E ticket_id customer_id message channel w = (Ok v, w1)).
Proof.
  rewrite process_unfold. split; [|split].
  - intros e w' H.
    destruct (try_block E ticket_id customer_id message channel w)
      as [[v|e1] w1]; [discriminate|].
    exact (handler_raise _ _ _ _ _ _ H).
  - intros e w1 H. split.
    + exact (try_block_raises _ _ _ _ _ _ _ _ H).
    + intros H0 H1. rewrite H. apply handler_ok; assumption.
  - intros v w1 H. rewrite H. reflexivity.
Qed.

(** A ticket that is not in the store: the [try] block raises, the
    boundary answers. *)
Lemma faults_stop_at_the_boundary_witness :
  fst (try_block calm "T-9" "C-1" "How do I invite team members?" "web_form"
         (desk "web_form"))
  = Raise (ValueError "Ticket T-9 not found")
  /\ fst (process calm "T-9" "C-1" "How do I invite team members?" "web_form"
            (desk "web_form"))
     = Ok (PStr AgentRunner.error_text).
Proof.
  destruct (faults_stop_at_the_boundary calm "T-9" "C-1"
              "How do I invite team members?" "web_form" (desk "web_form"))
    as (_ & Hraise & _).
  destruct (try_block calm "T-9" "C-1" "How do I invite team members?"
              "web_form" (desk "web_form")) as [r w1] eqn:H.
  assert (Hr : r = Raise (ValueError "Ticket T-9 not found")).
  { apply (f_equal fst) in H. vm_compute in H. symmetry. exact H. }
  subst r. split; [reflexivity|].
  destruct (Hraise _ _ eq_refl) as [_ Hrun].
  rewrite Hrun; reflexivity.
Defined.

End BoundaryFacts.

Module GreetingFacts.

Import MonadFacts SentimentFacts RunnerFacts Scenario.

Lemma keeps_store_op (E : env) : keeps sentiment_calls (store_op E).
Proof.
  intros w. unfold store_op.
  destruct (store_ok E (store_ops w)); reflexivity.
Qed.

Lemma keeps_read {A : Type} (f : world -> A) : keeps sentiment_calls (read f).
Proof. intros w. reflexivity. Qed.

Lemma keeps_with_ticket (ticket_id : string) (f : ticket -> ticket) :
  keeps sentiment_calls (modify (with_ticket ticket_id f)).
Proof. intros w. reflexivity. Qed.

Lemma keeps_with_message (row : message_row) :
  keeps sentiment_calls (modify (with_message row)).
Proof. intros w. reflexivity. Qed.

Lemma keeps_record_other (ev : event) :
  is_sentiment_call ev = false -> keeps sentiment_calls (record_call ev).
Proof.
  intros Hev w. unfold record_call, modify, sentiment_calls. simpl.
  rewrite filter_cons_False; [reflexivity|]. rewrite Hev. discriminate.
Qed.

(** One step of a proof that a computation makes no sentiment call. *)
Ltac keeps_step :=
  match goal with
  | |- keeps _ (bind _ _) => apply keeps_bind; [|intros ?]
  | |- keeps _ (try_except _ _) => apply keeps_try; [|intros ?]
  | |- keeps _ (ret _) => apply keeps_ret
  | |- keeps _ (raise _) => apply keeps_raise
  | |- keeps _ (of_option _ _) => apply keeps_of_option
  | |- keeps _ (store_op _) => apply keeps_store_op
  | |- keeps _ (read _) => apply keeps_read
  | |- keeps _ (modify (with_ticket _ _)) => apply keeps_with_ticket
  | |- keeps _ (modify (with_message _)) => apply keeps_with_message
  | |- keeps _ (record_call _) => apply keeps_record_other; reflexivity
  | |- keeps _ (if ?b then _ else _) => destruct b
  | |- keeps _ (match ?x with _ => _ end) => destruct x
  end.

Ltac keeps_auto := repeat keeps_step.

Lemma escalate_keeps (E : env) (ticket_id reason : string) :
  keeps sentiment_calls (_escalate_ticket E ticket_id reason).
Proof. unfold _escalate_ticket, update_ticket. keeps_auto. Qed.

Lemma whatsapp_send_keeps (E : env) (ticket_id : string) (content : pyval)
  (channel : string) :
  keeps sentiment_calls
    (WhatsAppAgentRunner._send_response E ticket_id content channel).
Proof.
  unfold WhatsAppAgentRunner._send_response, fetch_ticket_row,
    insert_message, update_ticket, whatsapp_deliver.
  keeps_auto.
Qed.

Lemma agent_after_keeps (E : env) (r : Sentiment.SentimentResult)
  (ticket_id customer_id message channel : string) :
  keeps sentiment_calls
    (AgentRunner.after_sentiment E r ticket_id customer_id message channel).
Proof.
  unfold AgentRunner.after_sentiment.
  destruct (Escalation.should_escalate _).
  - apply keeps_bind; [apply escalate_keeps|intros ?; apply keeps_ret].
  - apply keeps_bind.
    { unfold AgentRunner._build_context, fetch_customer. keeps_auto. }
    intros context. apply keeps_bind.
    { unfold AgentRunner._generate_response. keeps_auto. }
    intros response. apply keeps_bind; [|intros ?; apply keeps_ret].
    unfold AgentRunner._send_response, fetch_ticket_row, insert_message,
      update_ticket, whatsapp_deliver, AgentRunner.email_deliver.
    keeps_auto.
Qed.

(** Without a quick answer the WhatsApp runner always takes its
    greeting step: [handle_greeting] is called without [await], and the
    coroutine object it yields is true whatever the message.  The steps
    after it (thanks, sentiment, escalation policy, generation) are
    never reached. *)
Lemma whatsapp_greeting_step_always (E : env)
  (ticket_id customer_id message channel : string) :
  QuickAnswer.get_quick_answer message = None ->
  WhatsAppAgentRunner.process_body E ticket_id customer_id message channel
  = (do _ <- WhatsAppAgentRunner._send_response E ticket_id
               (PCoroutine (QuickAnswer.handle_greeting message)) channel;
     ret (PCoroutine (QuickAnswer.handle_greeting message))).
Proof.
  intros Hqa. unfold WhatsAppAgentRunner.process_body. rewrite Hqa.
  reflexivity.
Qed.

(** So the WhatsApp runner never calls the sentiment model. *)
Lemma whatsapp_never_scores (E : env)
  (ticket_id customer_id message channel : string) :
  keeps sentiment_calls
    (WhatsAppAgentRunner.process_message E ticket_id customer_id message
       channel).
Proof.
  unfold WhatsAppAgentRunner.process_message.
  apply keeps_try.
  - destruct (QuickAnswer.get_quick_answer message) as [qa|] eqn:Hqa.
    + unfold WhatsAppAgentRunner.process_body. rewrite Hqa.
      apply keeps_bind.
      { destruct (QuickAnswer.qa_escalate qa);
          [apply escalate_keeps|apply keeps_ret]. }
      intros ?. apply keeps_bind; [apply whatsapp_send_keeps|].
      intros ?. apply keeps_ret.
    + rewrite (whatsapp_greeting_step_always _ _ _ _ _ Hqa).
      apply keeps_bind; [apply whatsapp_send_keeps|intros ?; apply keeps_ret].
  - intros e. apply keeps_bind; [apply escalate_keeps|].
    intros ?. apply keeps_ret.
Qed.

(** C5, as stated, fails on the e-mail channel: for "hi" the scorer is
    called, and with a working generator the reply is the generated
    text, not the greeting. *)
Lemma email_hi_is_scored :
  sentiment_calls (desk "email") = 0%nat
  /\ sentiment_calls (snd (process calm "T-1" "C-1" "hi" "email" (desk "email")))
     = 1%nat
  /\ fst (process calm "T-1" "C-1" "hi" "email" (desk "email"))
     = Ok (PStr "Open Settings, then Team, and invite them there.")
  /\ "Open Settings, then Team, and invite them there."
     <> QuickAnswer.greeting_text.
Proof.
  split; [reflexivity|]. split; [vm_compute; reflexivity|].
  split; [vm_compute; reflexivity|]. vm_compute. discriminate.
Qed.

(** C5, amended.  "hi" classifies as a greeting, has no quick answer,
    and the greeting handler yields the fixed greeting text for it.  On
    the WhatsApp channel [process] handles it without any call to the
    sentiment model, whatever the capabilities do.  On the other
    channels the runner has no greeting step: it calls the sentiment
    model, once, before anything else. *)
Theorem greeting_skips_sentiment_on_whatsapp (E : env)
  (ticket_id customer_id : string) (w : world) :
  QuickAnswer.classify_intent "hi" = Some "greeting"
  /\ QuickAnswer.get_quick_answer "hi" = None
  /\ QuickAnswer.handle_greeting "hi" = Some QuickAnswer.greeting_text
  /\ sentiment_calls
       (snd (process E ticket_id customer_id "hi" "whatsapp" w))
     = sentiment_calls w
  /\ (forall channel,
         channel <> "whatsapp" ->
         sentiment_calls
           (snd (process E ticket_id customer_id "hi" channel w))
         = S (sentiment_calls w)).
Proof.
  split; [vm_compute; reflexivity|].
  split; [vm_compute; reflexivity|].
  split; [vm_compute; reflexivity|].
  split.
  - change (process E ticket_id customer_id "hi" "whatsapp")
      with (WhatsAppAgentRunner.process_message E ticket_id customer_id
              "hi" "whatsapp").
    apply whatsapp_never_scores.
  - intros channel Hch. unfold process.
    destruct (String.eqb channel "whatsapp") eqn:Hw;
      [apply String.eqb_eq in Hw; contradiction|].
    destruct (analyze_sentiment_run E "hi" w) as [r Hr].
    assert (Hk : keeps sentiment_calls
              (do response <-
                 try_except
                   (AgentRunner.after_sentiment E r ticket_id customer_id
                      "hi" channel)
                   (fun _ => do _ <- _escalate_ticket E ticket_id "agent_error";
                             ret AgentRunner.error_text);
               ret (PStr response))).
    { apply keeps_bind; [|intros ?; apply keeps_ret].
      apply keeps_try; [apply agent_after_keeps|].
      intros e. apply keeps_bind; [apply escalate_keeps|].
      intros ?. apply keeps_ret. }
    specialize (Hk (with_call (SentimentCall (Sentiment.prompt_of "hi")) w)).
    unfold AgentRunner.process_message, AgentRunner.process_body.
    unfold bind at 1, try_except at 1, bind at 1.
    rewrite Hr.
    unfold bind at 1, try_except at 1 in Hk.
    rewrite Hk. reflexivity.
Qed.

Lemma greeting_skips_sentiment_on_whatsapp_witness :
  "email" <> "whatsapp"
  /\ sentiment_calls (snd (process calm "T-1" "C-1" "hi" "email" (desk "email")))
     = S (sentiment_calls (desk "email")).
Proof.
  assert (H : "email" <> "whatsapp") by discriminate.
  split; [exact H|].
  destruct (greeting_skips_sentiment_on_whatsapp calm "T-1" "C-1"
              (desk "email")) as (_ & _ & _ & _ & Hother).
  exact (Hother "email" H).
Defined.

End GreetingFacts.

Module OverwriteFacts.

Import MonadFacts RunnerFacts Scenario.

(** The WhatsApp hand-off, wrapped in its [try]: it returns, and leaves
    the tickets alone. *)
Lemma guarded_delivery (E : env) (ticket_id : string) (content : pyval)
  (phone : string) (w : world) :
  exists w',
    try_except (whatsapp_deliver E ticket_id content phone)
      (fun _ => ret tt) w = (Ok tt, w')
    /\ tickets w' = tickets w.
Proof.
  unfold try_except, whatsapp_deliver, bind, of_option, record_call, modify.
  destruct (whatsapp_initialize E) as [[|]|]; simpl.
  - destruct (whatsapp_send E content phone) as [b|]; simpl;
      eexists; split; reflexivity.
  - eexists; split; reflexivity.
  - eexists; split; reflexivity.
Qed.

(** [_send_response] of the WhatsApp runner on a working store: the
    reply is stored and the ticket is set to 'resolved'. *)
Lemma whatsapp_send_resolves (E : env) (ticket_id : string) (content : pyval)
  (channel : string) (w : world) (t : ticket) (c : customer) :
  (forall k, store_ok E k = true) ->
  tickets w !! ticket_id = Some t ->
  customers w !! t_customer_id t = Some c ->
  exists w',
    WhatsAppAgentRunner._send_response E ticket_id content channel w
    = (Ok tt, w')
    /\ tickets w' = alter set_resolved ticket_id (tickets w).
Proof.
  intros Hok Ht Hc.
  unfold WhatsAppAgentRunner._send_response.
  rewrite (bind_ok _ _ w (tick w) tt) by (apply store_op_ok, Hok).
  assert (Hrow : fetch_ticket_row E ticket_id (tick w)
                 = (Ok (Some (t, c)), tick (tick w))).
  { unfold fetch_ticket_row.
    rewrite (bind_ok _ _ _ (tick (tick w)) tt) by (apply store_op_ok, Hok).
    unfold read. simpl. rewrite Ht, Hc. reflexivity. }
  rewrite (bind_ok _ _ _ _ _ Hrow).
  unfold insert_message.
  rewrite (bind_ok _ _ _ (with_message
                            (mkMessage (t_conversation_id t) channel content)
                            (tick (tick (tick w)))) tt).
  2:{ rewrite (bind_ok _ _ _ (tick (tick (tick w))) tt)
        by (apply store_op_ok, Hok).
      reflexivity. }
  unfold update_ticket.
  rewrite (bind_ok _ _ _
             (with_ticket ticket_id set_resolved
                (tick (with_message
                         (mkMessage (t_conversation_id t) channel content)
                         (tick (tick (tick w)))))) tt).
  2:{ rewrite (bind_ok _ _ _ (tick (with_message
                         (mkMessage (t_conversation_id t) channel content)
                         (tick (tick (tick w))))) tt)
        by (apply store_op_ok, Hok).
      reflexivity. }
  destruct (String.eqb channel "whatsapp" && truthy_opt (c_phone c));
    [destruct (whatsapp_mcp_enabled E)|].
  - destruct (guarded_delivery E ticket_id content
                (default EmptyString (c_phone c))
                (with_ticket ticket_id set_resolved
                   (tick (with_message
                            (mkMessage (t_conversation_id t) channel content)
                            (tick (tick (tick w)))))))
      as (w' & Hrun & Htk).
    exists w'. split; [exact Hrun|]. rewrite Htk. reflexivity.
  - eexists. split; reflexivity.
  - eexists. split; reflexivity.
Qed.

(** C2: what the code does.  For every message whose quick answer has
    the escalate flag set, on a working store that holds the ticket and
    its customer, the WhatsApp runner returns the canned answer and
    leaves the ticket with the reason quick_answer_<intent> attached
    but with status 'resolved': the status write of [_send_response]
    follows the escalation in the same invocation and replaces it. *)
Theorem quick_answer_escalation_is_overwritten (E : env) (w : world)
  (ticket_id customer_id message channel : string)
  (qa : QuickAnswer.quick_answer) (t : ticket) (c : customer) :
  QuickAnswer.get_quick_answer message = Some qa ->
  QuickAnswer.qa_escalate qa = true ->
  (forall k, store_ok E k = true) ->
  tickets w !! ticket_id = Some t ->
  customers w !! t_customer_id t = Some c ->
  exists w',
    WhatsAppAgentRunner.process_message E ticket_id customer_id message
      channel w
    = (Ok (PStr (QuickAnswer.qa_response qa)), w')
    /\ tickets w' !! ticket_id
       = Some (mkTicket "resolved"
                 (Some ("Escalation reason: quick_answer_"
                        +:+ QuickAnswer.qa_intent qa))
                 (t_source_channel t) (t_customer_id t)
                 (t_conversation_id t)).
Proof.
  intros Hqa Hesc Hok Ht Hc.
  unfold WhatsAppAgentRunner.process_message, try_except,
    WhatsAppAgentRunner.process_body.
  rewrite Hqa, Hesc.
  rewrite (bind_ok _ _ _ _ tt
             (escalate_ok E ticket_id _ w (Hok _) (Hok _))).
  destruct (whatsapp_send_resolves E ticket_id
              (PStr (QuickAnswer.qa_response qa)) channel
              (with_ticket ticket_id
                 (set_escalated
                    ("Escalation reason: "
                     +:+ "quick_answer_" +:+ QuickAnswer.qa_intent qa))
                 (tick (tick w)))
              (set_escalated
                 ("Escalation reason: "
                  +:+ "quick_answer_" +:+ QuickAnswer.qa_intent qa) t) c)
    as (w' & Hrun & Htk).
  - exact Hok.
  - simpl. rewrite lookup_alter_eq, Ht. reflexivity.
  - exact Hc.
  - rewrite (bind_ok _ _ _ _ tt Hrun).
    exists w'. split; [reflexivity|].
    rewrite Htk. simpl. rewrite !lookup_alter_eq, Ht. reflexivity.
Qed.

Lemma quick_answer_escalation_is_overwritten_witness :
  QuickAnswer.qa_intent <$> QuickAnswer.get_quick_answer "I want a refund"
  = Some "refund"
  /\ exists w',
       WhatsAppAgentRunner.process_message calm "T-1" "C-1" "I want a refund"
         "whatsapp" (desk "whatsapp")
       = (Ok (PStr QuickAnswer.response_refund), w')
       /\ tickets w' !! "T-1"
          = Some (mkTicket "resolved"
                    (Some "Escalation reason: quick_answer_refund")
                    "whatsapp" "C-1" "K-1").
Proof.
  split; [vm_compute; reflexivity|].
  apply (quick_answer_escalation_is_overwritten calm (desk "whatsapp")
           "T-1" "C-1" "I want a refund" "whatsapp"
           (QuickAnswer.mkQuick "refund" QuickAnswer.response_refund
              "billing" true "quick_answer")
           (mkTicket "open" None "whatsapp" "C-1" "K-1")
           (mkCustomer (Some "ann@example.com") (Some "+100") (Some "Ann"))).
  - vm_compute. reflexivity.
  - reflexivity.
  - intros k. reflexivity.
  - vm_compute. reflexivity.
  - vm_compute. reflexivity.
Defined.

End OverwriteFacts.


Module PolicyFacts.

Import Escalation EscalationSpec EscalationFacts StrFacts.

(** The order of floats: a score at most a score below a bound is below
    that bound. *)
Lemma ltb_leb_trans (x y z : pyfloat) :
  Float.leb x y = true -> Float.ltb y z = true -> Float.ltb x z = true.
Proof.
  destruct x as [a| | |], y as [b| | |], z as [c| | |]; simpl;
    try discriminate; try reflexivity.
  unfold Float.Qltb. intros Hab Hbc.
  apply Qle_bool_iff in Hab. apply negb_true_iff in Hbc.
  apply negb_true_iff. destruct (Qle_bool c a) eqn:Hca; [|reflexivity].
  apply Qle_bool_iff in Hca.
  assert (Hcb : Qle_bool c b = true)
    by (apply Qle_bool_iff; eapply Qle_trans; eassumption).
  congruence.
Qed.

(** X1.  A lower score never undoes an escalation: when a message is
    escalated at some score it is escalated at every score that is not
    above it. *)
Theorem lower_score_keeps_escalation (message : string) (s s' : pyfloat) :
  Float.leb s' s = true ->
  should_escalate (decide_escalation message s) = true ->
  should_escalate (decide_escalation message s') = true.
Proof.
  intros Hle. unfold decide_escalation.
  destruct (hard_keyword_loop _ _) as [d|] eqn:Hh; [auto|].
  destruct (human_request_loop _ _) as [d|] eqn:Hm; [auto|].
  destruct (Float.ltb s Float.lit_0_2) eqn:H2.
  - intros _. rewrite (ltb_leb_trans _ _ _ Hle H2). reflexivity.
  - destruct (Float.ltb s Float.lit_0_3) eqn:H3; [|discriminate].
    intros _. pose proof (ltb_leb_trans _ _ _ Hle H3) as H3'.
    destruct (Float.ltb s' Float.lit_0_2); [reflexivity|].
    rewrite H3'. reflexivity.
Qed.

Lemma lower_score_keeps_escalation_witness :
  Float.leb (Finite (1 # 10)) (Finite (25 # 100)) = true
  /\ should_escalate
       (decide_escalation "Where is my order?" (Finite (1 # 10))) = true.
Proof.
  assert (H : Float.leb (Finite (1 # 10)) (Finite (25 # 100)) = true)
    by reflexivity.
  split; [exact H|].
  apply (lower_score_keeps_escalation "Where is my order?"
           (Finite (25 # 100)) (Finite (1 # 10)) H).
  vm_compute. reflexivity.
Defined.

(** X2.  The hard keywords are looked for as substrings, so they are found
    inside longer words: every message that contains "issue", in any
    letter case, is escalated with urgency "immediate" whatever the
    score, the reason naming "sue" or a keyword listed before it. *)
Theorem issue_is_always_escalated (message : string) (sc : pyfloat) :
  Str.contains "issue" (Str.lower message) = true ->
  should_escalate (decide_escalation message sc) = true
  /\ urgency (decide_escalation message sc) = "immediate"
  /\ In (reason (decide_escalation message sc))
       ["keyword_detected:lawyer"; "keyword_detected:legal";
        "keyword_detected:sue"].
Proof.
  intros Hc.
  assert (Hsue : occurs "sue" (Str.lower message)).
  { apply contains_iff in Hc as (pre & post & ->).
    exists (pre +:+ "is"), (EmptyString +:+ post).
    rewrite !app_assoc. reflexivity. }
  unfold decide_escalation.
  destruct (hard_keyword_loop HARD_ESCALATION_KEYWORDS (Str.lower message))
    as [d|] eqn:Hl.
  - apply hard_loop_some in Hl as (before & kw & after & Hk & Hb & _ & ->).
    split; [reflexivity|]. split; [reflexivity|].
    cbn [reason]. unfold HARD_ESCALATION_KEYWORDS in Hk.
    destruct before as [|b0 before]; [injection Hk as <- _; simpl; auto|].
    destruct before as [|b1 before];
      [injection Hk as _ <- _; simpl; auto|].
    destruct before as [|b2 before];
      [injection Hk as _ _ <- _; simpl; auto|].
    injection Hk as _ _ <- _. exfalso.
    apply (Hb "sue"); [simpl; auto|exact Hsue].
  - exfalso.
    pose proof (proj1 (hard_loop_none _ _) Hl "sue") as Hno.
    apply Hno; [simpl; auto|exact Hsue].
Qed.

Lemma issue_is_always_escalated_witness :
  Str.contains "issue" (Str.lower "I have an ISSUE with login") = true
  /\ urgency (decide_escalation "I have an ISSUE with login"
                (Finite (9 # 10))) = "immediate".
Proof.
  assert (H : Str.contains "issue"
                (Str.lower "I have an ISSUE with login") = true)
    by reflexivity.
  split; [exact H|].
  exact (proj1 (proj2 (issue_is_always_escalated
                         "I have an ISSUE with login" (Finite (9 # 10)) H))).
Defined.

(** X3.  The flag that [analyze_sentiment] computes and the runners do not
    read is subsumed by the policy they apply: whenever the analysis
    sets [should_escalate], [decide_escalation] on its score escalates,
    for every message, with urgency "immediate" or "high". *)
Theorem sentiment_flag_implies_escalation (E : env) (analysed message : string)
  (w w' : world) (r : Sentiment.SentimentResult) :
  Sentiment.analyze_sentiment E analysed w = (Ok r, w') ->
  Sentiment.should_escalate r = true ->
  should_escalate (decide_escalation message (Sentiment.score r)) = true
  /\ In (urgency (decide_escalation message (Sentiment.score r)))
       ["immediate"; "high"].
Proof.
  intros Hrun Hflag.
  assert (H3 : Float.ltb (Sentiment.score r) Float.lit_0_3 = true).
  { revert Hrun.
    unfold Sentiment.analyze_sentiment, try_except, Sentiment.analyze_body,
      bind, record_call, modify, of_option.
    destruct (sentiment_model E _) as [raw|]; simpl.
    - destruct (sentiment_json E _) as [[[sc lb] cf]|]; simpl.
      + intros [= <- _]. exact Hflag.
      + intros [= <- _]. discriminate.
    - intros [= <- _]. discriminate. }
  unfold decide_escalation.
  destruct (hard_keyword_loop _ _) as [d|] eqn:Hh.
  { apply hard_loop_some in Hh as (? & ? & ? & _ & _ & _ & ->).
    simpl. auto. }
  destruct (human_request_loop _ _) as [d|] eqn:Hm.
  { apply human_loop_some in Hm as [-> _]. simpl. auto. }
  destruct (Float.ltb (Sentiment.score r) Float.lit_0_2);
    [simpl; auto|].
  rewrite H3. simpl. auto.
Qed.

Lemma sentiment_flag_implies_escalation_witness :
  should_escalate
    (decide_escalation "Where is my order?" (Finite (1 # 10))) = true.
Proof.
  refine (proj1 (sentiment_flag_implies_escalation
            (mkEnv (fun _ => true) (fun _ => Some "{}")
               (fun _ => Some (Finite (1 # 10), "hostile", Finite 1))
               (fun _ => EmptyString) (fun _ => EmptyString) (fun _ => None)
               true None
               (fun _ _ => None) (fun _ _ => None) (fun _ _ => None))
            "Where is my order?" "Where is my order?"
            (Scenario.desk "email") _
            (Sentiment.mkSentiment (Finite (1 # 10)) "hostile" (Finite 1) true)
            eq_refl eq_refl)).
Defined.

End PolicyFacts.

Module CourtesyFacts.

Import QuickAnswer ClassifierSpec ClassifierFacts StrFacts TextSpec.

Lemma ignorecase_lower (r : regex) (m : string) :
  re_search_ignorecase r (Str.lower m) = re_search_ignorecase r m.
Proof. unfold re_search_ignorecase. rewrite lower_idem. reflexivity. Qed.

(** What [classify_intent] does, pattern by pattern. *)
Lemma classify_intent_cases (m : string) :
  classify_intent m =
  if re_search_ignorecase greeting_pattern m then Some "greeting"
  else if re_search_ignorecase thanks_pattern m then Some "thanks"
  else if re_search_ignorecase yes_pattern m then Some "yes"
  else if re_search_ignorecase no_pattern m then Some "no"
  else option_map fst (priority_loop priority_order (Str.lower m)).
Proof.
  unfold classify_intent, INTENT_PATTERNS.
  cbn [pattern_loop]. rewrite !ignorecase_lower.
  repeat (destruct (re_search_ignorecase _ m); [reflexivity|]).
  reflexivity.
Qed.

Lemma priority_loop_not_structural (s i : string) :
  option_map fst (priority_loop priority_order s) = Some i ->
  In i priority_order.
Proof.
  destruct (priority_loop priority_order s) as [[n kw]|] eqn:H;
    [|discriminate].
  intros Heq. injection Heq as <-.
  apply priority_loop_accepted in H as [H _]. exact H.
Qed.

Lemma priority_order_not_structural (i : string) :
  In i priority_order -> In i structural_intents -> False.
Proof.
  unfold priority_order, structural_intents. simpl.
  intros Hp Hs.
  repeat (destruct Hs as [<-|Hs];
          [repeat (destruct Hp as [Hp|Hp]; [discriminate Hp|]); exact Hp|]).
  exact Hs.
Qed.

(** X5.  The greeting pattern is anchored at the start only, so it shadows
    the keyword table: a message that begins, in any letter case, with
    one of hi, hello, hey, good morning, good afternoon, good evening,
    yo, sup (as "Your ..." and "Support ..." do) is classified as a
    greeting and gets no quick answer, whatever keywords follow. *)
Theorem greeting_prefix_shadows_keywords (m prefix : string) :
  In prefix (alternatives greeting_pattern) ->
  Str.startswith prefix (Str.lower m) = true ->
  classify_intent m = Some "greeting" /\ get_quick_answer m = None.
Proof.
  intros Hin Hp.
  assert (Hg : re_search_ignorecase greeting_pattern m = true).
  { unfold re_search_ignorecase, greeting_pattern, re_search.
    apply existsb_exists. exists prefix. split; assumption. }
  assert (Hc : classify_intent m = Some "greeting")
    by (rewrite classify_intent_cases, Hg; reflexivity).
  split; [exact Hc|].
  unfold get_quick_answer. rewrite Hc. reflexivity.
Qed.

Lemma greeting_prefix_shadows_keywords_witness :
  matches "refund" "Your refund policy?" = true
  /\ classify_intent "Your refund policy?" = Some "greeting"
  /\ get_quick_answer "Your refund policy?" = None.
Proof.
  split; [reflexivity|].
  apply (greeting_prefix_shadows_keywords "Your refund policy?" "yo").
  - simpl. auto 10.
  - reflexivity.
Defined.

End CourtesyFacts.

Module QuickAnswerFacts.

Import QuickAnswer ClassifierSpec ClassifierFacts StrFacts TextSpec
  CourtesyFacts.

(** Every intent of the priority order has a table entry, none is a
    structural intent or the empty name, and the entries that set
    [escalate] are those of [escalating_intents]. *)
Lemma priority_order_entries (i : string) :
  In i priority_order ->
  exists d, lookup i QUICK_ANSWERS = Some d
    /\ String.eqb i EmptyString = false
    /\ existsb (String.eqb i) structural_intents = false
    /\ (default false (escalate d) = true <-> In i escalating_intents).
Proof.
  unfold priority_order. simpl.
  intros Hi.
  repeat (destruct Hi as [<-|Hi];
    [eexists; split; [reflexivity|];
     split; [reflexivity|]; split; [reflexivity|];
     unfold escalating_intents; simpl; split;
       [first [discriminate | auto 6]
       |intros H; repeat (destruct H as [H|H]; [try discriminate H|]);
        first [reflexivity | contradiction] ]|]).
  contradiction.
Qed.

(** X6.  What [get_quick_answer] returns, read off the classifier: an
    answer is returned only for an intent of the priority order that
    the keyword scan found, no pattern having matched; its response and
    category are the table's, its source is "quick_answer", and its
    escalate flag is set exactly for refund, pricing and
    contact_support. *)
Theorem quick_answer_comes_from_keyword_scan (m : string) (qa : quick_answer) :
  get_quick_answer m = Some qa ->
  structural m = None
  /\ (exists kw, keyword_scan m = Some (qa_intent qa, kw))
  /\ In (qa_intent qa) priority_order
  /\ (exists d, lookup (qa_intent qa) QUICK_ANSWERS = Some d
        /\ qa_response qa = response d /\ qa_category qa = category d)
  /\ qa_source qa = "quick_answer"
  /\ (qa_escalate qa = true <-> In (qa_intent qa) escalating_intents).
Proof.
  unfold get_quick_answer. rewrite classify_intent_scan.
  destruct (structural m) as [i|] eqn:Hs.
  - (* a pattern matched: the intent is structural and has no entry *)
    assert (Hi : In i structural_intents).
    { revert Hs. unfold structural, INTENT_PATTERNS. cbn [pattern_loop].
      repeat (destruct (re_search_ignorecase _ _);
              [intros [= <-]; simpl; auto|]).
      discriminate. }
    destruct (String.eqb i EmptyString); [discriminate|].
    destruct (lookup i QUICK_ANSWERS); [|discriminate].
    assert (He : existsb (String.eqb i) ["greeting"; "thanks"; "yes"; "no"]
                 = true).
    { apply existsb_exists. exists i. split; [exact Hi|].
      apply String.eqb_refl. }
    rewrite He. discriminate.
  - destruct (keyword_scan m) as [[i kw]|] eqn:Hk; [|discriminate].
    cbn [option_map fst].
    assert (Hin : In i priority_order).
    { unfold keyword_scan in Hk. fold (structural m) in Hk.
      rewrite Hs in Hk. apply priority_loop_accepted in Hk as [H _].
      exact H. }
    destruct (priority_order_entries i Hin) as (d & Hd & He & Hst & Hesc).
    rewrite He, Hd.
    change (existsb (String.eqb i) ["greeting"; "thanks"; "yes"; "no"])
      with (existsb (String.eqb i) structural_intents).
    rewrite Hst. intros [= <-]. cbn.
    repeat split; eauto; apply Hesc.
Qed.

Lemma quick_answer_comes_from_keyword_scan_witness :
  get_quick_answer "How much is the Pro plan?"
  = Some (mkQuick "pricing" response_pricing "sales" true "quick_answer")
  /\ In "pricing" escalating_intents.
Proof.
  assert (H : get_quick_answer "How much is the Pro plan?"
    = Some (mkQuick "pricing" response_pricing "sales" true "quick_answer"))
    by (vm_compute; reflexivity).
  split; [exact H|].
  destruct (quick_answer_comes_from_keyword_scan _ _ H)
    as (_ & _ & _ & _ & _ & Hesc).
  apply Hesc. reflexivity.
Defined.

(** X7.  The table is complete for the classifier: whenever
    [classify_intent] returns an intent that is not one of the four
    structural ones, [get_quick_answer] returns an answer for that
    intent. *)
Theorem classified_messages_get_an_answer (m i : string) :
  classify_intent m = Some i ->
  ~ In i structural_intents ->
  exists qa, get_quick_answer m = Some qa /\ qa_intent qa = i.
Proof.
  intros Hc Hns.
  assert (Hin : In i priority_order).
  { revert Hc. rewrite classify_intent_cases.
    repeat (destruct (re_search_ignorecase _ m);
            [intros [= <-]; exfalso; apply Hns; simpl; auto|]).
    apply priority_loop_not_structural. }
  destruct (priority_order_entries i Hin) as (d & Hd & He & Hst & _).
  unfold get_quick_answer. rewrite Hc, He, Hd.
  change (existsb (String.eqb i) ["greeting"; "thanks"; "yes"; "no"])
    with (existsb (String.eqb i) structural_intents).
  rewrite Hst. eexists. split; reflexivity.
Qed.

Lemma classified_messages_get_an_answer_witness :
  exists qa, get_quick_answer "I forgot my password" = Some qa
             /\ qa_intent qa = "reset_password".
Proof.
  apply (classified_messages_get_an_answer "I forgot my password").
  - vm_compute. reflexivity.
  - unfold structural_intents. simpl. intros H.
    repeat (destruct H as [H|H]; [discriminate H|]). exact H.
Defined.

(** ** Texts without a letter or a digit *)

Lemma has_alnum_app (a b : string) :
  has_alnum (a +:+ b) = has_alnum a || has_alnum b.
Proof.
  induction a as [|c a IH]; [reflexivity|].
  rewrite app_cons. simpl. rewrite IH, orb_assoc. reflexivity.
Qed.

Lemma isalnum_lower (c : ascii) : Char.isalnum (Char.lower c) = Char.isalnum c.
Proof. destruct c as [[] [] [] [] [] [] [] []]; reflexivity. Qed.

Lemma has_alnum_lower (s : string) : has_alnum (Str.lower s) = has_alnum s.
Proof.
  induction s as [|c s IH]; [reflexivity|].
  simpl. rewrite isalnum_lower, IH. reflexivity.
Qed.

Lemma contains_has_alnum (p s : string) :
  has_alnum p = true -> Str.contains p s = true -> has_alnum s = true.
Proof.
  intros Hp Hc. apply contains_iff in Hc as (pre & post & ->).
  rewrite !has_alnum_app, Hp, orb_true_r. reflexivity.
Qed.

Lemma startswith_contains (p s : string) :
  Str.startswith p s = true -> Str.contains p s = true.
Proof.
  intros H. apply contains_iff. apply startswith_inv in H as [t ->].
  exists EmptyString, t. reflexivity.
Qed.

(** A pattern whose alternatives all hold a letter or digit matches
    only texts that hold one. *)
Lemma re_search_has_alnum (r : regex) (s : string) :
  forallb has_alnum (alternatives r) = true ->
  re_search r s = true -> has_alnum s = true.
Proof.
  intros Hall H. rewrite forallb_forall in Hall.
  destruct r as [alts|alts|alts]; simpl in *;
    apply existsb_exists in H as (a & Ha & Hm); specialize (Hall a Ha).
  - eapply contains_has_alnum; [exact Hall|].
    apply startswith_contains. exact Hm.
  - eapply contains_has_alnum; eassumption.
  - unfold whole_match in Hm. apply orb_true_iff in Hm as [Hm|Hm];
      apply String.eqb_eq in Hm as ->; [exact Hall|].
    rewrite has_alnum_app, Hall. reflexivity.
Qed.

Lemma keyword_accepted_has_alnum (kw s : string) :
  has_alnum kw = true -> keyword_accepted kw s = true -> has_alnum s = true.
Proof.
  intros Hk. unfold keyword_accepted.
  destruct (Str.contains (Str.lower kw) s) eqn:Hc; [|discriminate].
  intros _. eapply contains_has_alnum; [|exact Hc].
  rewrite has_alnum_lower. exact Hk.
Qed.

Lemma table_keywords_have_alnum :
  forallb (fun e => forallb has_alnum (keywords (snd e))) QUICK_ANSWERS = true.
Proof. vm_compute. reflexivity. Qed.

Lemma lookup_in (name : string) (table : list (string * intent_data))
  (d : intent_data) :
  lookup name table = Some d -> In (name, d) table.
Proof.
  induction table as [|[k v] rest IH]; [discriminate|].
  simpl. destruct (String.eqb k name) eqn:Hk.
  - apply String.eqb_eq in Hk as ->. intros [= ->]. auto.
  - auto.
Qed.

Lemma priority_loop_has_alnum (names : list string) (s i kw : string) :
  priority_loop names s = Some (i, kw) -> has_alnum s = true.
Proof.
  intros H. apply priority_loop_accepted in H as (_ & Hkw & Hacc).
  unfold intent_keywords in Hkw.
  destruct (lookup i QUICK_ANSWERS) as [d|] eqn:Hd; [|destruct Hkw].
  apply lookup_in in Hd.
  pose proof table_keywords_have_alnum as Hall.
  rewrite forallb_forall in Hall. specialize (Hall _ Hd). cbn [snd] in Hall.
  rewrite forallb_forall in Hall.
  eapply keyword_accepted_has_alnum; [apply Hall; exact Hkw|exact Hacc].
Qed.

(** X8.  A message without any letter or digit (the empty message, blanks,
    punctuation) is never classified: [classify_intent] and
    [get_quick_answer] return None and neither courtesy handler
    answers. *)
Theorem no_alnum_no_intent (m : string) :
  has_alnum m = false ->
  classify_intent m = None /\ get_quick_answer m = None
  /\ handle_greeting m = None /\ handle_thanks m = None.
Proof.
  intros Hm.
  assert (Hpat : forall r, In r (map snd INTENT_PATTERNS) ->
                           re_search_ignorecase r m = false).
  { intros r Hr. destruct (re_search_ignorecase r m) eqn:H; [|reflexivity].
    unfold re_search_ignorecase in H.
    apply re_search_has_alnum in H.
    - rewrite has_alnum_lower in H. congruence.
    - simpl in Hr.
      repeat (destruct Hr as [<-|Hr]; [vm_compute; reflexivity|]).
      destruct Hr. }
  assert (Hc : classify_intent m = None).
  { rewrite classify_intent_cases.
    rewrite !Hpat by (simpl; auto).
    destruct (priority_loop priority_order (Str.lower m)) as [[i kw]|] eqn:Hp;
      [|reflexivity].
    apply priority_loop_has_alnum in Hp. rewrite has_alnum_lower in Hp.
    congruence. }
  split; [exact Hc|].
  split; [unfold get_quick_answer; rewrite Hc; reflexivity|].
  unfold handle_greeting, handle_thanks.
  rewrite !Hpat by (simpl; auto). auto.
Qed.

Lemma no_alnum_no_intent_witness :
  classify_intent " ?!... " = None /\ get_quick_answer EmptyString = None.
Proof.
  split.
  - apply (no_alnum_no_intent " ?!... "). reflexivity.
  - apply (no_alnum_no_intent EmptyString). reflexivity.
Defined.

End QuickAnswerFacts.

Module ChannelTextFacts.

Import Formatters Tokens StrFacts SplitFacts.

Lemma take_all (n : nat) (s : string) :
  (String.length s <= n)%nat -> Str.take n s = s.
Proof.
  revert s. induction n as [|n IH]; intros [|c s] H; simpl in *;
    try reflexivity; [lia|].
  rewrite IH by lia. reflexivity.
Qed.

Lemma take_prefix (n : nat) (s : string) :
  exists rest, s = Str.take n s +:+ rest.
Proof.
  revert s. induction n as [|n IH]; intros s.
  - exists s. destruct s; reflexivity.
  - destruct s as [|c s]; [exists EmptyString; reflexivity|].
    destruct (IH s) as [rest H]. exists rest.
    simpl. rewrite app_cons, <- H. reflexivity.
Qed.

Lemma take_length (n : nat) (s : string) :
  (String.length (Str.take n s) <= n)%nat.
Proof.
  revert s. induction n as [|n IH]; intros [|c s]; simpl; try lia.
  specialize (IH s). lia.
Qed.

Lemma rsplit1_head_prefix (s h : string) :
  Str.rsplit1_head s = Some h -> exists rest, s = h +:+ rest.
Proof.
  revert h. induction s as [|c s IH]; intros h; [discriminate|].
  simpl. destruct (Str.rsplit1_head s) as [h'|].
  - intros [= <-]. destruct (IH h' eq_refl) as [rest ->].
    exists rest. reflexivity.
  - destruct (Ascii.eqb c " "); [|discriminate].
    intros [= <-]. exists (String c s). reflexivity.
Qed.

Lemma rsplit_space_first_prefix (s : string) :
  exists rest, s = Str.rsplit_space_first s +:+ rest.
Proof.
  unfold Str.rsplit_space_first.
  destruct (Str.rsplit1_head s) as [h|] eqn:H; simpl.
  - apply rsplit1_head_prefix. exact H.
  - exists EmptyString. rewrite app_empty_r. reflexivity.
Qed.

(** X9.  What [format_for_channel] makes of a text for WhatsApp: a text of
    at most 300 characters is returned as it is; a longer one is cut to
    an initial part of at most 300 characters followed by "...".  The
    result is therefore at most 303 characters long, not 300, and a
    text of 301 characters without a blank reaches 303. *)
Theorem whatsapp_format_is_a_marked_prefix (content ticket_id : string) :
  (Str.len content <= 300 ->
   format_for_channel content WHATSAPP ticket_id = content)
  /\ (300 < Str.len content ->
      exists kept rest,
        content = kept +:+ rest /\ Str.len kept <= 300
        /\ format_for_channel content WHATSAPP ticket_id = kept +:+ "...")
  /\ Str.len (format_for_channel content WHATSAPP ticket_id) <= 303
  /\ Str.len (format_for_channel (Scenario.copies 301 "a") WHATSAPP ticket_id)
     = 303.
Proof.
  unfold format_for_channel, Str.len.
  assert (Hlong : 300 < Z.of_nat (String.length content) ->
     exists kept rest,
        content = kept +:+ rest /\ Z.of_nat (String.length kept) <= 300
        /\ Str.rsplit_space_first (Str.take 300 content) +:+ "..."
           = kept +:+ "...").
  { intros _.
    destruct (take_prefix 300 content) as [r1 H1].
    destruct (rsplit_space_first_prefix (Str.take 300 content)) as [r2 H2].
    exists (Str.rsplit_space_first (Str.take 300 content)), (r2 +:+ r1).
    split; [|split; [|reflexivity]].
    - rewrite <- app_assoc, <- H2. exact H1.
    - pose proof (take_length 300 content) as Hl.
      rewrite H2, length_app in Hl. lia. }
  split; [|split; [|split]].
  - intros H. destruct (300 <? _) eqn:Hlt; [apply Z.ltb_lt in Hlt; lia|].
    apply take_all. lia.
  - intros H. apply Z.ltb_lt in H as H'. rewrite H'. apply Hlong. exact H.
  - destruct (300 <? _) eqn:Hlt.
    + apply Z.ltb_lt in Hlt.
      destruct (Hlong Hlt) as (kept & rest & _ & Hk & ->).
      rewrite length_app. simpl. lia.
    + pose proof (take_length 300 content). lia.
  - vm_compute. reflexivity.
Qed.

(** ** Word caps *)

Lemma split_truncated (text : string) (N : Z) :
  0 <= N -> N < Z.of_nat (length (Str.split text)) ->
  Str.split (truncate_to_words text N)
  = mark_last "..." (firstn (Z.to_nat N) (Str.split text)).
Proof.
  intros HN Hlt. unfold truncate_to_words.
  destruct (_ <=? N) eqn:Hle; [apply Z.leb_le in Hle; lia|].
  unfold slice_to. destruct (N <? 0) eqn:Hneg;
    [apply Z.ltb_lt in Hneg; lia|].
  rewrite join_mark_last. apply split_join.
  apply mark_last_tokens; [discriminate|reflexivity|].
  apply Forall_take, split_tokens.
Qed.

Lemma count_words_truncated (text : string) (N : Z) :
  0 <= N -> count_words (truncate_to_words text N) <= Z.max N 1.
Proof.
  intros HN. unfold count_words.
  destruct (Z.of_nat (length (Str.split text)) <=? N) eqn:Hle.
  - unfold truncate_to_words. rewrite Hle. apply Z.leb_le in Hle. lia.
  - apply Z.leb_gt in Hle. rewrite split_truncated by lia.
    rewrite length_mark_last, length_take. lia.
Qed.

(** X10.  Cutting to a word cap is stable: for a cap [N >= 0] the result of
    [truncate_to_words] has at most [max N 1] words, and cutting it
    again with the same cap changes nothing (no second ellipsis). *)
Theorem truncate_to_words_is_idempotent (text : string) (N : Z) :
  0 <= N ->
  count_words (truncate_to_words text N) <= Z.max N 1
  /\ truncate_to_words (truncate_to_words text N) N
     = truncate_to_words text N.
Proof.
  intros HN. split; [apply count_words_truncated; exact HN|].
  destruct (Z.of_nat (length (Str.split text)) <=? N) eqn:Hle.
  - unfold truncate_to_words. rewrite Hle, Hle. reflexivity.
  - apply Z.leb_gt in Hle.
    pose proof (split_truncated text N HN Hle) as Hs.
    destruct (Z.eq_dec N 0) as [->|Hpos].
    + (* the cap 0 leaves the ellipsis alone, which is one word *)
      unfold truncate_to_words at 2 3. rewrite (proj2 (Z.leb_gt _ _) Hle).
      reflexivity.
    + unfold truncate_to_words at 1. rewrite Hs.
      rewrite length_mark_last, length_take.
      destruct (_ <=? N) eqn:H; [reflexivity|].
      apply Z.leb_gt in H. lia.
Qed.

Lemma truncate_to_words_is_idempotent_witness :
  count_words (truncate_to_words "one two three four" 2) <= Z.max 2 1
  /\ truncate_to_words (truncate_to_words "one two three four" 2) 2
     = "one two...".
Proof.
  destruct (truncate_to_words_is_idempotent "one two three four" 2)
    as [Hc Hi]; [lia|].
  split; [exact Hc|]. rewrite Hi. vm_compute. reflexivity.
Defined.

(** X11.  The replies [_generate_response] hands back respect the word caps
    of the channel, whatever the generator does (it may fail, which
    gives the apology text): at most 300 words on web_form and 500 on
    email in the agent runner, at most 50 in the WhatsApp runner; and
    the call never raises. *)
Theorem generated_replies_respect_word_caps (E : env)
  (context message channel : string) (w : world) :
  (exists t w', AgentRunner._generate_response E context message
                  "web_form" w = (Ok t, w')
                /\ count_words t <= 300)
  /\ (exists t w', AgentRunner._generate_response E context message
                     "email" w = (Ok t, w')
                   /\ count_words t <= 500)
  /\ (exists t w', WhatsAppAgentRunner._generate_response E context message
                     channel w = (Ok t, w')
                   /\ count_words t <= 50).
Proof.
  unfold AgentRunner._generate_response,
    WhatsAppAgentRunner._generate_response, try_except, bind, record_call,
    modify, of_option.
  split; [|split].
  - destruct (generator E _) as [raw|]; cbn.
    + do 2 eexists. split; [reflexivity|].
      pose proof (count_words_truncated (Str.strip raw) 300). lia.
    + do 2 eexists. split; [reflexivity|]. vm_compute. discriminate.
  - destruct (generator E _) as [raw|]; cbn.
    + do 2 eexists. split; [reflexivity|].
      pose proof (count_words_truncated (Str.strip raw) 500). lia.
    + do 2 eexists. split; [reflexivity|]. vm_compute. discriminate.
  - destruct (generator E _) as [raw|]; cbn.
    + do 2 eexists. split; [reflexivity|].
      pose proof (count_words_truncated (Str.strip raw) 50). lia.
    + do 2 eexists. split; [reflexivity|]. vm_compute. discriminate.
Qed.

End ChannelTextFacts.

Module FrameFacts.

Import Frame MonadFacts SentimentFacts.

Section Preserves.

Variable R : world -> world -> Prop.
Hypothesis R_refl : forall w, R w w.
Hypothesis R_trans : forall a b c, R a b -> R b c -> R a c.

Lemma preserves_ret {A : Type} (a : A) : preserves R (ret a).
Proof. intros w. apply R_refl. Qed.

Lemma preserves_raise {A : Type} (e : exn) : preserves R (@raise A e).
Proof. intros w. apply R_refl. Qed.

Lemma preserves_of_option {A : Type} (e : exn) (x : option A) :
  preserves R (of_option e x).
Proof. destruct x; [apply preserves_ret|apply preserves_raise]. Qed.

Lemma preserves_read {A : Type} (f : world -> A) : preserves R (read f).
Proof. intros w. apply R_refl. Qed.

Lemma preserves_modify (f : world -> world) :
  (forall w, R w (f w)) -> preserves R (modify f).
Proof. intros H w. apply H. Qed.

Lemma preserves_store_op (E : env) :
  (forall w, R w (tick w)) -> preserves R (store_op E).
Proof.
  intros H w. unfold store_op.
  destruct (store_ok E (store_ops w)); apply H.
Qed.

Lemma preserves_bind {A B : Type} (m : M A) (k : A -> M B) :
  preserves R m -> (forall a, preserves R (k a)) -> preserves R (bind m k).
Proof.
  intros Hm Hk w. unfold bind.
  specialize (Hm w). destruct (m w) as [[a|e] w1]; simpl in *.
  - eapply R_trans; [exact Hm|apply Hk].
  - exact Hm.
Qed.

Lemma preserves_try {A : Type} (m : M A) (h : exn -> M A) :
  preserves R m -> (forall e, preserves R (h e)) ->
  preserves R (try_except m h).
Proof.
  intros Hm Hh w. unfold try_except.
  specialize (Hm w). destruct (m w) as [[a|e] w1]; simpl in *.
  - exact Hm.
  - eapply R_trans; [exact Hm|apply Hh].
Qed.

End Preserves.

(** ** The three relations are preorders that the steps respect *)

Lemma status_moves_trans (a b c : ticket) :
  status_moves a b -> status_moves b c -> status_moves a c.
Proof.
  unfold status_moves. intros Hab [Hbc|Hbc]; [|auto].
  rewrite Hbc. exact Hab.
Qed.

Lemma touches_same (ticket_id : string) (w w' : world) :
  customers w' = customers w -> tickets w' = tickets w ->
  messages w' = messages w ->
  touches_only ticket_id w w'.
Proof.
  intros Hc Ht Hm. unfold touches_only. rewrite Hc, Ht, Hm.
  split; [reflexivity|]. split; [reflexivity|].
  split; [|exists []; reflexivity].
  destruct (tickets w !! ticket_id); constructor.
  unfold same_identity, status_moves. auto.
Qed.

Lemma touches_refl (ticket_id : string) (w : world) :
  touches_only ticket_id w w.
Proof. apply touches_same; reflexivity. Qed.

Lemma touches_trans (ticket_id : string) (a b c : world) :
  touches_only ticket_id a b -> touches_only ticket_id b c ->
  touches_only ticket_id a c.
Proof.
  intros (Hc1 & Ho1 & Ht1 & n1 & Hm1) (Hc2 & Ho2 & Ht2 & n2 & Hm2).
  split; [congruence|].
  split; [intros id Hid; rewrite Ho2, Ho1 by exact Hid; reflexivity|].
  split; [|exists (n2 ++ n1); rewrite Hm2, Hm1, app_assoc; reflexivity].
  destruct Ht1 as [t t' [Hi1 Hs1]|]; inversion Ht2 as [t2 t'' [Hi2 Hs2]|];
    subst; constructor.
  split; [|eapply status_moves_trans; eassumption].
  unfold same_identity in *. intuition congruence.
Qed.

Lemma touches_tick (ticket_id : string) (w : world) :
  touches_only ticket_id w (tick w).
Proof. apply touches_same; reflexivity. Qed.

Lemma touches_with_call (ticket_id : string) (ev : event) (w : world) :
  touches_only ticket_id w (with_call ev w).
Proof. apply touches_same; reflexivity. Qed.

Lemma touches_with_message (ticket_id : string) (row : message_row)
  (w : world) :
  touches_only ticket_id w (with_message row w).
Proof.
  destruct (touches_refl ticket_id w) as (Hc & Ho & Ht & _).
  split; [exact Hc|]. split; [exact Ho|]. split; [exact Ht|].
  exists [row]. reflexivity.
Qed.

Lemma touches_with_ticket (ticket_id : string) (f : ticket -> ticket)
  (w : world) :
  (forall t, same_identity t (f t) /\ status_moves t (f t)) ->
  touches_only ticket_id w (with_ticket ticket_id f w).
Proof.
  intros Hf. unfold touches_only, with_ticket. cbn [customers tickets messages].
  split; [reflexivity|].
  split; [intros id Hid; apply lookup_alter_ne; congruence|].
  split; [|exists []; reflexivity].
  rewrite lookup_alter_eq.
  destruct (tickets w !! ticket_id); constructor. apply Hf.
Qed.

Lemma set_escalated_moves (notes : string) (t : ticket) :
  same_identity t (set_escalated notes t)
  /\ status_moves t (set_escalated notes t).
Proof. unfold same_identity, status_moves. simpl. auto. Qed.

Lemma set_resolved_moves (t : ticket) :
  same_identity t (set_resolved t) /\ status_moves t (set_resolved t).
Proof. unfold same_identity, status_moves. simpl. auto. Qed.

Lemma calls_only_refl (allowed : event -> bool) (w : world) :
  calls_only allowed w w.
Proof. exists []. split; reflexivity. Qed.

Lemma calls_only_same (allowed : event -> bool) (w w' : world) :
  calls w' = calls w -> calls_only allowed w w'.
Proof. intros H. exists []. rewrite H. split; reflexivity. Qed.

Lemma calls_only_trans (allowed : event -> bool) (a b c : world) :
  calls_only allowed a b -> calls_only allowed b c -> calls_only allowed a c.
Proof.
  intros (n1 & H1 & F1) (n2 & H2 & F2). exists (n2 ++ n1).
  split; [rewrite H2, H1, app_assoc; reflexivity|].
  rewrite forallb_app, F1, F2. reflexivity.
Qed.

Lemma calls_only_with_call (allowed : event -> bool) (ev : event) (w : world) :
  allowed ev = true -> calls_only allowed w (with_call ev w).
Proof. intros H. exists [ev]. simpl. rewrite H. split; reflexivity. Qed.

Lemma silent_refl (w : world) : silent w w.
Proof. split; reflexivity. Qed.

Lemma silent_trans (a b c : world) : silent a b -> silent b c -> silent a c.
Proof. unfold silent. intros [] []. split; congruence. Qed.

(** One step of a proof that a computation preserves a relation: the
    combinators by their lemmas, the primitive steps by the facts in
    the hint database, the named functions by unfolding. *)
Create HintDb frame.

#[local] Hint Resolve touches_refl touches_trans touches_tick
  touches_with_call touches_with_message touches_with_ticket
  set_escalated_moves set_resolved_moves
  calls_only_refl calls_only_trans calls_only_with_call
  silent_refl silent_trans : frame.

#[local] Hint Extern 1 (touches_only _ _ _) =>
  apply touches_same; reflexivity : frame.
#[local] Hint Extern 1 (calls_only _ _ _) =>
  apply calls_only_same; reflexivity : frame.
#[local] Hint Extern 2 (calls_only _ _ (with_call _ _)) =>
  apply calls_only_with_call; reflexivity : frame.
#[local] Hint Extern 1 (silent _ _) => split; reflexivity : frame.

Ltac frame_step :=
  match goal with
  | |- preserves _ (bind _ _) => apply preserves_bind; [eauto with frame| |intros ?]
  | |- preserves _ (try_except _ _) =>
      apply preserves_try; [eauto with frame| |intros ?]
  | |- preserves _ (ret _) => apply preserves_ret; eauto with frame
  | |- preserves _ (raise _) => apply preserves_raise; eauto with frame
  | |- preserves _ (of_option _ _) => apply preserves_of_option; eauto with frame
  | |- preserves _ (read _) => apply preserves_read; eauto with frame
  | |- preserves _ (store_op _) =>
      apply preserves_store_op; intros ?; eauto with frame
  | |- preserves _ (modify _) =>
      apply preserves_modify; intros ?; eauto with frame
  | |- preserves _ (record_call _) =>
      apply preserves_modify; intros ?; eauto with frame
  | |- preserves _ (if ?b then _ else _) => destruct b
  | |- preserves _ (match ?x with _ => _ end) => destruct x
  | |- preserves _ (let '(_, _) := ?x in _) => destruct x
  | |- preserves _ (update_ticket _ _ _) => unfold update_ticket
  | |- preserves _ (insert_message _ _) => unfold insert_message
  | |- preserves _ (fetch_ticket_row _ _) => unfold fetch_ticket_row
  | |- preserves _ (fetch_customer _ _) => unfold fetch_customer
  | |- preserves _ (_escalate_ticket _ _ _) => unfold _escalate_ticket
  | |- preserves _ (whatsapp_deliver _ _ _ _) => unfold whatsapp_deliver
  | |- preserves _ (Sentiment.analyze_sentiment _ _) =>
      unfold Sentiment.analyze_sentiment, Sentiment.analyze_body
  end.

Ltac frame_auto := repeat frame_step.

Lemma agent_touches (E : env) (ticket_id customer_id message channel : string) :
  preserves (touches_only ticket_id)
    (AgentRunner.process_message E ticket_id customer_id message channel).
Proof.
  unfold AgentRunner.process_message, AgentRunner.process_body,
    AgentRunner.after_sentiment, AgentRunner._build_context,
    AgentRunner._generate_response, AgentRunner._send_response,
    AgentRunner.email_deliver.
  frame_auto.
Qed.

Lemma whatsapp_touches (E : env)
  (ticket_id customer_id message channel : string) :
  preserves (touches_only ticket_id)
    (WhatsAppAgentRunner.process_message E ticket_id customer_id message
       channel).
Proof.
  unfold WhatsAppAgentRunner.process_message,
    WhatsAppAgentRunner.process_body, WhatsAppAgentRunner.full_path,
    WhatsAppAgentRunner.after_sentiment, WhatsAppAgentRunner._build_context,
    WhatsAppAgentRunner._generate_response,
    WhatsAppAgentRunner._send_response.
  frame_auto.
Qed.

(** X12.  One invocation of [process] touches one ticket: whatever the
    capabilities do, and whether it returns or raises, it leaves the
    customers and every other ticket as they were, neither creates nor
    deletes the ticket it was called for, keeps that ticket's channel,
    customer and conversation, moves its status nowhere but to
    'escalated' or 'resolved', and only adds rows to the messages. *)
Theorem process_touches_one_ticket (E : env)
  (ticket_id customer_id message channel : string) (w : world) :
  touches_only ticket_id w
    (snd (process E ticket_id customer_id message channel w)).
Proof.
  unfold process. destruct (String.eqb channel "whatsapp").
  - apply whatsapp_touches.
  - assert (H : preserves (touches_only ticket_id)
                  (do response <- AgentRunner.process_message E ticket_id
                                    customer_id message channel;
                   ret (PStr response))).
    { apply preserves_bind; [eauto with frame|apply agent_touches|].
      intros ?. apply preserves_ret. eauto with frame. }
    apply H.
Qed.

(** X13.  The WhatsApp runner consults neither the sentiment model nor the
    text generator: for every message and every behaviour of the
    capabilities, the only calls one invocation adds are hand-offs to
    the WhatsApp handler.  (Its sentiment, escalation-policy and
    generation steps lie behind the greeting test, which an un-awaited
    call always passes.) *)
Theorem whatsapp_runner_calls_no_model (E : env)
  (ticket_id customer_id message channel : string) (w : world) :
  calls_only is_whatsapp_send w
    (snd (WhatsAppAgentRunner.process_message E ticket_id customer_id
            message channel w)).
Proof.
  assert (H : preserves (calls_only is_whatsapp_send)
                (WhatsAppAgentRunner.process_message E ticket_id customer_id
                   message channel)).
  { unfold WhatsAppAgentRunner.process_message,
      WhatsAppAgentRunner.process_body,
      WhatsAppAgentRunner.call_without_await.
    cbn [truthy].
    unfold WhatsAppAgentRunner._send_response.
    frame_auto. }
  apply H.
Qed.

(** X14.  When the policy escalates, the agent runner tells the customer
    nothing: an invocation whose scored message [decide_escalation]
    escalates stores no outgoing message and makes no call but the one
    to the sentiment model, so no channel delivers anything; the
    hand-off notice exists only as the returned value.  This holds for
    every behaviour of the store. *)
Theorem escalation_notice_is_not_delivered (E : env)
  (ticket_id customer_id message channel : string) (w : world)
  (r : Sentiment.SentimentResult) :
  fst (Sentiment.analyze_sentiment E message w) = Ok r ->
  Escalation.should_escalate
    (Escalation.decide_escalation message (Sentiment.score r)) = true ->
  let w' := snd (AgentRunner.process_message E ticket_id customer_id
                   message channel w) in
  messages w' = messages w
  /\ calls w' = SentimentCall (Sentiment.prompt_of message) :: calls w.
Proof.
  intros Hr Hesc.
  destruct (analyze_sentiment_run E message w) as [r' Hrun].
  rewrite Hrun in Hr. injection Hr as ->.
  assert (Hafter : preserves silent
            (try_except
               (AgentRunner.after_sentiment E r ticket_id customer_id
                  message channel)
               (fun _ => do _ <- _escalate_ticket E ticket_id "agent_error";
                         ret AgentRunner.error_text))).
  { unfold AgentRunner.after_sentiment. rewrite Hesc.
    frame_auto. }
  assert (Heq : AgentRunner.process_message E ticket_id customer_id message
                  channel w
                = try_except
                    (AgentRunner.after_sentiment E r ticket_id customer_id
                       message channel)
                    (fun _ => do _ <- _escalate_ticket E ticket_id "agent_error";
                              ret AgentRunner.error_text)
                    (with_call (SentimentCall (Sentiment.prompt_of message)) w)).
  { unfold AgentRunner.process_message, AgentRunner.process_body,
      try_except, bind.
    rewrite Hrun. reflexivity. }
  intros w'. subst w'. rewrite Heq.
  destruct (Hafter (with_call (SentimentCall (Sentiment.prompt_of message)) w))
    as [Hm Hc].
  rewrite Hm, Hc. split; reflexivity.
Qed.

Lemma escalation_notice_is_not_delivered_witness :
  messages (snd (AgentRunner.process_message Scenario.calm "T-1" "C-1"
                   "I will call my lawyer" "email" (Scenario.desk "email")))
  = [].
Proof.
  refine (proj1 (escalation_notice_is_not_delivered Scenario.calm
            "T-1" "C-1" "I will call my lawyer" "email"
            (Scenario.desk "email")
            (Sentiment.mkSentiment (Finite (65 # 100)) "neutral"
               (Finite (9 # 10)) false) _ _)).
  - vm_compute. reflexivity.
  - vm_compute. reflexivity.
Defined.

End FrameFacts.

Module PhoneFacts.

Import WhatsAppMCPClient WhatsAppHandler TextSpec StrFacts.

Lemma digits_of_all_digits (phone : string) :
  all_digits (digits_of phone) = true.
Proof.
  induction phone as [|c r IH]; [reflexivity|].
  simpl. destruct (isdigit c) eqn:Hc; [simpl; rewrite Hc|]; exact IH.
Qed.

Lemma digits_of_fixed (s : string) :
  all_digits s = true -> digits_of s = s.
Proof.
  induction s as [|c r IH]; [reflexivity|].
  simpl. intros H. apply andb_true_iff in H as [Hc Hr].
  rewrite Hc, IH by exact Hr. reflexivity.
Qed.

Lemma digits_of_app (a b : string) :
  digits_of (a +:+ b) = digits_of a +:+ digits_of b.
Proof.
  induction a as [|c a IH]; [reflexivity|].
  rewrite app_cons. simpl. destruct (isdigit c); rewrite IH; reflexivity.
Qed.

Lemma all_digits_app (a b : string) :
  all_digits (a +:+ b) = all_digits a && all_digits b.
Proof.
  induction a as [|c a IH]; [reflexivity|].
  rewrite app_cons. simpl. rewrite IH, andb_assoc. reflexivity.
Qed.

Lemma normalize_rules (phone : string) :
  _normalize_phone_number phone = rule_3 (rule_0 (digits_of phone)).
Proof. reflexivity. Qed.

Lemma len_cons (c : ascii) (s : string) : Str.len (String c s) = Str.len s + 1.
Proof. unfold Str.len. simpl. lia. Qed.

Lemma len_92 (s : string) : Str.len ("92" +:+ s) = Str.len s + 2.
Proof. rewrite !app_cons, app_empty_l, !len_cons. lia. Qed.

Lemma startswith_1 (a c : ascii) (s : string) :
  Str.startswith (String a EmptyString) (String c s) = Ascii.eqb a c.
Proof. simpl. apply andb_true_r. Qed.

Lemma rule_0_hit (r : string) :
  Str.len r = 10 -> rule_0 ("0" +:+ r) = "92" +:+ r.
Proof.
  intros H. unfold rule_0. rewrite app_cons, app_empty_l, startswith_1, len_cons.
  replace (Str.len r + 1 =? 11) with true by (symmetry; apply Z.eqb_eq; lia).
  reflexivity.
Qed.

Lemma rule_0_miss (d : string) :
  Str.len d <> 11 \/ Str.startswith "0" d = false -> rule_0 d = d.
Proof.
  intros H. unfold rule_0.
  destruct (Str.startswith "0" d) eqn:Hs; [|reflexivity].
  destruct H as [H|H]; [|discriminate].
  apply Z.eqb_neq in H. rewrite H. reflexivity.
Qed.

Lemma rule_3_hit (d : string) :
  Str.len d = 10 -> Str.startswith "3" d = true -> rule_3 d = "92" +:+ d.
Proof.
  intros Hl Hs. unfold rule_3. rewrite Hs.
  apply Z.eqb_eq in Hl. rewrite Hl. reflexivity.
Qed.

Lemma rule_3_miss (d : string) :
  Str.len d <> 10 \/ Str.startswith "3" d = false -> rule_3 d = d.
Proof.
  intros H. unfold rule_3.
  destruct (Str.startswith "3" d) eqn:Hs;
    [|rewrite andb_false_r; reflexivity].
  destruct H as [H|H]; [|discriminate].
  apply Z.eqb_neq in H. rewrite H. reflexivity.
Qed.

(** What the rules make of a number: 92 and ten digits, in the two
    cases they rewrite; the number itself otherwise. *)
Lemma rules_cases (d : string) :
  (exists r, Str.len r = 10 /\ (d = "0" +:+ r \/ d = r)
             /\ rule_3 (rule_0 d) = "92" +:+ r)
  \/ (rule_0 d = d /\ rule_3 d = d).
Proof.
  destruct (Str.startswith "0" d && (Str.len d =? 11)) eqn:H0.
  - apply andb_true_iff in H0 as [Hs Hl]. apply Z.eqb_eq in Hl.
    destruct d as [|c r]; [discriminate|].
    rewrite startswith_1 in Hs. apply Ascii.eqb_eq in Hs as <-.
    rewrite len_cons in Hl.
    left. exists r. split; [lia|]. split; [left; reflexivity|].
    change (String "0" r) with ("0" +:+ r).
    rewrite rule_0_hit by lia. apply rule_3_miss. left. rewrite len_92. lia.
  - assert (Hr0 : rule_0 d = d) by (unfold rule_0; rewrite H0; reflexivity).
    destruct ((Str.len d =? 10) && Str.startswith "3" d) eqn:H3.
    + apply andb_true_iff in H3 as [Hl Hs]. apply Z.eqb_eq in Hl.
      left. exists d. split; [exact Hl|]. split; [right; reflexivity|].
      rewrite Hr0. apply rule_3_hit; assumption.
    + right. split; [exact Hr0|]. unfold rule_3. rewrite H3. reflexivity.
Qed.

Lemma rules_leave_92 (r : string) :
  Str.len r = 10 -> rule_3 (rule_0 ("92" +:+ r)) = "92" +:+ r.
Proof.
  intros H. rewrite rule_0_miss by (left; rewrite len_92; lia).
  apply rule_3_miss. left. rewrite len_92. lia.
Qed.

(** X15.  [_normalize_phone_number] returns digits only and is idempotent:
    a number it has normalised is returned unchanged when given
    again, whatever characters the original held. *)
Theorem normalize_phone_number_is_idempotent (phone : string) :
  all_digits (_normalize_phone_number phone) = true
  /\ _normalize_phone_number (_normalize_phone_number phone)
     = _normalize_phone_number phone.
Proof.
  rewrite (normalize_rules phone).
  pose proof (digits_of_all_digits phone) as Hd.
  destruct (rules_cases (digits_of phone)) as [(r & Hl & Hr & ->)|[H0 H3]].
  - assert (Hdr : all_digits r = true).
    { destruct Hr as [Hr|Hr]; rewrite Hr in Hd; [|exact Hd].
      rewrite all_digits_app in Hd. apply andb_true_iff in Hd as [_ Hd].
      exact Hd. }
    assert (Hd92 : all_digits ("92" +:+ r) = true)
      by (rewrite all_digits_app, Hdr; reflexivity).
    split; [exact Hd92|].
    rewrite normalize_rules, (digits_of_fixed _ Hd92).
    apply rules_leave_92. exact Hl.
  - rewrite H0, H3. split; [exact Hd|].
    rewrite normalize_rules, (digits_of_fixed _ Hd), H0, H3. reflexivity.
Qed.

(** X16.  A ten-digit number that begins with 3 is taken for a national
    mobile number: written bare, with a leading 0, or with the country
    code 92, and with any separators or a leading +, it is normalised
    to 92 followed by the ten digits. *)
Theorem national_spellings_normalize_alike (phone national : string) :
  all_digits national = true ->
  String.length national = 10%nat ->
  Str.startswith "3" national = true ->
  In (digits_of phone) [national; "0" +:+ national; "92" +:+ national] ->
  _normalize_phone_number phone = "92" +:+ national.
Proof.
  intros Hd Hlen Hs Hin. rewrite normalize_rules.
  assert (HL : Str.len national = 10) by (unfold Str.len; lia).
  simpl in Hin. destruct Hin as [<-|[<-|[<-|[]]]].
  - rewrite rule_0_miss by (left; lia). apply rule_3_hit; assumption.
  - rewrite rule_0_hit by exact HL. apply rule_3_miss. left.
    rewrite len_92. lia.
  - apply rules_leave_92. exact HL.
Qed.

Lemma national_spellings_normalize_alike_witness :
  _normalize_phone_number "0300-1234567" = "923001234567"
  /\ _normalize_phone_number "+92 300 1234567" = "923001234567"
  /\ _normalize_phone_number "+32 2 123 45 67" = "923221234567".
Proof.
  split; [|split].
  - apply (national_spellings_normalize_alike "0300-1234567" "3001234567");
      [reflexivity..|simpl; auto].
  - apply (national_spellings_normalize_alike "+92 300 1234567" "3001234567");
      [reflexivity..|simpl; auto].
  - apply (national_spellings_normalize_alike "+32 2 123 45 67" "3221234567");
      [reflexivity..|simpl; auto].
Defined.

(** ** Chat JIDs *)

Lemma replace_go_skips (old new : string) (skip : nat) (s : string) :
  (String.length s <= skip)%nat -> replace_go old new skip s = EmptyString.
Proof.
  revert skip. induction s as [|c r IH]; intros skip H; [reflexivity|].
  simpl in *. destruct skip as [|k]; [lia|]. apply IH. lia.
Qed.

Lemma digit_is_not_at (c : ascii) : isdigit c = true -> Ascii.eqb "@" c = false.
Proof. destruct c as [[] [] [] [] [] [] [] []]; first [reflexivity|discriminate]. Qed.

Lemma replace_domain_after_digits (d : string) :
  all_digits d = true ->
  replace "@s.whatsapp.net" EmptyString (d +:+ "@s.whatsapp.net") = d.
Proof.
  unfold replace. induction d as [|c r IH]; intros Hd.
  - vm_compute. reflexivity.
  - simpl in Hd. apply andb_true_iff in Hd as [Hc Hr].
    rewrite app_cons.
    change (replace_go "@s.whatsapp.net" EmptyString 0
              (String c (r +:+ "@s.whatsapp.net")))
      with (if Str.startswith "@s.whatsapp.net"
                 (String c (r +:+ "@s.whatsapp.net"))
            then EmptyString +:+
                 replace_go "@s.whatsapp.net" EmptyString
                   (String.length "@s.whatsapp.net" - 1)
                   (r +:+ "@s.whatsapp.net")
            else String c (replace_go "@s.whatsapp.net" EmptyString 0
                             (r +:+ "@s.whatsapp.net"))).
    assert (Hsw : Str.startswith "@s.whatsapp.net"
                    (String c (r +:+ "@s.whatsapp.net")) = false).
    { cbn [Str.startswith]. rewrite (digit_is_not_at c Hc). reflexivity. }
    rewrite Hsw, IH by exact Hr. reflexivity.
Qed.

(** X17.  The JID made from a phone number and the phone number read back
    off a chat JID fit together: reading back the JID of any number
    gives + followed by its digits, so a number written as + and
    digits makes the round trip unchanged, and the JID is the same
    after a round trip. *)
Theorem jid_round_trip (phone : string) :
  phone_of_jid (_phone_to_jid phone) = "+" +:+ digits_of phone
  /\ (all_digits phone = true ->
      phone_of_jid (_phone_to_jid ("+" +:+ phone)) = "+" +:+ phone)
  /\ _phone_to_jid (phone_of_jid (_phone_to_jid phone)) = _phone_to_jid phone.
Proof.
  assert (H1 : forall p, phone_of_jid (_phone_to_jid p) = "+" +:+ digits_of p).
  { intros p. unfold phone_of_jid, _phone_to_jid.
    rewrite replace_domain_after_digits by apply digits_of_all_digits.
    reflexivity. }
  assert (Hplus : forall d, all_digits d = true ->
                             digits_of ("+" +:+ d) = d).
  { intros d Hd. rewrite digits_of_app, (digits_of_fixed d Hd). reflexivity. }
  split; [apply H1|]. split.
  - intros Hd. rewrite H1, Hplus by exact Hd. reflexivity.
  - rewrite H1. unfold _phone_to_jid.
    rewrite Hplus by apply digits_of_all_digits. reflexivity.
Qed.

End PhoneFacts.

Module HandlerFacts.

Import WhatsAppMCPClient WhatsAppHandler StrFacts ChannelTextFacts Frame
  FrameFacts.

Lemma wbind_ok {A B : Type} (m : W A) (k : A -> W B) (p p1 : plant) (a : A) :
  m p = (Ok a, p1) -> wbind m k p = k a p1.
Proof. intros H. unfold wbind. rewrite H. reflexivity. Qed.

Lemma wbind_raise {A B : Type} (m : W A) (k : A -> W B) (p p1 : plant)
  (e : exn) :
  m p = (Raise e, p1) -> wbind m k p = (Raise e, p1).
Proof. intros H. unfold wbind. rewrite H. reflexivity. Qed.

Lemma wtry_ok {A : Type} (m : W A) (h : exn -> W A) (p p1 : plant) (a : A) :
  m p = (Ok a, p1) -> wtry m h p = (Ok a, p1).
Proof. intros H. unfold wtry. rewrite H. reflexivity. Qed.

Lemma wtry_raise {A : Type} (m : W A) (h : exn -> W A) (p p1 : plant)
  (e : exn) :
  m p = (Raise e, p1) -> wtry m h p = h e p1.
Proof. intros H. unfold wtry. rewrite H. reflexivity. Qed.

(** [send_message] returns: the request is recorded, and the answer is
    True exactly when the bridge answers 200 with a true "success". *)
Lemma send_message_run (D : site) (to_phone message : string) (p : plant) :
  exists b,
    send_message D to_phone message p
    = (Ok b, mkPlant (base p) (handler_rows p)
               ((_normalize_phone_number to_phone, message) :: posted p)
               (published p))
    /\ (b = true <->
        http_post D (_normalize_phone_number to_phone) message
        = Some (200, Some true)).
Proof.
  unfold send_message, wtry, wbind, record_post, wof_option.
  destruct (http_post D _ message) as [[status [[|]|]]|]; cbn.
  - destruct (status =? 200) eqn:Hs; cbn.
    + apply Z.eqb_eq in Hs as ->. exists true. split; [reflexivity|tauto].
    + exists false. split; [reflexivity|]. split; [discriminate|].
      intros [= ->]. discriminate.
  - destruct (status =? 200); cbn; exists false;
      (split; [reflexivity|]); split; discriminate.
  - destruct (status =? 200); cbn; exists false;
      (split; [reflexivity|]); split; discriminate.
  - exists false. split; [reflexivity|]. split; discriminate.
Qed.

Lemma keep_row (E : env) (ticket_id content : string) (p : plant) :
  row_added content p
    (snd ((run _ <- lift (store_op E);
           run ticket <- lift (Queries.get_ticket E ticket_id);
           match ticket with
           | Some conversation_id =>
               Queries.store_message E conversation_id "whatsapp"
                 "outgoing" "support" content
           | None => wret tt
           end) p)).
Proof.
  unfold row_added, wbind, lift, Queries.get_ticket, Queries.store_message,
    fetch_ticket_row, store_op, bind, read, ret, wret, with_base.
  cbn.
  destruct (store_ok E (store_ops (base p))); cbn; [|auto].
  destruct (store_ok E (S (store_ops (base p)))); cbn; [|auto].
  destruct (tickets (base p) !! ticket_id) as [t|]; cbn; [|auto].
  destruct (customers (base p) !! t_customer_id t) as [c|]; cbn; [|auto].
  unfold wbind, lift, store_op. cbn.
  match goal with
  | |- context [store_ok E ?n] => destruct (store_ok E n)
  end; cbn; eauto.
Qed.

(** One run of [send_response] on an initialised handler and a text. *)
Lemma send_response_text (D : site) (E : env)
  (H : handler) (ticket_id text to_phone : string) (p : plant) :
  _initialized H = true -> _mcp_client H = true ->
  exists b p',
    send_response D E H ticket_id (PStr text) to_phone p = (Ok b, p')
    /\ posted p'
       = (_normalize_phone_number to_phone, Str.take 300 text) :: posted p
    /\ Str.len (Str.take 300 text) <= 300
    /\ (exists rest, text = Str.take 300 text +:+ rest)
    /\ (b = true ->
        http_post D (_normalize_phone_number to_phone) (Str.take 300 text)
        = Some (200, Some true))
    /\ published p' = published p
    /\ (handler_rows p' = handler_rows p
        \/ exists conversation_id,
             handler_rows p'
             = mkStored conversation_id "whatsapp" "outgoing" "support"
                 (Str.take 300 text) :: handler_rows p).
Proof.
  intros Hi Hc.
  destruct (send_message_run D to_phone (Str.take 300 text) p)
    as (b & Hsend & Hb).
  set (p1 := mkPlant (base p) (handler_rows p)
               ((_normalize_phone_number to_phone, Str.take 300 text)
                  :: posted p) (published p)) in *.
  assert (Hlen : Str.len (Str.take 300 text) <= 300)
    by (pose proof (take_length 300 text); unfold Str.len; lia).
  unfold send_response. rewrite Hi, Hc. cbn [negb orb first_300].
  destruct b.
  - (* the bridge accepted: the row is stored, if the store allows *)
    pose proof (keep_row E ticket_id (Str.take 300 text) p1) as Hrow.
    match type of Hrow with
    | row_added _ _ (snd (?m p1)) =>
        destruct (m p1) as [[[]|e] p2] eqn:Htail
    end; destruct Hrow as (Hp & Hq & Hr); cbn [snd] in *.
    + exists true, p2. split.
      { apply wtry_ok. unfold wbind at 1. cbn [wret].
        rewrite (wbind_ok _ _ _ _ _ Hsend).
        cbn iota. rewrite (wbind_ok _ _ _ _ _ Htail). reflexivity. }
      rewrite Hp, Hq. repeat split; auto using take_prefix.
      * intros _. apply Hb. reflexivity.
    + exists false, p2. split.
      { erewrite wtry_raise; [reflexivity|].
        unfold wbind at 1. cbn [wret].
        rewrite (wbind_ok _ _ _ _ _ Hsend).
        cbn iota. rewrite (wbind_raise _ _ _ _ _ Htail). reflexivity. }
      rewrite Hp, Hq. repeat split; auto using take_prefix.
      * discriminate.
  - exists false, p1. split.
    { apply wtry_ok. unfold wbind at 1. cbn [wret].
      rewrite (wbind_ok _ _ _ _ _ Hsend). reflexivity. }
    repeat split; auto using take_prefix.
    discriminate.
Qed.

(** X18.  [send_response] of the handler, given a text: whatever the bridge
    and the store do, it returns a boolean; exactly one request goes to
    the bridge, for the normalised number and with the first 300
    characters of the text (a prefix of it, cut wherever the 300th
    character falls, with no ellipsis); True is returned only if the
    bridge accepted that request; and at most one row, holding the
    same 300 characters with role 'support', is stored. *)
Theorem handler_posts_the_first_300_characters (D : site) (E : env)
  (H : handler) (ticket_id text to_phone : string) (p : plant) :
  _initialized H = true -> _mcp_client H = true ->
  exists b p',
    send_response D E H ticket_id (PStr text) to_phone p = (Ok b, p')
    /\ posted p'
       = (_normalize_phone_number to_phone, Str.take 300 text) :: posted p
    /\ Str.len (Str.take 300 text) <= 300
    /\ (exists rest, text = Str.take 300 text +:+ rest)
    /\ (b = true ->
        http_post D (_normalize_phone_number to_phone) (Str.take 300 text)
        = Some (200, Some true))
    /\ published p' = published p
    /\ (handler_rows p' = handler_rows p
        \/ exists conversation_id,
             handler_rows p'
             = mkStored conversation_id "whatsapp" "outgoing" "support"
                 (Str.take 300 text) :: handler_rows p).
Proof. apply send_response_text. Qed.

Lemma handler_posts_the_first_300_characters_witness :
  exists b p',
    send_response (mkSite true (fun _ _ => Some (200, Some true)) (fun _ => "N"))
      Scenario.calm (mkHandler true true) "T-1"
      (PStr Scenario.reply_400) "0300-1234567"
      (mkPlant (Scenario.desk "whatsapp") [] [] [])
    = (Ok b, p')
    /\ posted p' = [("923001234567", Str.take 300 Scenario.reply_400)].
Proof.
  destruct (handler_posts_the_first_300_characters
              (mkSite true (fun _ _ => Some (200, Some true)) (fun _ => "N"))
              Scenario.calm (mkHandler true true) "T-1"
              Scenario.reply_400 "0300-1234567"
              (mkPlant (Scenario.desk "whatsapp") [] [] [])
              eq_refl eq_refl)
    as (b & p' & Hrun & Hposted & _).
  exists b, p'. split; [exact Hrun|]. exact Hposted.
Defined.

(** X19.  [send_response] of the handler never raises, and answers False
    without contacting the bridge or the store when the handler is not
    initialised or when it is handed a coroutine object in place of a
    text. *)
Theorem handler_refuses_without_posting (D : site) (E : env) (H : handler)
  (ticket_id : string) (response_text : pyval) (to_phone : string)
  (p : plant) :
  (exists b p',
      send_response D E H ticket_id response_text to_phone p = (Ok b, p'))
  /\ (_initialized H = false \/ _mcp_client H = false
      \/ (exists pending, response_text = PCoroutine pending) ->
      send_response D E H ticket_id response_text to_phone p = (Ok false, p)).
Proof.
  assert (Hoff : _initialized H = false \/ _mcp_client H = false ->
                 send_response D E H ticket_id response_text to_phone p
                 = (Ok false, p)).
  { intros Hno. unfold send_response.
    replace (negb (_initialized H) || negb (_mcp_client H)) with true;
      [reflexivity|].
    destruct Hno as [-> | ->]; [reflexivity|].
    rewrite orb_true_r. reflexivity. }
  assert (Hco : forall pending, response_text = PCoroutine pending ->
                 send_response D E H ticket_id response_text to_phone p
                 = (Ok false, p)).
  { intros pending ->. unfold send_response.
    destruct (negb (_initialized H) || negb (_mcp_client H));
      reflexivity. }
  split.
  - destruct (_initialized H) eqn:Hi; [|eauto].
    destruct (_mcp_client H) eqn:Hc; [|eauto].
    destruct response_text as [text|pending]; [|eauto].
    destruct (send_response_text D E H ticket_id text to_phone p Hi Hc)
      as (b & p' & Hrun & _). eauto.
  - intros [Hno|[Hno|[pending Hp]]]; eauto.
Qed.

(** ** Inbound WhatsApp messages *)

Lemma same_tickets_refl (w : world) : same_tickets w w.
Proof. reflexivity. Qed.

Lemma same_tickets_trans (a b c : world) :
  same_tickets a b -> same_tickets b c -> same_tickets a c.
Proof. unfold same_tickets. congruence. Qed.

#[local] Hint Resolve same_tickets_refl same_tickets_trans : frame.
#[local] Hint Extern 1 (same_tickets _ _) => reflexivity : frame.

Lemma customer_step_keeps_tickets (D : site) (E : env) (phone_number : string) :
  preserves same_tickets (_create_or_get_customer D E phone_number).
Proof.
  unfold _create_or_get_customer, Queries.get_customer_by_phone,
    Queries.create_customer, Queries.insert_customer, Queries.returned_id.
  frame_auto.
Qed.

(** [_create_ticket] passes [create_ticket] a keyword that it does not
    take, so the call raises before the body runs; the conversation
    may have been created by then, no ticket has. *)
Lemma create_ticket_call_raises (D : site) (E : env)
  (customer_id subject : string) (w : world) :
  exists e w',
    _create_ticket D E customer_id subject w = (Raise e, w')
    /\ same_tickets w w'.
Proof.
  unfold _create_ticket, Queries.create_conversation, Queries.returned_id,
    bind, store_op, read, same_tickets.
  destruct (store_ok E (store_ops w)); cbn; [|eauto].
  destruct (store_ok E (Datatypes.S (store_ops w))); cbn; eauto.
Qed.

(** X20.  The WhatsApp handler never opens a ticket: for every inbound
    message and every behaviour of the store, [process_inbound_message]
    returns None.  No ticket row is created, no message row is stored
    and nothing is published to Kafka, because [_create_ticket] calls
    [queries.create_ticket] with a keyword argument [conversation_id]
    that the function does not have. *)
Theorem whatsapp_handler_never_opens_a_ticket (D : site) (E : env)
  (phone_number message_text : string) (p : plant) :
  exists p',
    process_inbound_message D E phone_number message_text p = (Ok None, p')
    /\ tickets (base p') = tickets (base p)
    /\ handler_rows p' = handler_rows p
    /\ published p' = published p
    /\ posted p' = posted p.
Proof.
  unfold process_inbound_message, wtry.
  match goal with
  | |- context [match ?m p with _ => _ end] =>
      assert (Hbody : exists e w', m p = (Raise e, with_base w' p)
                                   /\ same_tickets (base p) w')
  end.
  { unfold wbind at 1. unfold lift at 1.
    pose proof (preserves_store_op same_tickets E
                  (fun w => eq_refl) (base p)) as H1.
    destruct (store_op E (base p)) as [[[]|e1] w1]; cbn [snd] in H1;
      [|eauto].
    unfold wbind at 1. unfold lift at 1. cbn [base with_base].
    pose proof (customer_step_keeps_tickets D E phone_number w1) as H2.
    destruct (_create_or_get_customer D E phone_number w1)
      as [[customer_id|e2] w2]; cbn [snd] in H2;
      [|exists e2, w2; split; [reflexivity|congruence]].
    unfold wbind at 1. unfold lift at 1. cbn [base with_base].
    destruct (create_ticket_call_raises D E customer_id "WhatsApp Support" w2)
      as (e3 & w3 & Hrun & H3).
    rewrite Hrun. exists e3, w3. split; [reflexivity|].
    unfold same_tickets in *. congruence. }
  destruct Hbody as (e & w' & -> & Ht).
  eexists. split; [reflexivity|]. cbn. auto.
Qed.

End HandlerFacts.

Module DeliveredTextFacts.

Import WhatsAppMCPClient WhatsAppHandler StrFacts ChannelTextFacts
  HandlerFacts CutScenario.

Lemma take_exact (n : nat) (s : string) :
  (n <= String.length s)%nat -> String.length (Str.take n s) = n.
Proof.
  revert s. induction n as [|n IH]; intros [|c s] H; simpl in *;
    try reflexivity; [lia|].
  rewrite IH by lia. reflexivity.
Qed.

(** C6: what reaches the customer.  The handler that both runners
    deliver through posts the first 300 characters of the text it is
    given, and the runners give it the generated text as it is.  So for
    every text of 400 characters the posted text is exactly its first
    300 characters: within the limit, but cut wherever the 300th
    character falls and with nothing appended; the remaining 100
    characters are dropped. *)
Theorem whatsapp_delivery_is_a_hard_cut (D : site) (E : env) (H : handler)
  (ticket_id text to_phone : string) (p : plant) :
  _initialized H = true -> _mcp_client H = true ->
  String.length text = 400%nat ->
  exists b p' dropped,
    send_response D E H ticket_id (PStr text) to_phone p = (Ok b, p')
    /\ posted p'
       = (_normalize_phone_number to_phone, Str.take 300 text) :: posted p
    /\ text = Str.take 300 text +:+ dropped
    /\ String.length (Str.take 300 text) = 300%nat
    /\ String.length dropped = 100%nat.
Proof.
  intros Hi Hc Hlen.
  destruct (send_response_text D E H ticket_id text to_phone p Hi Hc)
    as (b & p' & Hrun & Hposted & _ & [dropped Hd] & _).
  exists b, p', dropped.
  assert (H300 : String.length (Str.take 300 text) = 300%nat)
    by (apply take_exact; lia).
  split; [exact Hrun|]. split; [exact Hposted|]. split; [exact Hd|].
  split; [exact H300|].
  pose proof (f_equal String.length Hd) as Hl.
  rewrite length_app, H300, Hlen in Hl. lia.
Qed.

Lemma whatsapp_delivery_is_a_hard_cut_witness :
  String.length reply_cut = 400%nat
  /\ hd_error
       (calls (snd (AgentRunner.process_message cutting "T-1" "C-1"
                      "How do I invite team members?" "whatsapp"
                      (Scenario.desk "whatsapp"))))
     = Some (WhatsAppSend "T-1" (PStr reply_cut) "+100")
  /\ (exists b p' dropped,
        send_response open_bridge cutting (mkHandler true true) "T-1"
          (PStr reply_cut) "+100" (idle "whatsapp") = (Ok b, p')
        /\ posted p' = [("100", cut_300)]
        /\ reply_cut = cut_300 +:+ dropped)
  /\ Formatters.format_for_channel reply_cut Formatters.WHATSAPP "T-1"
     = formatted_299.
Proof.
  assert (Hlen : String.length reply_cut = 400%nat) by reflexivity.
  split; [exact Hlen|].
  split; [vm_compute; reflexivity|].
  split; [|vm_compute; reflexivity].
  destruct (whatsapp_delivery_is_a_hard_cut open_bridge cutting
              (mkHandler true true) "T-1" reply_cut "+100" (idle "whatsapp")
              eq_refl eq_refl Hlen)
    as (b & p' & dropped & Hrun & Hposted & Hd & _).
  assert (Hcut : Str.take 300 reply_cut = cut_300) by (vm_compute; reflexivity).
  rewrite Hcut in Hposted, Hd.
  exists b, p', dropped.
  split; [exact Hrun|]. split; [exact Hposted|exact Hd].
Defined.

End DeliveredTextFacts.

Module WorkerFacts.

Import MessageProcessor MonadFacts SentimentFacts RunnerFacts OverwriteFacts
  HandlerFacts.

Lemma lift_ok {A : Type} (m : M A) (p : plant) (a : A) (w' : world) :
  m (base p) = (Ok a, w') -> lift m p = (Ok a, with_base w' p).
Proof. intros H. unfold lift. rewrite H. reflexivity. Qed.

Lemma lift_raise {A : Type} (m : M A) (p : plant) (e : exn) (w' : world) :
  m (base p) = (Raise e, w') -> lift m p = (Raise e, with_base w' p).
Proof. intros H. unfold lift. rewrite H. reflexivity. Qed.

Lemma publish_run (D : site) (topic : string) (event : kafka_event)
  (p : plant) :
  Kafka.publish D topic event p
  = (Ok tt, mkPlant (base p) (handler_rows p) (posted p)
              (if kafka_connected D then (topic, event) :: published p
               else published p)).
Proof.
  unfold Kafka.publish. destruct (kafka_connected D); cbn; [reflexivity|].
  destruct p; reflexivity.
Qed.

(** The fields of a payload that passes the completeness test. *)
Lemma complete_fields (message : inbound) :
  forallb truthy_opt
    [i_ticket_id message; i_customer_id message;
     match i_message message with
     | None => Some EmptyString
     | given => given
     end]
  = forallb truthy_opt
      [i_ticket_id message; i_customer_id message; i_message message].
Proof. destruct (i_message message); reflexivity. Qed.

(** X21.  [_handle_message] is where the faults of the pipeline end.  It
    never raises, whatever the payload, the capabilities and the store
    do.  A payload that lacks the ticket id, the customer id or the
    text, or holds an empty one, is dropped without any effect: no
    store access, no model call, nothing published.  And when
    [process] lets an exception escape, the worker publishes the
    payload with that exception to the dead-letter topic and
    returns. *)
Theorem handle_message_never_raises (D : site) (E : env) (topic : string)
  (message : inbound) (p : plant) :
  (exists p', _handle_message D E topic message p = (Ok tt, p'))
  /\ (forallb truthy_opt
        [i_ticket_id message; i_customer_id message; i_message message]
      = false ->
      _handle_message D E topic message p = (Ok tt, p))
  /\ (forall e w',
        forallb truthy_opt
          [i_ticket_id message; i_customer_id message; i_message message]
        = true ->
        process E (default EmptyString (i_ticket_id message))
          (default EmptyString (i_customer_id message))
          (default EmptyString (i_message message))
          (_get_channel_from_topic topic) (base p) = (Raise e, w') ->
        _handle_message D E topic message p
        = (Ok tt,
           mkPlant w' (handler_rows p) (posted p)
             (if kafka_connected D
              then (Kafka.item "dlq" Kafka.TOPICS, DeadLetter topic e message)
                     :: published p
              else published p))).
Proof.
  split; [|split].
  - unfold _handle_message, wtry.
    destruct (handle_body D E topic message p) as [[[]|e] p1]; [eauto|].
    rewrite publish_run. eauto.
  - intros Hinc. unfold _handle_message, wtry, handle_body.
    rewrite complete_fields, Hinc. reflexivity.
  - intros e w' Hc Hrun. unfold _handle_message, wtry, handle_body.
    rewrite complete_fields, Hc. cbn [negb].
    assert (Hm : default EmptyString
                   match i_message message with
                   | None => Some EmptyString
                   | given => given
                   end
                 = default EmptyString (i_message message))
      by (destruct (i_message message); reflexivity).
    rewrite Hm.
    rewrite (wbind_raise _ _ _ _ _ (lift_raise _ _ _ _ Hrun)).
    rewrite publish_run. reflexivity.
Qed.

(** ** Which escalations reach the escalations topic *)

(** The agent runner on a working store, when the policy escalates. *)
Lemma agent_escalation_run (E : env)
  (ticket_id customer_id message channel : string) (w : world)
  (r : Sentiment.SentimentResult) :
  fst (Sentiment.analyze_sentiment E message w) = Ok r ->
  Escalation.should_escalate
    (Escalation.decide_escalation message (Sentiment.score r)) = true ->
  (forall k, store_ok E k = true) ->
  AgentRunner.process_message E ticket_id customer_id message channel w
  = (Ok (AgentRunner._get_escalation_response channel),
     with_ticket ticket_id
       (set_escalated
          ("Escalation reason: "
           +:+ Escalation.reason
                 (Escalation.decide_escalation message (Sentiment.score r))))
       (tick (tick (with_call (SentimentCall (Sentiment.prompt_of message))
                      w)))).
Proof.
  intros Hr Hesc Hok.
  destruct (analyze_sentiment_run E message w) as [r' Hrun].
  rewrite Hrun in Hr. injection Hr as ->.
  assert (Hbody : AgentRunner.process_body E ticket_id customer_id message
                    channel w
    = (Ok (AgentRunner._get_escalation_response channel),
       with_ticket ticket_id
         (set_escalated
            ("Escalation reason: "
             +:+ Escalation.reason
                   (Escalation.decide_escalation message (Sentiment.score r))))
         (tick (tick (with_call (SentimentCall (Sentiment.prompt_of message))
                        w))))).
  { unfold AgentRunner.process_body.
    rewrite (bind_ok _ _ _ _ _ Hrun).
    unfold AgentRunner.after_sentiment. rewrite Hesc.
    rewrite (bind_ok _ _ _ _ tt
               (escalate_ok E ticket_id _
                  (with_call (SentimentCall (Sentiment.prompt_of message)) w)
                  (Hok _) (Hok _))).
    reflexivity. }
  unfold AgentRunner.process_message, try_except. rewrite Hbody. reflexivity.
Qed.

(** X22.  An escalation that the policy decides in the agent runner is
    announced: for a complete payload on a topic that is not the
    WhatsApp one, a working store that holds the ticket and a connected
    producer, the worker publishes the metrics event and then an event
    on the escalations topic that carries the policy's reason. *)
Theorem policy_escalation_is_published (D : site) (E : env)
  (topic ticket_id customer_id text : string) (p : plant)
  (r : Sentiment.SentimentResult) (t : ticket) :
  let channel := _get_channel_from_topic topic in
  let decision := Escalation.decide_escalation text (Sentiment.score r) in
  channel <> "whatsapp" ->
  forallb truthy_opt [Some ticket_id; Some customer_id; Some text] = true ->
  fst (Sentiment.analyze_sentiment E text (base p)) = Ok r ->
  Escalation.should_escalate decision = true ->
  (forall k, store_ok E k = true) ->
  tickets (base p) !! ticket_id = Some t ->
  kafka_connected D = true ->
  exists p',
    _handle_message D E topic
      (mkInbound (Some ticket_id) (Some customer_id) (Some text)) p
    = (Ok tt, p')
    /\ published p'
       = (Kafka.item "escalations" Kafka.TOPICS,
          TicketEscalated ticket_id customer_id
            (Some ("Escalation reason: " +:+ Escalation.reason decision))
            channel)
         :: (Kafka.item "metrics" Kafka.TOPICS,
             MessageProcessed ticket_id channel
               (Str.len (AgentRunner._get_escalation_response channel)))
         :: published p.
Proof.
  intros channel decision Hch Hc Hr Hesc Hok Ht Hk.
  pose proof (agent_escalation_run E ticket_id customer_id text channel
                (base p) r Hr Hesc Hok) as Hrun.
  set (w1 := with_ticket ticket_id
               (set_escalated
                  ("Escalation reason: " +:+ Escalation.reason decision))
               (tick (tick (with_call
                              (SentimentCall (Sentiment.prompt_of text))
                              (base p))))) in *.
  assert (Hproc : process E ticket_id customer_id text channel (base p)
                  = (Ok (PStr (AgentRunner._get_escalation_response channel)),
                     w1)).
  { unfold process.
    destruct (String.eqb channel "whatsapp") eqn:Hw;
      [apply String.eqb_eq in Hw; contradiction|].
    rewrite (bind_ok _ _ _ _ _ Hrun). reflexivity. }
  unfold _handle_message, wtry, handle_body.
  cbn [i_ticket_id i_customer_id i_message].
  rewrite Hc. cbn [negb default].
  fold channel.
  rewrite (wbind_ok _ _ _ _ _ (lift_ok _ _ _ _ Hproc)).
  unfold py_len, wret. unfold wbind at 1.
  rewrite (wbind_ok _ _ _ _ _ (publish_run _ _ _ _)). rewrite Hk.
  unfold wbind, lift, bind, read, store_op. cbn [base with_base].
  rewrite !Hok.
  cbn [tick store_ops tickets base].
  replace (tickets w1 !! ticket_id)
    with (Some (set_escalated
                  ("Escalation reason: " +:+ Escalation.reason decision) t)).
  2:{ subst w1. cbn [with_ticket tickets tick with_call].
      rewrite lookup_alter_eq, Ht. reflexivity. }
  cbn [set_escalated t_status t_resolution_notes].
  change (String.eqb "escalated" "escalated") with true. cbn iota.
  rewrite publish_run, Hk.
  eexists. split; reflexivity.
Qed.

Lemma policy_escalation_is_published_witness :
  exists p',
    _handle_message (mkSite true (fun _ _ => None) (fun _ => "N"))
      Scenario.calm "fte.channels.email.inbound"
      (mkInbound (Some "T-1") (Some "C-1") (Some "I will call my lawyer"))
      (mkPlant (Scenario.desk "email") [] [] [])
    = (Ok tt, p')
    /\ published p'
       = [("fte.escalations",
           TicketEscalated "T-1" "C-1"
             (Some "Escalation reason: keyword_detected:lawyer") "email");
          ("fte.metrics",
           MessageProcessed "T-1" "email"
             (Str.len (AgentRunner._get_escalation_response "email")))].
Proof.
  refine (policy_escalation_is_published
            (mkSite true (fun _ _ => None) (fun _ => "N"))
            Scenario.calm "fte.channels.email.inbound" "T-1" "C-1"
            "I will call my lawyer"
            (mkPlant (Scenario.desk "email") [] [] [])
            (Sentiment.mkSentiment (Finite (65 # 100)) "neutral"
               (Finite (9 # 10)) false)
            (mkTicket "open" None "email" "C-1" "K-1")
            _ _ _ _ _ _ _).
  - discriminate.
  - reflexivity.
  - vm_compute. reflexivity.
  - vm_compute. reflexivity.
  - intros k. reflexivity.
  - vm_compute. reflexivity.
  - reflexivity.
Defined.

(** The WhatsApp runner on a working store, for a quick answer that
    is flagged for escalation. *)
Lemma whatsapp_flagged_answer_run (E : env)
  (ticket_id customer_id message channel : string) (w : world)
  (qa : QuickAnswer.quick_answer) (t : ticket) (c : customer) :
  QuickAnswer.get_quick_answer message = Some qa ->
  QuickAnswer.qa_escalate qa = true ->
  (forall k, store_ok E k = true) ->
  tickets w !! ticket_id = Some t ->
  customers w !! t_customer_id t = Some c ->
  exists w',
    WhatsAppAgentRunner.process_message E ticket_id customer_id message
      channel w
    = (Ok (PStr (QuickAnswer.qa_response qa)), w')
    /\ t_status <$> tickets w' !! ticket_id = Some "resolved".
Proof.
  intros Hqa Hesc Hok Ht Hc.
  unfold WhatsAppAgentRunner.process_message, try_except,
    WhatsAppAgentRunner.process_body.
  rewrite Hqa, Hesc.
  rewrite (bind_ok _ _ _ _ tt
             (escalate_ok E ticket_id _ w (Hok _) (Hok _))).
  destruct (whatsapp_send_resolves E ticket_id
              (PStr (QuickAnswer.qa_response qa)) channel
              (with_ticket ticket_id
                 (set_escalated
                    ("Escalation reason: "
                     +:+ "quick_answer_" +:+ QuickAnswer.qa_intent qa))
                 (tick (tick w)))
              (set_escalated
                 ("Escalation reason: "
                  +:+ "quick_answer_" +:+ QuickAnswer.qa_intent qa) t) c)
    as (w' & Hrun & Htk).
  - exact Hok.
  - simpl. rewrite lookup_alter_eq, Ht. reflexivity.
  - exact Hc.
  - rewrite (bind_ok _ _ _ _ tt Hrun).
    exists w'. split; [reflexivity|].
    rewrite Htk. simpl. rewrite !lookup_alter_eq, Ht. reflexivity.
Qed.

(** X23.  An escalation that a quick answer asks for is never announced: for
    a complete payload on the WhatsApp topic whose text gets a quick
    answer flagged for escalation (refund, pricing, contact_support),
    on a working store and a connected producer, the worker publishes
    the metrics event and nothing else; no event reaches the
    escalations topic, because the ticket is read back as
    'resolved'. *)
Theorem flagged_quick_answer_is_not_published (D : site) (E : env)
  (topic ticket_id customer_id text : string) (p : plant)
  (qa : QuickAnswer.quick_answer) (t : ticket) (c : customer) :
  _get_channel_from_topic topic = "whatsapp" ->
  forallb truthy_opt [Some ticket_id; Some customer_id; Some text] = true ->
  QuickAnswer.get_quick_answer text = Some qa ->
  QuickAnswer.qa_escalate qa = true ->
  (forall k, store_ok E k = true) ->
  tickets (base p) !! ticket_id = Some t ->
  customers (base p) !! t_customer_id t = Some c ->
  kafka_connected D = true ->
  exists p',
    _handle_message D E topic
      (mkInbound (Some ticket_id) (Some customer_id) (Some text)) p
    = (Ok tt, p')
    /\ published p'
       = (Kafka.item "metrics" Kafka.TOPICS,
          MessageProcessed ticket_id "whatsapp"
            (Str.len (QuickAnswer.qa_response qa)))
         :: published p.
Proof.
  intros Hch Hc Hqa Hesc Hok Ht Hcu Hk.
  destruct (whatsapp_flagged_answer_run E ticket_id customer_id text
              "whatsapp" (base p) qa t c Hqa Hesc Hok Ht Hcu)
    as (w1 & Hrun & Hst).
  assert (Hproc : process E ticket_id customer_id text "whatsapp" (base p)
                  = (Ok (PStr (QuickAnswer.qa_response qa)), w1))
    by exact Hrun.
  unfold _handle_message, wtry, handle_body.
  cbn [i_ticket_id i_customer_id i_message].
  rewrite Hc, Hch. cbn [negb default].
  rewrite (wbind_ok _ _ _ _ _ (lift_ok _ _ _ _ Hproc)).
  unfold py_len, wret. unfold wbind at 1.
  rewrite (wbind_ok _ _ _ _ _ (publish_run _ _ _ _)). rewrite Hk.
  unfold wbind, lift, bind, read, store_op. cbn [base with_base].
  rewrite !Hok.
  cbn [tick store_ops tickets base with_base id].
  destruct (tickets w1 !! ticket_id) as [row|]; [|discriminate].
  cbn in Hst. injection Hst as ->.
  change (String.eqb "resolved" "escalated") with false. cbn iota.
  eexists. split; reflexivity.
Qed.

Lemma flagged_quick_answer_is_not_published_witness :
  exists p',
    _handle_message (mkSite true (fun _ _ => None) (fun _ => "N"))
      Scenario.calm "fte.channels.whatsapp.inbound"
      (mkInbound (Some "T-1") (Some "C-1") (Some "I want a refund"))
      (mkPlant (Scenario.desk "whatsapp") [] [] [])
    = (Ok tt, p')
    /\ published p'
       = [("fte.metrics",
           MessageProcessed "T-1" "whatsapp"
             (Str.len QuickAnswer.response_refund))].
Proof.
  refine (flagged_quick_answer_is_not_published
            (mkSite true (fun _ _ => None) (fun _ => "N"))
            Scenario.calm "fte.channels.whatsapp.inbound" "T-1" "C-1"
            "I want a refund"
            (mkPlant (Scenario.desk "whatsapp") [] [] [])
            (QuickAnswer.mkQuick "refund" QuickAnswer.response_refund
               "billing" true "quick_answer")
            (mkTicket "open" None "whatsapp" "C-1" "K-1")
            (mkCustomer (Some "ann@example.com") (Some "+100") (Some "Ann"))
            _ _ _ _ _ _ _ _).
  - reflexivity.
  - reflexivity.
  - vm_compute. reflexivity.
  - reflexivity.
  - intros k. reflexivity.
  - vm_compute. reflexivity.
  - vm_compute. reflexivity.
  - reflexivity.
Defined.

End WorkerFacts.
